(** * autoclasswrapper: the input-preparation pipeline of [wrap_in.py]

    A shallow embedding of [src/autoclasswrapper/wrap_in.py]: the [Dataset]
    class (one loaded table with its column metadata), the [Input]
    orchestrator (the list of datasets, the merged dataset, the sticky error
    flag) and the [handle_error] decorator, followed by the properties of the
    specification that concern them.

    Python objects live in a store ([heap]) and are named by their position
    in it, so that [self.full_dataset = self.input_datasets[0]] is an alias
    and not a copy.  Every method is a computation in a state-and-exception
    monad over the whole world: the orchestrator, the store, the log and the
    files. *)

From Stdlib Require Import ZArith Lia Ascii DecimalString SpecFloat.
From stdpp Require Import base option list gmap strings.

(** ** Python strings *)

Module Py.

Definition nl : string := String "010"%char "".
Definition tab : string := String "009"%char "".

(** [str(n)] of a non-negative [int]. *)
Definition str_of_nat (n : nat) : string :=
  NilZero.string_of_uint (Nat.to_uint n).

(** [sep.join(l)] *)
Definition join (sep : string) (l : list string) : string :=
  String.concat sep l.

(** [tmpl.format(a1, ..., an)] for templates whose only replacement field is
    [{}]: each field takes the next argument, a field without argument is
    an [IndexError] ([None] here), arguments without field are ignored. *)
Fixpoint format (tmpl : string) (args : list string) : option string :=
  match tmpl with
  | EmptyString => Some EmptyString
  | String c rest =>
      match rest with
      | String d rest' =>
          if Ascii.eqb c "{" && Ascii.eqb d "}" then
            match args with
            | a :: args' => String.append a <$> format rest' args'
            | [] => None
            end
          else String c <$> format rest args
      | EmptyString => Some (String c EmptyString)
      end
  end.

(** ["'{}'".format(s)] *)
Definition quoted (s : string) : string := "'" +:+ s +:+ "'".

(** [repr(s)] of a [str] without quote or escape inside, and [str(l)] of a
    list of such strings. *)
Definition repr (s : string) : string := quoted s.
Definition str_of_list (l : list string) : string :=
  "[" +:+ join ", " (repr <$> l) +:+ "]".

(** [s.split(sep)] for a separator of one character. *)
Fixpoint split_go (sep : ascii) (acc : string) (s : string) : list string :=
  match s with
  | EmptyString => [String.rev acc]
  | String c r =>
      if Ascii.eqb c sep then String.rev acc :: split_go sep EmptyString r
      else split_go sep (String c acc) r
  end.
Definition split (sep : ascii) (s : string) : list string :=
  split_go sep EmptyString s.

(** The ASCII characters for which [str.isspace] holds. *)
Definition isspace (c : ascii) : bool :=
  let n := Ascii.nat_of_ascii c in
  (Nat.leb 9 n && Nat.leb n 13) || (Nat.leb 28 n && Nat.leb n 32).

Fixpoint lstrip (s : string) : string :=
  match s with
  | String c r => if isspace c then lstrip r else s
  | EmptyString => EmptyString
  end.

(** [s.strip()] *)
Definition strip (s : string) : string :=
  String.rev (lstrip (String.rev (lstrip s))).

(** [f.readline()] on a file opened in text mode at its start: the first
    line, its newline included.  In text mode a carriage return ends a line
    as a line feed does, and the line is returned with a line feed. *)
Fixpoint readline (content : string) : string :=
  match content with
  | EmptyString => EmptyString
  | String c r =>
      if Ascii.eqb c "010" || Ascii.eqb c "013" then nl
      else String c (readline r)
  end.

(** The character class [A-Za-z0-9 .+-] of [clean_column_names]. *)
Definition whitelisted (c : ascii) : bool :=
  let n := Ascii.nat_of_ascii c in
  (Nat.leb 65 n && Nat.leb n 90) || (Nat.leb 97 n && Nat.leb n 122)
  || (Nat.leb 48 n && Nat.leb n 57)
  || Nat.eqb n 32 || Nat.eqb n 46 || Nat.eqb n 43 || Nat.eqb n 45.

(** [re.compile('[^A-Za-z0-9 .+-]+').sub("_", s)]: every maximal run of
    characters outside the class becomes one ["_"].  [in_run] tells that
    the run being read has already been replaced.  A string is its UTF-8
    bytes here; the bytes of a character beyond ASCII are all outside the
    class and adjacent, so the result is the encoding of what Python
    computes on code points. *)
Fixpoint sub_runs (in_run : bool) (s : string) : string :=
  match s with
  | EmptyString => EmptyString
  | String c r =>
      if whitelisted c then String c (sub_runs false r)
      else if in_run then sub_runs true r
      else String "_" (sub_runs true r)
  end.
Definition regex_sub (s : string) : string := sub_runs false s.

End Py.

(** ** Exceptions

    The exceptions that the methods and the library calls they make can
    raise, all of them instances of Python's [Exception]: the two classes of
    [wrap_in.py] and the built-in ones.  [exn_str e] is [str(e)].  Signals
    that the interpreter delivers from outside the running code
    ([KeyboardInterrupt]) are not part of this sequential model. *)

Inductive exn_class :=
  | AssertionError | AttributeError | KeyError | IndexError | TypeError
  | ValueError | FileNotFoundError | InvalidIndexError | ParserError
  | ReferenceError
  | CastFloat64 | DuplicateColumnName.

Record exn := Exn { exn_cls : exn_class; exn_str : string }.

Inductive outcome (A : Type) :=
  | Return (a : A)
  | Raise (e : exn).
Arguments Return {A} a.
Arguments Raise {A} e.

#[global] Instance exn_class_eq_dec : EqDecision exn_class.
Proof. solve_decision. Defined.
#[global] Instance exn_eq_dec : EqDecision exn.
Proof. solve_decision. Defined.

(** ** The part of pandas that [wrap_in.py] uses *)

Module Pandas.

(** A cell is a float64 or a [str]; a missing cell is the float NaN, in
    float columns and in object columns alike.  Integer columns are taken
    at their float64 value. *)
Inductive cell :=
  | Flt (x : spec_float)
  | Str (s : string).

Definition NaN : cell := Flt S754_nan.

Definition is_nan (x : spec_float) : bool :=
  match x with S754_nan => true | _ => false end.

(** [pd.isnull] on one cell *)
Definition isnull (c : cell) : bool :=
  match c with Flt x => is_nan x | Str _ => false end.

(** Equality of two cells as values: [0.0 == -0.0], strings by content. *)
Definition cell_eqb (a b : cell) : bool :=
  match a, b with
  | Flt x, Flt y => SFeqb x y
  | Str s, Str t => bool_decide (s = t)
  | _, _ => false
  end.

(** A table: the name of the row-key column ([df.index.name]), the row
    keys ([df.index]) and the data columns in order, each with its label
    and its cells, one per row. *)
Record DataFrame := {
  index_name : option string;
  index : list string;
  cols : list (string * list cell)
}.

(** [df.columns] *)
Definition columns (t : DataFrame) : list string := (cols t).*1.

(** [df.shape] *)
Definition shape (t : DataFrame) : nat * nat :=
  (length (index t), length (cols t)).

(** Every column has one cell per row. *)
Definition rectangular (t : DataFrame) : Prop :=
  Forall (λ c, length c.2 = length (index t)) (cols t).

(** [df.index.name = new] *)
Definition set_index_name (new : string) (t : DataFrame) : DataFrame :=
  {| index_name := Some new; index := index t; cols := cols t |}.

(** [df.rename(columns={old: new}, inplace=True)]: every label equal to
    [old] becomes [new]. *)
Definition rename (old new : string) (t : DataFrame) : DataFrame :=
  {| index_name := index_name t; index := index t;
     cols := (λ c, (if decide (c.1 = old) then new else c.1, c.2)) <$> cols t |}.

(** [df[name]] for a label of [df.columns]: the columns that carry the
    label (one column, unless the label is repeated). *)
Definition getitem (t : DataFrame) (name : string) : list (list cell) :=
  (filter (λ c, c.1 = name) (cols t)).*2.

(** The distinct values of a list of cells, first occurrences kept. *)
Fixpoint distinct (seen : list cell) (cs : list cell) : list cell :=
  match cs with
  | [] => []
  | c :: r =>
      if existsb (cell_eqb c) seen then distinct seen r
      else c :: distinct (c :: seen) r
  end.

(** [Series.nunique()]: the number of distinct values, missing ones
    apart. *)
Definition nunique (cs : list cell) : nat :=
  length (distinct [] (filter (λ c, isnull c = false) cs)).

(** [df.columns[df.isnull().any()].tolist()] *)
Definition columns_with_null (t : DataFrame) : list string :=
  (filter (λ c, existsb isnull c.2 = true) (cols t)).*1.

(** *** [df.min()]

    The minimum of each column, missing cells skipped, as a Series
    labelled by the column names.  A column on which the reduction fails
    (an object column that mixes [str] cells with NaN: [str] and [float]
    do not compare) is left out of the result, as pandas did before 2.0
    (from 2.0 on the whole call raises [TypeError] instead). *)

Definition fmin (x y : spec_float) : spec_float :=
  if SFltb y x then y else x.

Definition nanmin (xs : list spec_float) : spec_float :=
  match filter (λ x, is_nan x = false) xs with
  | [] => S754_nan
  | x :: r => foldl fmin x r
  end.

Definition smin (s t : string) : string :=
  if String.ltb t s then t else s.

Definition floats_of (cs : list cell) : option (list spec_float) :=
  mapM (λ c, match c with Flt x => Some x | Str _ => None end) cs.

Definition strs_of (cs : list cell) : option (list string) :=
  mapM (λ c, match c with Str s => Some s | Flt _ => None end) cs.

Definition col_min (cs : list cell) : option cell :=
  match floats_of cs with
  | Some xs => Some (Flt (nanmin xs))
  | None =>
      match strs_of cs with
      | Some (s :: r) => Some (Str (foldl smin s r))
      | _ => None
      end
  end.

Definition df_min (t : DataFrame) : list (string * cell) :=
  omap (λ c, pair c.1 <$> col_min c.2) (cols t).

(** [series[i]] for an integer [i] on a Series labelled by strings: the
    value at position [i]. *)
Definition series_at (s : list (string * cell)) (i : nat) : outcome cell :=
  match s !! i with
  | Some v => Return v.2
  | None => Raise (Exn IndexError "index out of bounds")
  end.

(** [v >= 0.0] for a value taken out of a Series. *)
Definition ge_zero (v : cell) : outcome bool :=
  match v with
  | Flt x => Return (SFleb (S754_zero false) x)
  | Str _ =>
      Raise (Exn TypeError
               "'>=' not supported between instances of 'str' and 'float'")
  end.

(** *** [pd.concat(objs, axis=1, join="outer")]

    Tables side by side on the union of their row keys.  [None] entries
    are dropped; an empty list raises.  Tables whose indexes are all the
    same are put side by side as they are; otherwise every index must be
    free of repeated keys, the new index is the union of the keys, and each
    column is re-indexed on it, NaN where its table has no such row.  The
    union is taken in order of first appearance; the order that pandas
    gives it has changed with its versions, and nothing below depends on
    it. *)

Fixpoint position (k : string) (l : list string) : option nat :=
  match l with
  | [] => None
  | x :: r => if decide (x = k) then Some 0 else S <$> position k r
  end.

Definition reindex (old new : list string) (cs : list cell) : list cell :=
  (λ k, match position k old with
        | Some i => default NaN (cs !! i)
        | None => NaN
        end) <$> new.

Definition union_index (idxs : list (list string)) : list string :=
  reverse (remove_dups (reverse (mjoin idxs))).

Definition concat_outer (objs : list (option DataFrame)) : outcome DataFrame :=
  match objs with
  | [] => Raise (Exn ValueError "No objects to concatenate")
  | _ :: _ =>
      match omap id objs with
      | [] => Raise (Exn ValueError "All objects passed were None")
      | t0 :: ts =>
          let name :=
            if forallb (λ t, bool_decide (index_name t = index_name t0)) ts
            then index_name t0 else None in
          if forallb (λ t, bool_decide (index t = index t0)) ts then
            Return {| index_name := name; index := index t0;
                      cols := (t0 :: ts) ≫= cols |}
          else if forallb (λ t, bool_decide (NoDup (index t))) (t0 :: ts) then
            let u := union_index (index <$> t0 :: ts) in
            Return {| index_name := name; index := u;
                      cols := (t0 :: ts) ≫= (λ t,
                                (λ c, (c.1, reindex (index t) u c.2)) <$> cols t) |}
          else
            Raise (Exn InvalidIndexError
                     "Reindexing only valid with uniquely valued Index objects")
      end
  end.

(** The cells of the first column labelled [c]. *)
Fixpoint column (c : string) (cs : list (string * list cell))
    : option (list cell) :=
  match cs with
  | [] => None
  | x :: r => if decide (x.1 = c) then Some x.2 else column c r
  end.

(** [df.at[k, c]]: the cell of row [k] in the column labelled [c]. *)
Definition at_ (t : DataFrame) (k c : string) : option cell :=
  cs ← column c (cols t);
  i ← position k (index t);
  cs !! i.

End Pandas.

Import Pandas.

(** What [wrap_in.py] calls and this development does not look into: the
    text of a float cast, the parser of [pd.read_table], the encoding guess
    of [chardet] and pandas' renderings of summaries.  The renderings are
    functions: [describe] and [to_string] are taken to return on every
    column. *)
Class Library := {
  (** [float(s)] as numpy applies it to a [str] cell in
      [astype('float64')]; [None] when it raises. *)
  float_of_str : string → option spec_float;
  (** [df[col].describe(percentiles=[]).to_string()] *)
  describe_to_string : list (list cell) → string;
  (** [str] of the Series of counts that [nunique] returns on a label that
      several columns carry *)
  counts_to_string : list nat → string;
  (** [chardet.detect(bytes)['encoding']] *)
  detect_encoding : string → option string;
  (** [pd.read_table(file, sep='\t', header=0, index_col=0, encoding=enc)]
      on the content of the file *)
  read_table : string → option string → outcome DataFrame
}.

(** ** Objects and the world *)

(** The [error] argument of a dataset: a number (kept as its [str]) or
    [None]. *)
Inductive pyval :=
  | PyNone
  | PyNum (text : string).

Definition py_str (v : pyval) : string :=
  match v with PyNone => "None" | PyNum t => t end.

(** [str] of an optional string ([None] when absent). *)
Definition opt_str (o : option string) : string := default "None" o.

(** One entry of [column_meta]: [{'type': .., 'error': .., 'missing': ..}].
    The record is kept by value. *)
Record Meta := {
  m_type : string;
  m_error : pyval;
  m_missing : bool
}.

Definition set_missing (b : bool) (m : Meta) : Meta :=
  {| m_type := m_type m; m_error := m_error m; m_missing := b |}.

(** [class Dataset] *)
Record Dataset := {
  input_file : string;
  df : option DataFrame;
  column_meta : gmap string Meta
}.

(** [Dataset.__init__] *)
Definition Dataset_init : Dataset :=
  {| input_file := ""; df := None; column_meta := ∅ |}.

(** An object of class [Dataset] is named by its position in the store. *)
Abbreviation ref := nat (only parsing).

(** [class Input] *)
Record Input := {
  inputfolder : string;
  missing_encoding : string;
  separator : string;
  input_datasets : list ref;
  full_dataset : ref;
  tolerate_error : bool;
  had_error : bool
}.

Inductive level := DEBUG | INFO | WARNING | ERROR.

#[global] Instance level_eq_dec : EqDecision level.
Proof. solve_decision. Defined.

(** The world: the orchestrator, the store of [Dataset] objects, the
    records sent to the logger and the files, by name. *)
Record World := {
  inp : Input;
  heap : list Dataset;
  log : list (level * string);
  fs : gmap string string
}.

Definition with_inp (f : Input → Input) (w : World) : World :=
  {| inp := f (inp w); heap := heap w; log := log w; fs := fs w |}.
Definition with_heap (f : list Dataset → list Dataset) (w : World) : World :=
  {| inp := inp w; heap := f (heap w); log := log w; fs := fs w |}.
Definition with_log (f : list (level * string) → list (level * string))
    (w : World) : World :=
  {| inp := inp w; heap := heap w; log := f (log w); fs := fs w |}.
Definition with_fs (f : gmap string string → gmap string string)
    (w : World) : World :=
  {| inp := inp w; heap := heap w; log := log w; fs := f (fs w) |}.

Definition set_had_error (b : bool) (i : Input) : Input :=
  {| inputfolder := inputfolder i; missing_encoding := missing_encoding i;
     separator := separator i; input_datasets := input_datasets i;
     full_dataset := full_dataset i; tolerate_error := tolerate_error i;
     had_error := b |}.
Definition set_full_dataset (r : ref) (i : Input) : Input :=
  {| inputfolder := inputfolder i; missing_encoding := missing_encoding i;
     separator := separator i; input_datasets := input_datasets i;
     full_dataset := r; tolerate_error := tolerate_error i;
     had_error := had_error i |}.
Definition set_input_datasets (l : list ref) (i : Input) : Input :=
  {| inputfolder := inputfolder i; missing_encoding := missing_encoding i;
     separator := separator i; input_datasets := l;
     full_dataset := full_dataset i; tolerate_error := tolerate_error i;
     had_error := had_error i |}.

Definition set_input_file (f : string) (d : Dataset) : Dataset :=
  {| input_file := f; df := df d; column_meta := column_meta d |}.
Definition set_df (t : option DataFrame) (d : Dataset) : Dataset :=
  {| input_file := input_file d; df := t; column_meta := column_meta d |}.
Definition set_column_meta (m : gmap string Meta) (d : Dataset) : Dataset :=
  {| input_file := input_file d; df := df d; column_meta := m |}.

(** ** The monad of methods: state and exceptions

    A computation takes the world and gives back an outcome and the world
    it left; what was done before an exception stays done. *)

Definition M (A : Type) : Type := World → outcome A * World.

#[global] Instance M_ret : MRet M := λ A a w, (Return a, w).
#[global] Instance M_bind : MBind M := λ A B f m w,
  match m w with
  | (Return a, w') => f a w'
  | (Raise e, w') => (Raise e, w')
  end.

Definition raise {A} (e : exn) : M A := λ w, (Raise e, w).
Definition gets {A} (f : World → A) : M A := λ w, (Return (f w), w).
Definition modify (f : World → World) : M unit := λ w, (Return (), f w).

(** [try: m except: h] *)
Definition try_except {A} (m : M A) (h : exn → M A) : M A := λ w,
  match m w with
  | (Return a, w') => (Return a, w')
  | (Raise e, w') => h e w'
  end.

(** [for x in l: body] *)
Fixpoint for_each {A} (l : list A) (body : A → M unit) : M unit :=
  match l with
  | [] => mret ()
  | x :: r => _ ← body x; for_each r body
  end.

(** [assert cond, msg] *)
Definition assert (cond : bool) (msg : string) : M unit :=
  if cond then mret () else raise (Exn AssertionError msg).

(** [tmpl.format(..)] as a step of a method *)
Definition fmt (tmpl : string) (args : list string) : M string :=
  match Py.format tmpl args with
  | Some s => mret s
  | None => raise (Exn IndexError "Replacement index out of range")
  end.

(** [log.debug], [log.info], [log.warning], [log.error] *)
Definition log_at (l : level) (msg : string) : M unit :=
  modify (with_log (λ entries, entries ++ [(l, msg)])).

(** Reading a reference. *)
Definition deref (r : ref) : M Dataset := λ w,
  match heap w !! r with
  | Some d => (Return d, w)
  | None => (Raise (Exn ReferenceError "no such object"), w)
  end.

(** Assigning to an attribute of the object at [r]. *)
Definition update (r : ref) (f : Dataset → Dataset) : M unit :=
  modify (with_heap (alter f r)).

(** [Dataset()] *)
Definition new_dataset : M ref := λ w,
  (Return (length (heap w)), with_heap (λ h, h ++ [Dataset_init]) w).

(** [d[key]] on a dict *)
Definition dict_get {V} (d : gmap string V) (key : string) : M V :=
  match d !! key with
  | Some v => mret v
  | None => raise (Exn KeyError (Py.repr key))
  end.

(** [self.df.<attr>]: the table, or the [AttributeError] of [None]. *)
Definition table_of (d : Dataset) (attr : string) : M DataFrame :=
  match df d with
  | Some t => mret t
  | None =>
      raise (Exn AttributeError
               ("'NoneType' object has no attribute '" +:+ attr +:+ "'"))
  end.

(** Files: [open(name)] for reading, [open(name, "w")] and [f.write].  A
    file is the text that reading it gives. *)
Definition open_read (name : string) : M string := λ w,
  match fs w !! name with
  | Some content => (Return content, w)
  | None =>
      (Raise (Exn FileNotFoundError
                ("[Errno 2] No such file or directory: " +:+ Py.repr name)), w)
  end.
Definition open_write (name : string) : M unit :=
  modify (with_fs (insert name "")).
Definition write (name : string) (text : string) : M unit :=
  modify (with_fs (λ files, <[name := default "" (files !! name) +:+ text]> files)).

Definition lift {A} (o : outcome A) : M A := λ w, (o, w).

(** [for x in l: acc = f(acc, x)], for the lists a loop builds *)
Fixpoint fold_m {A B} (f : B → A → M B) (l : list A) (b : B) : M B :=
  match l with
  | [] => mret b
  | x :: r => b' ← f b x; fold_m f r b'
  end.

(** [enumerate(l)] *)
Definition enumerate {A} (l : list A) : list (nat * A) := imap pair l.

Definition dquote : string := String "034"%char "".

(** ** [raise_on_duplicates] *)

(** [len(input_list) != len(set(input_list))], then the exception with the
    names quoted and joined. *)
Definition raise_on_duplicates (input_list : list string) : M unit :=
  if bool_decide (length input_list ≠ length (remove_dups input_list)) then
    let col_names := Py.quoted <$> input_list in
    msg ← fmt ("Found duplicate column names:" +:+ Py.nl +:+ "{}" +:+ Py.nl
               +:+ "Please clean your header") [Py.join " " col_names];
    raise (Exn DuplicateColumnName msg)
  else mret ().

Definition data_types : list string :=
  ["real scalar"; "real location"; "discrete"].

Definition is_real (ty : string) : bool :=
  bool_decide (ty ∈ ["real scalar"; "real location"]).

Section Dataset.

Context `{Library}.

(** *** [Dataset.check_duplicate_col_names] *)
Definition check_duplicate_col_names (self : ref) (input_file : string)
    : M unit :=
  f_in ← open_read input_file;
  let header := Py.split "009" (Py.strip (Py.readline f_in)) in
  raise_on_duplicates header.

(** *** [Dataset.read_datafile] *)
Definition read_datafile (self : ref) (input_file data_type : string)
    (error : pyval) : M unit :=
  msg ← fmt ("data type in {} should be: "
             +:+ "'real scalar', 'real location' or 'discrete'") [input_file];
  _ ← assert (bool_decide (data_type ∈ data_types)) msg;
  _ ← update self (set_input_file input_file);
  _ ← check_duplicate_col_names self input_file;
  f ← open_read input_file;
  let enc := detect_encoding f in
  msg ← fmt "Detected encoding: {}" [opt_str enc];
  _ ← log_at INFO msg;
  t ← lift (read_table f enc);
  _ ← update self (set_df (Some t));
  let '(nrows, ncols) := shape t in
  _ ← for_each (columns t) (λ col,
        let meta := {| m_type := data_type; m_error := error;
                       m_missing := false |} in
        update self (λ d, set_column_meta (<[col := meta]> (column_meta d)) d));
  msg ← fmt "Found {} rows and {} columns"
            [Py.str_of_nat nrows; Py.str_of_nat (ncols + 1)];
  log_at INFO msg.

(** *** [Dataset.clean_column_names] *)

(** [regex.sub("_", name)] on what [df.index.name] holds *)
Definition regex_sub_name (name : option string) : M string :=
  match name with
  | Some s => mret (Py.regex_sub s)
  | None => raise (Exn TypeError "expected string or bytes-like object")
  end.

Definition update_df (self : ref) (f : DataFrame → DataFrame) : M unit :=
  update self (λ d, set_df (f <$> df d) d).

(** The body of the second loop of [clean_column_names], for one of the
    names that the table had when the loop started *)
Definition clean_column (self : ref) (col_name : string) : M unit :=
  let col_name_new := Py.regex_sub col_name in
  if bool_decide (col_name_new ≠ col_name) then
    _ ← update_df self (rename col_name col_name_new);
    msg ← fmt "Column '{}' renamed to '{}'" [col_name; col_name_new];
    _ ← log_at WARNING msg;
    d ← deref self;
    meta ← dict_get (column_meta d) col_name;
    update self (set_column_meta
                   (<[col_name_new := meta]> (delete col_name (column_meta d))))
  else mret ().

(** The end of [clean_column_names]: all the names, to the log *)
Definition log_column_names (self : ref) : M unit :=
  d ← deref self;
  t ← table_of d "index";
  msg ← fmt "Index name {}'" [opt_str (index_name t)];
  _ ← log_at DEBUG msg;
  for_each (columns t) (λ name,
    msg ← fmt "Column name '{}'" [name];
    log_at DEBUG msg).

Definition clean_column_names (self : ref) : M unit :=
  _ ← log_at DEBUG "Checking column names";
  d ← deref self;
  t ← table_of d "index";
  let col_name := index_name t in
  col_name_new ← regex_sub_name col_name;
  _ ← (if bool_decide (Some col_name_new ≠ col_name) then
         _ ← update_df self (set_index_name col_name_new);
         msg ← fmt "Column '{}' renamed to '{}'"
                   [opt_str col_name; col_name_new];
         log_at WARNING msg
       else mret ());
  _ ← for_each (columns t) (clean_column self);
  log_column_names self.

(** *** [Dataset.check_data_type] *)

(** [float(c)] on one cell *)
Definition cast_cell (c : cell) : outcome spec_float :=
  match c with
  | Flt x => Return x
  | Str s =>
      match float_of_str s with
      | Some x => Return x
      | None =>
          Raise (Exn ValueError
                   ("could not convert string to float: " +:+ Py.repr s))
      end
  end.

(** [series.astype('float64')]: the converted copy, or the error of the
    first cell that does not convert. *)
Fixpoint astype_float64 (cs : list cell) : outcome (list spec_float) :=
  match cs with
  | [] => Return []
  | c :: r =>
      match cast_cell c with
      | Raise e => Raise e
      | Return x =>
          match astype_float64 r with
          | Raise e => Raise e
          | Return xs => Return (x :: xs)
          end
      end
  end.

(** [df[col].astype('float64')] where [df[col]] may be several columns *)
Fixpoint astype_all (css : list (list cell))
    : outcome (list (list spec_float)) :=
  match css with
  | [] => Return []
  | cs :: r =>
      match astype_float64 cs with
      | Raise e => Raise e
      | Return xs =>
          match astype_all r with
          | Raise e => Raise e
          | Return xss => Return (xs :: xss)
          end
      end
  end.

(** [str(df[col].nunique())] *)
Definition nunique_str (css : list (list cell)) : string :=
  match css with
  | [cs] => Py.str_of_nat (nunique cs)
  | _ => counts_to_string (nunique <$> css)
  end.

(** The body of the loop of [check_data_type], for the column [col] *)
Definition check_column (self : ref) (col : string) : M unit :=
  d ← deref self;
  meta ← dict_get (column_meta d) col;
  _ ← (if is_real (m_type meta) then
         try_except
           (t ← table_of d "__getitem__";
            _ ← lift (astype_all (getitem t col));
            msg ← fmt ("Column '{}'" +:+ Py.nl) [col];
            log_at INFO (msg +:+ describe_to_string (getitem t col)))
           (λ _,
            msg ← fmt ("Cannot cast column '{}' to float" +:+ Py.nl
                       +:+ "Check your input file!") [col];
            raise (Exn CastFloat64 msg))
       else mret ());
  meta ← dict_get (column_meta d) col;
  if bool_decide (m_type meta = "discrete") then
    t ← table_of d "__getitem__";
    msg ← fmt ("Column '{}'" +:+ Py.nl +:+ "{} different values")
              [col; nunique_str (getitem t col)];
    log_at INFO msg
  else mret ().

Definition check_data_type (self : ref) : M unit :=
  _ ← log_at INFO "Checking data format";
  d ← deref self;
  t ← table_of d "columns";
  for_each (columns t) (check_column self).

(** *** [Dataset.search_missing_values] *)

(** [self.column_meta[col]['missing'] = True] *)
Definition flag_missing (self : ref) (col : string) : M unit :=
  d ← deref self;
  meta ← dict_get (column_meta d) col;
  update self (set_column_meta
                 (<[col := set_missing true meta]> (column_meta d))).

Definition search_missing_values (self : ref) : M unit :=
  _ ← log_at INFO "Searching for missing values";
  d ← deref self;
  t ← table_of d "columns";
  let columns_with_missing := columns_with_null t in
  if bool_decide (columns_with_missing ≠ []) then
    _ ← for_each columns_with_missing (flag_missing self);
    msg ← fmt "Missing values found in columns: {}"
              [Py.join " " columns_with_missing];
    log_at WARNING msg
  else log_at INFO "No missing values found".

End Dataset.

(** ** [class Input] *)

(** [Input.__init__]: the world a new orchestrator starts in, over the files
    that exist.  The orchestrator owns one new, empty [Dataset]. *)
Definition Input_init (inputfolder missing_encoding separator : string)
    (tolerate_error : bool) (files : gmap string string) : World :=
  {| inp := {| inputfolder := inputfolder;
               missing_encoding := missing_encoding;
               separator := separator;
               input_datasets := [];
               full_dataset := 0;
               tolerate_error := tolerate_error;
               had_error := false |};
     heap := [Dataset_init];
     log := [];
     fs := files |}.

(** *** [Input.handle_error]

    The decorator: [f] runs if errors are tolerated or none happened yet;
    an exception of [f] is logged, one record per line of [str(e)], and
    sets [had_error].  The wrapper returns what [f] returned, and [None]
    when [f] was skipped or raised. *)
Definition handle_error {A} (f : M A) : M (option A) :=
  self ← gets inp;
  if tolerate_error self || negb (had_error self) then
    try_except
      (a ← f; mret (Some a))
      (λ e,
        _ ← for_each (Py.split "010" (exn_str e)) (log_at ERROR);
        _ ← modify (with_inp (set_had_error true));
        mret None)
  else mret None.

Section Input.

Context `{Library}.

(** *** [Input.add_input_data] *)
Definition add_input_data_body (input_file input_type : string)
    (input_error : pyval) : M unit :=
  dataset ← new_dataset;
  msg ← fmt ("data type in {} should be: "
             +:+ "'real scalar', 'real location' or 'discrete'") [input_file];
  _ ← assert (bool_decide (input_type ∈ data_types)) msg;
  msg ← fmt "Reading data file '{}' as '{}'" [input_file; input_type];
  msg ← (if is_real input_type then
           more ← fmt " with error {}" [py_str input_error];
           mret (msg +:+ more)
         else mret msg);
  _ ← log_at INFO msg;
  _ ← read_datafile dataset input_file input_type input_error;
  _ ← clean_column_names dataset;
  _ ← check_data_type dataset;
  modify (with_inp (λ self,
    set_input_datasets (input_datasets self ++ [dataset]) self)).

Definition add_input_data (input_file input_type : string)
    (input_error : pyval) : M (option unit) :=
  handle_error (add_input_data_body input_file input_type input_error).

(** *** [Input.merge_dataframes] *)

(** The body of the loop over [self.input_datasets]: the table of the
    dataset is appended to [df_lst], its metadata are merged into those of
    [self.full_dataset], over them. *)
Definition merge_step (self : Input) (df_lst : list (option DataFrame))
    (dataset : ref) : M (list (option DataFrame)) :=
  d ← deref dataset;
  full ← deref (full_dataset self);
  _ ← update (full_dataset self)
        (set_column_meta (column_meta d ∪ column_meta full));
  mret (df_lst ++ [df d]).

(** The end of [merge_dataframes], from the check for identical column
    names on *)
Definition check_merged : M unit :=
  self ← gets inp;
  full ← deref (full_dataset self);
  t ← table_of full "columns";
  _ ← raise_on_duplicates (columns t);
  let '(nrows, ncols) := shape t in
  msg ← fmt "Final dataframe has {} lines and {} columns"
            [Py.str_of_nat nrows; Py.str_of_nat (ncols + 1)];
  _ ← log_at INFO msg;
  search_missing_values (full_dataset self).

Definition merge_dataframes_body : M unit :=
  self ← gets inp;
  _ ← (if bool_decide (length (input_datasets self) = 1) then
         match input_datasets self with
         | first :: _ => modify (with_inp (set_full_dataset first))
         | [] => mret ()
         end
       else
         _ ← log_at INFO "Merging input data";
         df_lst ← fold_m (merge_step self) (input_datasets self) [];
         t ← lift (concat_outer df_lst);
         update (full_dataset self) (set_df (Some t)));
  check_merged.

Definition merge_dataframes : M (option unit) :=
  handle_error merge_dataframes_body.

(** *** [Input.create_hd2_file] *)
Definition create_hd2_file_body : M unit :=
  _ ← log_at INFO "Writing .hd2 file";
  self ← gets inp;
  full ← deref (full_dataset self);
  t ← table_of full "columns";
  let column_names := columns t in
  let hd2 := "clust.hd2" in
  _ ← open_write hd2;
  line ← fmt ("num_db2_format_defs {}" +:+ Py.nl) ["2"];
  _ ← write hd2 line;
  _ ← write hd2 Py.nl;
  line ← fmt ("number_of_attributes {}" +:+ Py.nl)
             [Py.str_of_nat (length column_names + 1)];
  _ ← write hd2 line;
  line ← fmt ("separator_char '{}'" +:+ Py.nl) [separator self];
  _ ← write hd2 line;
  _ ← write hd2 Py.nl;
  line ← fmt ("0 dummy nil " +:+ dquote +:+ "{}" +:+ dquote +:+ Py.nl)
             [opt_str (index_name t)];
  _ ← write hd2 line;
  for_each (enumerate column_names) (λ '(idx, name),
    meta ← dict_get (column_meta full) name;
    _ ← (if bool_decide (m_type meta = "real scalar") then
           v ← lift (series_at (df_min t) idx);
           nonneg ← lift (ge_zero v);
           msg ← fmt "min value for {} shoud be >= 0.0" [name];
           _ ← assert nonneg msg;
           line ← fmt ("{} real scalar " +:+ dquote +:+ "{}" +:+ dquote
                       +:+ " zero_point 0.0 rel_error {}" +:+ Py.nl)
                      [Py.str_of_nat (idx + 1); name; py_str (m_error meta)];
           write hd2 line
         else mret ());
    _ ← (if bool_decide (m_type meta = "real location") then
           line ← fmt ("{} real location " +:+ dquote +:+ "{}" +:+ dquote
                       +:+ " error {}" +:+ Py.nl)
                      [Py.str_of_nat (idx + 1); name; py_str (m_error meta)];
           write hd2 line
         else mret ());
    if bool_decide (m_type meta = "discrete") then
      line ← fmt ("{} discrete nominal " +:+ dquote +:+ "{}" +:+ dquote
                  +:+ " range {}" +:+ Py.nl)
                 [Py.str_of_nat (idx + 1); name; nunique_str (getitem t name)];
      write hd2 line
    else mret ()).

Definition create_hd2_file : M (option unit) :=
  handle_error create_hd2_file_body.

(** *** [Input.create_model_file] *)

(** The three lists that the first loop fills:
    [real_values_normals], [real_values_missing], [multinomial_values]. *)
Record Models := {
  real_values_normals : list string;
  real_values_missing : list string;
  multinomial_values : list string
}.

Definition assign_column (full : Dataset) (models : Models)
    (col : nat * string) : M Models :=
  let '(col_idx, col_name) := col in
  meta ← dict_get (column_meta full) col_name;
  let models :=
    if is_real (m_type meta) then
      if negb (m_missing meta) then
        {| real_values_normals :=
             real_values_normals models ++ [Py.str_of_nat (col_idx + 1)];
           real_values_missing := real_values_missing models;
           multinomial_values := multinomial_values models |}
      else
        {| real_values_normals := real_values_normals models;
           real_values_missing :=
             real_values_missing models ++ [Py.str_of_nat (col_idx + 1)];
           multinomial_values := multinomial_values models |}
    else models in
  mret (if bool_decide (m_type meta = "discrete") then
          {| real_values_normals := real_values_normals models;
             real_values_missing := real_values_missing models;
             multinomial_values :=
               multinomial_values models ++ [Py.str_of_nat (col_idx + 1)] |}
        else models).

Definition nonempty (l : list string) : bool :=
  match l with [] => false | _ :: _ => true end.

(** The line of the discrete columns:
    ["single_multinomial {}\n".format(" ".format(multinomial_values))],
    where the inner template [" "] has no field. *)
Definition multinomial_line (multinomial_values : list string) : M string :=
  arg ← fmt " " [Py.str_of_list multinomial_values];
  fmt ("single_multinomial {}" +:+ Py.nl) [arg].

Definition create_model_file_body : M unit :=
  _ ← log_at INFO "Writing .model file";
  self ← gets inp;
  full ← deref (full_dataset self);
  t ← table_of full "columns";
  models ← fold_m (assign_column full) (enumerate (columns t))
             {| real_values_normals := []; real_values_missing := [];
                multinomial_values := [] |};
  let models_count :=
    foldl (λ n model, if nonempty model then n + 1 else n) 1
      [real_values_normals models; real_values_missing models;
       multinomial_values models] in
  let model := "clust.model" in
  _ ← open_write model;
  line ← fmt ("model_index 0 {}" +:+ Py.nl) [Py.str_of_nat models_count];
  _ ← write model line;
  _ ← write model ("ignore 0" +:+ Py.nl);
  _ ← (if nonempty (real_values_normals models) then
         line ← fmt ("single_normal_cn {}" +:+ Py.nl)
                    [Py.join " " (real_values_normals models)];
         write model line
       else mret ());
  _ ← (if nonempty (real_values_missing models) then
         line ← fmt ("single_normal_cm {}" +:+ Py.nl)
                    [Py.join " " (real_values_missing models)];
         write model line
       else mret ());
  if nonempty (multinomial_values models) then
    line ← multinomial_line (multinomial_values models);
    write model line
  else mret ().

Definition create_model_file : M (option unit) :=
  handle_error create_model_file_body.

End Input.


(** ** Notions used by the statements *)

(** What the wrapper leaves of an exception: one [ERROR] record per line of
    its text, and the flag. *)
Definition record_error (e : exn) (w : World) : World :=
  with_inp (set_had_error true)
    (with_log (λ entries, entries ++ (pair ERROR <$> Py.split "010" (exn_str e)))
       w).

(** Running one call after another, from a world. *)
Definition run {A} (m : M A) (w : World) : World := (m w).2.

(** The object that a reference names, and the merged dataset. *)
Definition dataset_at (w : World) (r : ref) : option Dataset := heap w !! r.
Definition merged (w : World) : option Dataset :=
  heap w !! full_dataset (inp w).

(** The names that [check_duplicate_col_names] reads in a file: its first
    line, stripped, split on tabs. *)
Definition header_of (content : string) : list string :=
  Py.split "009" (Py.strip (Py.readline content)).

(** The text of [DuplicateColumnName] for a list of names. *)
Definition duplicate_msg (names : list string) : string :=
  "Found duplicate column names:" +:+ Py.nl +:+ Py.join " " (Py.quoted <$> names)
  +:+ Py.nl +:+ "Please clean your header".

(** The text of [CastFloat64] for a column. *)
Definition cast_msg (col : string) : string :=
  "Cannot cast column '" +:+ col +:+ "' to float" +:+ Py.nl
  +:+ "Check your input file!".

(** What [None.columns] raises. *)
Definition no_columns_error : exn :=
  Exn AttributeError "'NoneType' object has no attribute 'columns'".

(** What [pd.concat] raises on an empty list. *)
Definition nothing_to_concat : exn :=
  Exn ValueError "No objects to concatenate".

(** A cell that [float] accepts. *)
Definition castable `{Library} (c : cell) : bool :=
  match cast_cell c with Return _ => true | Raise _ => false end.

(** A column declared real scalar or real location that holds a cell which
    does not cast to float64. *)
Definition offending `{Library} (d : Dataset) (t : DataFrame) (col : string)
    : bool :=
  match column_meta d !! col with
  | Some meta =>
      is_real (m_type meta) && negb (forallb (forallb castable) (getitem t col))
  | None => false
  end.

(** A name made of characters of [A-Za-z0-9 .+-] and of ["_"] only. *)
Fixpoint clean_chars (s : string) : bool :=
  match s with
  | EmptyString => true
  | String c r => (Py.whitelisted c || Ascii.eqb c "_") && clean_chars r
  end.

(** The per-label effect of the renames that the loop of
    [clean_column_names] makes for the names [l], in order. *)
Definition renamed (l : list string) (x : string) : string :=
  foldl (λ x c,
           if bool_decide (Py.regex_sub c ≠ c) then
             if decide (x = c) then Py.regex_sub c else x
           else x) x l.

(** A table with its columns relabelled by [f]. *)
Definition relabel (f : string → string) (t : DataFrame) : DataFrame :=
  {| index_name := index_name t; index := index t;
     cols := (λ c, (f c.1, c.2)) <$> cols t |}.

(** The table [t], whose row-key column is named [n], with all its names
    cleaned. *)
Definition cleaned (n : string) (t : DataFrame) : DataFrame :=
  {| index_name := Some (Py.regex_sub n); index := index t;
     cols := (λ c, (Py.regex_sub c.1, c.2)) <$> cols t |}.

(** The dataset after the rename that the loop of [clean_column_names]
    makes for the column [c], whose metadata is [meta]. *)
Definition after_rename (c : string) (meta : Meta) (d : Dataset) : Dataset :=
  {| input_file := input_file d;
     df := rename c (Py.regex_sub c) <$> df d;
     column_meta := <[Py.regex_sub c := meta]> (delete c (column_meta d)) |}.

(** The role and the error value of a column: what a merge never changes
    in its metadata. *)
Definition role (m : Meta) : string * pyval := (m_type m, m_error m).

(** The metadata of [k] in the last of the datasets [ds] that has some. *)
Fixpoint later_meta (ds : list Dataset) (k : string) : option Meta :=
  match ds with
  | [] => None
  | d :: r =>
      match later_meta r k with
      | Some m => Some m
      | None => column_meta d !! k
      end
  end.

(** Two datasets with the same file name, the same table and, for every
    column, the same role; two stores that agree in this way, object by
    object. *)
Definition same_table (d d' : Dataset) : Prop :=
  input_file d' = input_file d ∧ df d' = df d
  ∧ ∀ k, role <$> column_meta d' !! k = role <$> column_meta d !! k.

Definition steady (w w' : World) : Prop :=
  inp w' = inp w ∧ fs w' = fs w ∧ Forall2 same_table (heap w) (heap w').

(** A method that keeps every table and every role. *)
Definition keeps_tables {A} (m : M A) : Prop := ∀ w, steady w (m w).2.

(** [T] is the outer join of the tables [ts] on their row keys: the columns
    of all of them in order, a row for every key that some table has, and
    in each column the cell of its table for the keys that this table has,
    NaN for the others. *)
Definition outer_join_of (ts : list DataFrame) (T : DataFrame) : Prop :=
  columns T = ts ≫= columns
  ∧ (∀ k, k ∈ index T ↔ ∃ t, t ∈ ts ∧ k ∈ index t)
  ∧ (∀ t c k, t ∈ ts → c ∈ columns t → k ∈ index T →
       at_ T k c = (if decide (k ∈ index t) then at_ t k c else Some NaN)
       ∧ (k ∈ index t → is_Some (at_ t k c))).

(** The tables of the objects of the store. *)
Definition tables (w : World) : list (option DataFrame) := df <$> heap w.

(** A method never raises an exception of class [cls]. *)
Definition never_raises {A} (cls : exn_class) (m : M A) : Prop :=
  ∀ w e, (m w).1 = Raise e → exn_cls e ≠ cls.

(** A method changes nothing but the log. *)
Definition only_logs {A} (m : M A) : Prop :=
  ∀ w, ∃ entries, (m w).2 = with_log (λ l, l ++ entries) w.

(** ** A small library instance, for the examples

    Floats are read from a short table of literals; a file is read as
    pandas reads a tab-delimited file with a header row and the row keys in
    the first column, a column being a float column when all its non-empty
    cells are floats and an object column of [str] cells otherwise, empty
    cells missing in both. *)
Module Sample.

Definition f_zero : spec_float := S754_zero false.
Definition f_one : spec_float := SFone 53 1024.
Definition f_two : spec_float := SFadd 53 1024 f_one f_one.
Definition f_three : spec_float := SFadd 53 1024 f_two f_one.
Definition f_half : spec_float := SFdiv 53 1024 f_one f_two.

Definition parse_float (s : string) : option spec_float :=
  if bool_decide (s = "0.0") then Some f_zero
  else if bool_decide (s = "1.0") then Some f_one
  else if bool_decide (s = "2.0") then Some f_two
  else if bool_decide (s = "3.0") then Some f_three
  else if bool_decide (s = "0.5") then Some f_half
  else if bool_decide (s = "-0.5") then Some (SFopp f_half)
  else if bool_decide (s = "-1.0") then Some (SFopp f_one)
  else None.

Definition rows_of (content : string) : list (list string) :=
  Py.split "009" <$> filter (λ l, l ≠ "") (Py.split "010" content).

Definition infer (texts : list string) : list cell :=
  if forallb (λ s, bool_decide (s = "") || bool_decide (is_Some (parse_float s)))
       texts
  then (λ s, default NaN (Flt <$> parse_float s)) <$> texts
  else (λ s, if bool_decide (s = "") then NaN else Str s) <$> texts.

Definition parse_table (content : string) (enc : option string)
    : outcome DataFrame :=
  match rows_of content with
  | [] => Raise (Exn ParserError "No columns to parse from file")
  | header :: body =>
      Return
        {| index_name :=
             match header with
             | name :: _ => if bool_decide (name = "") then None else Some name
             | [] => None
             end;
           index := (λ r, default "" (head r)) <$> body;
           cols := imap (λ j name,
                     (name, infer ((λ r, default "" (r !! S j)) <$> body)))
                     (tail header) |}
  end.

Definition library : Library := {|
  float_of_str := parse_float;
  describe_to_string := λ css, "count " +:+ Py.str_of_nat (length (mjoin css));
  counts_to_string := λ counts, Py.join " " (Py.str_of_nat <$> counts);
  detect_encoding := λ _, Some "ascii";
  read_table := parse_table
|}.

End Sample.

(** ** Worlds of the examples *)
Module Examples.

Definition line (fields : list string) : string :=
  Py.join Py.tab fields +:+ Py.nl.

(** An orchestrator that has loaded nothing. *)
Definition fresh : World := Input_init "" "?" Py.tab false ∅.

(** An orchestrator after a failed call. *)
Definition failed : World := with_inp (set_had_error true) fresh.

(** A file whose header repeats the name [a], and a new [Dataset] (at
    reference 1) in a world that has the file. *)
Definition dup_tsv : string :=
  line ["id"; "a"; "a"] +:+ line ["r1"; "1.0"; "2.0"].
(** A file whose header ends with two empty names. *)
Definition trailing_tsv : string :=
  line ["id"; "x"; ""; ""] +:+ line ["r1"; "1.0"; ""; ""].
Definition before_read : World :=
  run new_dataset
    (Input_init "" "?" Py.tab false
       {[ "dup.tsv" := dup_tsv; "trailing.tsv" := trailing_tsv ]}).

Definition real_meta : Meta :=
  {| m_type := "real scalar"; m_error := PyNum "0.01"; m_missing := false |}.
Definition discrete_meta : Meta :=
  {| m_type := "discrete"; m_error := PyNone; m_missing := false |}.

(** A world whose store holds, at reference 1, the dataset [d]. *)
Definition holding (d : Dataset) : World :=
  with_heap (λ h, h ++ [d]) fresh.

(** A dataset whose names need cleaning. *)
Definition dirty : Dataset :=
  {| input_file := "dirty.tsv";
     df := Some {| index_name := Some "gene id#";
                   index := ["g1"; "g2"];
                   cols := [("a#", [Flt Sample.f_one; Flt Sample.f_two]);
                            ("b__c", [Flt Sample.f_zero; NaN])] |};
     column_meta := {[ "a#" := real_meta; "b__c" := real_meta ]} |}.

(** A dataset with two names that are cleaned to the same name. *)
Definition colliding : Dataset :=
  {| input_file := "colliding.tsv";
     df := Some {| index_name := Some "gene";
                   index := ["g1"; "g2"];
                   cols := [("a#", [Flt Sample.f_one; Flt Sample.f_two]);
                            ("a$", [Flt Sample.f_zero; NaN])] |};
     column_meta := {[ "a#" := real_meta; "a$" := real_meta ]} |}.

(** A dataset declared real scalar, one column of which does not cast. *)
Definition untyped : Dataset :=
  {| input_file := "untyped.tsv";
     df := Some {| index_name := Some "gene";
                   index := ["g1"; "g2"];
                   cols := [("a", [Flt Sample.f_one; Flt Sample.f_two]);
                            ("b", [Str "1.0"; Str "abc"])] |};
     column_meta := {[ "a" := real_meta; "b" := real_meta ]} |}.

(** The scenario of the specification: [A.tsv] with the discrete column
    [group] and [B.tsv] with the real scalar column [expr], which has no
    row for [g3]; both loaded, then merged. *)
Definition a_tsv : string :=
  line ["gene"; "group"] +:+ line ["g1"; "x"] +:+ line ["g2"; "y"]
  +:+ line ["g3"; "x"].
Definition b_tsv : string :=
  line ["gene"; "expr"] +:+ line ["g1"; "1.0"] +:+ line ["g2"; "2.0"].
Definition loaded : World :=
  run (@add_input_data Sample.library "B.tsv" "real scalar" (PyNum "0.01"))
    (run (@add_input_data Sample.library "A.tsv" "discrete" PyNone)
       (Input_init "" "?" Py.tab false
          {[ "A.tsv" := a_tsv; "B.tsv" := b_tsv ]})).
Definition scenario : World := run merge_dataframes loaded.

(** The tables of the two files. *)
Definition a_table : DataFrame :=
  {| index_name := Some "gene"; index := ["g1"; "g2"; "g3"];
     cols := [("group", [Str "x"; Str "y"; Str "x"])] |}.
Definition b_table : DataFrame :=
  {| index_name := Some "gene"; index := ["g1"; "g2"];
     cols := [("expr", [Flt Sample.f_one; Flt Sample.f_two])] |}.

(** The same with the missing row on the other side: the discrete file
    has no row for [g3], the real scalar file has all three. *)
Definition a_gap_tsv : string :=
  line ["gene"; "group"] +:+ line ["g1"; "x"] +:+ line ["g2"; "y"].
Definition b_full_tsv : string :=
  line ["gene"; "expr"] +:+ line ["g1"; "1.0"] +:+ line ["g2"; "2.0"]
  +:+ line ["g3"; "3.0"].
Definition scenario_gap : World :=
  run merge_dataframes
    (run (@add_input_data Sample.library "B.tsv" "real scalar" (PyNum "0.01"))
       (run (@add_input_data Sample.library "A.tsv" "discrete" PyNone)
          (Input_init "" "?" Py.tab false
             {[ "A.tsv" := a_gap_tsv; "B.tsv" := b_full_tsv ]}))).

(** The discrete file with its gap, and a file with two real scalar
    columns: [a], whose minimum is 1.0, and [b], whose minimum is -1.0. *)
Definition two_reals_tsv : string :=
  line ["gene"; "a"; "b"] +:+ line ["g1"; "1.0"; "3.0"]
  +:+ line ["g2"; "2.0"; "-1.0"] +:+ line ["g3"; "3.0"; "0.5"].
Definition scenario_shift : World :=
  run merge_dataframes
    (run (@add_input_data Sample.library "C.tsv" "real scalar" (PyNum "0.01"))
       (run (@add_input_data Sample.library "A.tsv" "discrete" PyNone)
          (Input_init "" "?" Py.tab false
             {[ "A.tsv" := a_gap_tsv; "C.tsv" := two_reals_tsv ]}))).

(** One file, whose real scalar column has no value at all. *)
Definition empty_column_tsv : string :=
  line ["gene"; "expr"] +:+ line ["g1"; ""] +:+ line ["g2"; ""].
Definition scenario_empty : World :=
  run merge_dataframes
    (run (@add_input_data Sample.library "E.tsv" "real scalar" (PyNum "0.01"))
       (Input_init "" "?" Py.tab false {[ "E.tsv" := empty_column_tsv ]})).

End Examples.

(** ** The other methods of the two classes *)

(** *** [Dataset.load]

    [load] calls [read_datafile] with its defaults, then the two checks,
    then [check_missing_values], a method that [Dataset] does not have. *)
Definition load `{Library} (self : ref) : M unit :=
  _ ← read_datafile self "" "" PyNone;
  _ ← clean_column_names self;
  _ ← check_data_type self;
  raise (Exn AttributeError
           "'Dataset' object has no attribute 'check_missing_values'").

(** *** [Input.create_sparams_file] *)
Definition create_sparams_file_body (max_duration max_n_tries max_cycles : pyval)
    : M unit :=
  _ ← log_at INFO "Writing .s-params file";
  let sparams := "clust.s-params" in
  _ ← open_write sparams;
  _ ← write sparams ("screen_output_p = false " +:+ Py.nl);
  _ ← write sparams ("break_on_warnings_p = false " +:+ Py.nl);
  _ ← write sparams ("force_new_search_p = true " +:+ Py.nl);
  line ← fmt ("max_duration = {} " +:+ Py.nl) [py_str max_duration];
  _ ← write sparams line;
  line ← fmt ("max_n_tries = {} " +:+ Py.nl) [py_str max_n_tries];
  _ ← write sparams line;
  line ← fmt ("max_cycles = {} " +:+ Py.nl) [py_str max_cycles];
  _ ← write sparams line;
  write sparams
    ("start_j_list = 2, 3, 5, 7, 10, 15, 25, 35, 45, 55, 65, 75, 85, 95, 105 "
     +:+ Py.nl).

Definition create_sparams_file (max_duration max_n_tries max_cycles : pyval)
    : M (option unit) :=
  handle_error (create_sparams_file_body max_duration max_n_tries max_cycles).

(** *** [Input.create_rparams_file] *)
Definition create_rparams_file_body : M unit :=
  _ ← log_at INFO "Writing .r-params file";
  let rparams := "clust.r-params" in
  _ ← open_write rparams;
  _ ← write rparams ("xref_class_report_att_list = 0, 1, 2 " +:+ Py.nl);
  _ ← write rparams ("report_mode = " +:+ dquote +:+ "data" +:+ dquote +:+ " "
                     +:+ Py.nl);
  write rparams ("comment_data_headers_p = true " +:+ Py.nl).

Definition create_rparams_file : M (option unit) :=
  handle_error create_rparams_file_body.

(** *** [Input.create_run_file] and [Input.create_run_file_test] *)
Definition create_run_file_body : M unit :=
  _ ← log_at INFO "Writing run file";
  let runfile := "run_autoclass.sh" in
  _ ← open_write runfile;
  _ ← write runfile
        ("autoclass -search clust.db2 clust.hd2 clust.model clust.s-params "
         +:+ Py.nl);
  write runfile
    ("autoclass -reports clust.results-bin clust.search clust.r-params "
     +:+ Py.nl).

Definition create_run_file : M (option unit) :=
  handle_error create_run_file_body.

Definition create_run_file_test_body : M unit :=
  _ ← log_at INFO "Writing run file";
  let runfile := "run_autoclass.sh" in
  _ ← open_write runfile;
  _ ← write runfile ("for a in $(seq 1 60) " +:+ Py.nl);
  _ ← write runfile ("do " +:+ Py.nl);
  _ ← write runfile ("sleep 1 " +:+ Py.nl);
  _ ← write runfile ("touch clust.log " +:+ Py.nl);
  _ ← write runfile ("done " +:+ Py.nl);
  write runfile ("touch clust.rlog " +:+ Py.nl).

Definition create_run_file_test : M (option unit) :=
  handle_error create_run_file_test_body.

(** *** [Input.print_files] *)
Definition generated_files : list string :=
  ["clust.hd2"; "clust.model"; "clust.s-params"; "clust.r-params";
   "run_autoclass.sh"].

Definition banner_line : string :=
  "--------------------------------------------------------------------------"
  +:+ Py.nl.

(** The body of the loop of [print_files]: [os.path.exists(name)], then the
    banner and what the file holds. *)
Definition print_file (content : string) (name : string) : M string :=
  files ← gets fs;
  match files !! name with
  | Some text =>
      let content := content +:+ Py.nl in
      let content := content +:+ banner_line in
      line ← fmt ("{}" +:+ Py.nl) [name];
      let content := content +:+ line in
      let content := content +:+ banner_line in
      mret (content +:+ text)
  | None => mret content
  end.

Definition print_files_body : M string :=
  fold_m print_file generated_files "".

Definition print_files : M (option string) :=
  handle_error print_files_body.

(** ** Notions used by the further statements *)

(** A name that [regex_sub] leaves as it is: its characters outside
    [A-Za-z0-9 .+-] are ["_"], never two in a row.  [after_sub] tells that
    the character before was such a ["_"]. *)
Fixpoint tidy (after_sub : bool) (s : string) : bool :=
  match s with
  | EmptyString => true
  | String c r =>
      if Py.whitelisted c then tidy false r
      else Ascii.eqb c "_" && negb after_sub && tidy true r
  end.

(** One wrapped call after another, their results dropped. *)
Definition calls {A} (bodies : list (M A)) : M unit :=
  for_each bodies (λ f, _ ← handle_error f; mret ()).

(** The text of the search parameters. *)
Definition sparams_text (max_duration max_n_tries max_cycles : pyval) : string :=
  "screen_output_p = false " +:+ Py.nl
  +:+ "break_on_warnings_p = false " +:+ Py.nl
  +:+ "force_new_search_p = true " +:+ Py.nl
  +:+ "max_duration = " +:+ py_str max_duration +:+ " " +:+ Py.nl
  +:+ "max_n_tries = " +:+ py_str max_n_tries +:+ " " +:+ Py.nl
  +:+ "max_cycles = " +:+ py_str max_cycles +:+ " " +:+ Py.nl
  +:+ "start_j_list = 2, 3, 5, 7, 10, 15, 25, 35, 45, 55, 65, 75, 85, 95, 105 "
  +:+ Py.nl.

(** The two scripts that are written to [run_autoclass.sh]. *)
Definition run_script : string :=
  "autoclass -search clust.db2 clust.hd2 clust.model clust.s-params " +:+ Py.nl
  +:+ "autoclass -reports clust.results-bin clust.search clust.r-params "
  +:+ Py.nl.

(** A method that returns, having replaced the file [name] by [text] and
    logged [entry], whatever the world and the file were. *)
Definition replaces {A} (name text : string) (entry : string) (m : M A) : Prop :=
  ∀ w, ∃ a w', m w = (Return a, w')
    ∧ fs w' = <[name := text]> (fs w)
    ∧ heap w' = heap w ∧ inp w' = inp w
    ∧ log w' = log w ++ [(INFO, entry)].

(** What [print_files] shows of one file. *)
Definition file_section (name text : string) : string :=
  Py.nl +:+ banner_line +:+ name +:+ Py.nl +:+ banner_line +:+ text.

(** A method that takes every world to one that [R] relates to it. *)
Definition respects (R : World → World → Prop) {A} (m : M A) : Prop :=
  ∀ w, R w (m w).2.

(** The relations that say what a method leaves as it is: they hold of a
    world and itself, compose, and do not look at the log. *)
Class Frame (R : World → World → Prop) := {
  frame_refl : ∀ w, R w w;
  frame_trans : ∀ w1 w2 w3, R w1 w2 → R w2 w3 → R w1 w3;
  frame_log : ∀ f w, R w (with_log f w)
}.

(** Nothing but the object [r] and the log may differ: the orchestrator,
    the files, the number of objects and every other object are the same. *)
Definition only_object (r : ref) (w w' : World) : Prop :=
  inp w' = inp w ∧ fs w' = fs w ∧ length (heap w') = length (heap w)
  ∧ ∀ r', r' ≠ r → heap w' !! r' = heap w !! r'.

(** The settings of the orchestrator are the same and its error flag, once
    set, is still set. *)
Definition settings (i : Input) : string * string * string * bool :=
  (inputfolder i, missing_encoding i, separator i, tolerate_error i).

Definition settings_kept (w w' : World) : Prop :=
  settings (inp w') = settings (inp w)
  ∧ (had_error (inp w) = true → had_error (inp w') = true).

(** The files are the same. *)
Definition files_kept (w w' : World) : Prop := fs w' = fs w.

(** The data are the same: the objects, the list of loaded datasets and the
    merged dataset. *)
Definition data_kept (w w' : World) : Prop :=
  heap w' = heap w
  ∧ input_datasets (inp w') = input_datasets (inp w)
  ∧ full_dataset (inp w') = full_dataset (inp w).

(** The text of the assertion on the role of a file. *)
Definition role_msg (file : string) : string :=
  "data type in " +:+ file
  +:+ " should be: 'real scalar', 'real location' or 'discrete'".

(** What [open] raises on a name that no file has. *)
Definition no_such_file (name : string) : exn :=
  Exn FileNotFoundError
    ("[Errno 2] No such file or directory: " +:+ Py.repr name).

(** The metadata that [read_datafile] gives to a column. *)
Definition new_meta (data_type : string) (error : pyval) : Meta :=
  {| m_type := data_type; m_error := error; m_missing := false |}.

(** The two records that a successful [read_datafile] logs. *)
Definition read_log (enc : option string) (t : DataFrame)
    : list (level * string) :=
  [(INFO, "Detected encoding: " +:+ opt_str enc);
   (INFO, "Found " +:+ Py.str_of_nat (length (index t)) +:+ " rows and "
          +:+ Py.str_of_nat (length (cols t) + 1) +:+ " columns")].

(** The two records that [search_missing_values] logs for a table. *)
Definition missing_log (t : DataFrame) : list (level * string) :=
  [(INFO, "Searching for missing values");
   if bool_decide (columns_with_null t ≠ [])
   then (WARNING, "Missing values found in columns: "
                  +:+ Py.join " " (columns_with_null t))
   else (INFO, "No missing values found")].

(** The metadata of the columns of a table, in order, when every column
    has some. *)
Definition metas_of (d : Dataset) (t : DataFrame) : option (list Meta) :=
  mapM (λ c, column_meta d !! c) (columns t).

(** The three models of [create_model_file]: real without missing value,
    real with missing values, discrete. *)
Definition normal (m : Meta) : bool := is_real (m_type m) && negb (m_missing m).
Definition with_gaps (m : Meta) : bool := is_real (m_type m) && m_missing m.
Definition discrete (m : Meta) : bool := bool_decide (m_type m = "discrete").

(** The numbers, as text, of the columns that satisfy [P], the first of
    the columns being numbered [k + 1]. *)
Fixpoint numbers_from (k : nat) (P : Meta → bool) (metas : list Meta)
    : list string :=
  match metas with
  | [] => []
  | m :: r =>
      (if P m then [Py.str_of_nat (k + 1)] else []) ++ numbers_from (S k) P r
  end.

(** What [create_model_file] writes for columns with these metadata. *)
Definition model_text (metas : list Meta) : string :=
  let cn := numbers_from 0 normal metas in
  let cm := numbers_from 0 with_gaps metas in
  let mn := numbers_from 0 discrete metas in
  "model_index 0 "
  +:+ Py.str_of_nat (1 + length (filter (λ g, nonempty g = true) [cn; cm; mn]))
  +:+ Py.nl
  +:+ "ignore 0" +:+ Py.nl
  +:+ (if nonempty cn then "single_normal_cn " +:+ Py.join " " cn +:+ Py.nl
       else "")
  +:+ (if nonempty cm then "single_normal_cm " +:+ Py.join " " cm +:+ Py.nl
       else "")
  +:+ (if nonempty mn then "single_multinomial  " +:+ Py.nl else "").

Section Header.

Context `{Library}.

(** The body of the loop of [create_hd2_file], for the column [name] at
    position [idx] of the table [t] of the dataset [full]. *)
Definition hd2_column (full : Dataset) (t : DataFrame)
    : nat * string → M unit := λ '(idx, name),
  meta ← dict_get (column_meta full) name;
  _ ← (if bool_decide (m_type meta = "real scalar") then
         v ← lift (series_at (df_min t) idx);
         nonneg ← lift (ge_zero v);
         msg ← fmt "min value for {} shoud be >= 0.0" [name];
         _ ← assert nonneg msg;
         line ← fmt ("{} real scalar " +:+ dquote +:+ "{}" +:+ dquote
                     +:+ " zero_point 0.0 rel_error {}" +:+ Py.nl)
                    [Py.str_of_nat (idx + 1); name; py_str (m_error meta)];
         write "clust.hd2" line
       else mret ());
  _ ← (if bool_decide (m_type meta = "real location") then
         line ← fmt ("{} real location " +:+ dquote +:+ "{}" +:+ dquote
                     +:+ " error {}" +:+ Py.nl)
                    [Py.str_of_nat (idx + 1); name; py_str (m_error meta)];
         write "clust.hd2" line
       else mret ());
  if bool_decide (m_type meta = "discrete") then
    line ← fmt ("{} discrete nominal " +:+ dquote +:+ "{}" +:+ dquote
                +:+ " range {}" +:+ Py.nl)
               [Py.str_of_nat (idx + 1); name; nunique_str (getitem t name)];
    write "clust.hd2" line
  else mret ().

(** The first lines of [clust.hd2], for the separator [sep]. *)
Definition hd2_header (sep : string) (t : DataFrame) : string :=
  "num_db2_format_defs 2" +:+ Py.nl +:+ Py.nl
  +:+ "number_of_attributes " +:+ Py.str_of_nat (length (columns t) + 1)
  +:+ Py.nl
  +:+ "separator_char '" +:+ sep +:+ "'" +:+ Py.nl +:+ Py.nl
  +:+ "0 dummy nil " +:+ dquote +:+ opt_str (index_name t) +:+ dquote
  +:+ Py.nl.

(** The line of [clust.hd2] for the column [name], the [n]-th of the
    table. *)
Definition hd2_line (t : DataFrame) (n : nat) (name : string) (meta : Meta)
    : string :=
  (if bool_decide (m_type meta = "real scalar") then
     Py.str_of_nat n +:+ " real scalar " +:+ dquote +:+ name +:+ dquote
     +:+ " zero_point 0.0 rel_error " +:+ py_str (m_error meta) +:+ Py.nl
   else "")
  +:+ (if bool_decide (m_type meta = "real location") then
         Py.str_of_nat n +:+ " real location " +:+ dquote +:+ name +:+ dquote
         +:+ " error " +:+ py_str (m_error meta) +:+ Py.nl
       else "")
  +:+ (if bool_decide (m_type meta = "discrete") then
         Py.str_of_nat n +:+ " discrete nominal " +:+ dquote +:+ name
         +:+ dquote +:+ " range " +:+ nunique_str (getitem t name) +:+ Py.nl
       else "").

(** The lines of the columns [l], the first of which is the [k + 1]-th of
    the table. *)
Fixpoint hd2_lines (t : DataFrame) (k : nat) (l : list (string * Meta))
    : string :=
  match l with
  | [] => ""
  | (name, meta) :: r => hd2_line t (k + 1) name meta +:+ hd2_lines t (S k) r
  end.

End Header.

(** The test that [create_hd2_file] makes for a real scalar column: the
    value at position [idx] of the minima of the table, against 0.0. *)
Definition min_test (t : DataFrame) (idx : nat) : outcome bool :=
  match series_at (df_min t) idx with
  | Return v => ge_zero v
  | Raise e => Raise e
  end.

(** What the test raises when it does not pass, for the column [name]. *)
Definition min_failure (t : DataFrame) (idx : nat) (name : string) : exn :=
  match min_test t idx with
  | Raise e => e
  | Return _ =>
      Exn AssertionError ("min value for " +:+ name +:+ " shoud be >= 0.0")
  end.

(** The object [r] has the file name it had. *)
Definition file_kept (r : ref) (w w' : World) : Prop :=
  input_file <$> dataset_at w' r = input_file <$> dataset_at w r.

(** * Properties *)

(** ** Stepping through a method *)

Lemma bind_return {A B} (m : M A) (k : A → M B) w a w' :
  m w = (Return a, w') → (m ≫= k) w = k a w'.
Proof. intros E. unfold mbind, M_bind. by rewrite E. Qed.

Lemma bind_raise {A B} (m : M A) (k : A → M B) w e w' :
  m w = (Raise e, w') → (m ≫= k) w = (Raise e, w').
Proof. intros E. unfold mbind, M_bind. by rewrite E. Qed.

Lemma with_log_nil w : with_log (λ entries, entries ++ []) w = w.
Proof. destruct w. unfold with_log. simpl. by rewrite app_nil_r. Qed.

Lemma for_each_log (lv : level) (lines : list string) w :
  for_each lines (log_at lv) w
  = (Return (), with_log (λ entries, entries ++ (pair lv <$> lines)) w).
Proof.
  revert w. induction lines as [|l lines IH]; intros w.
  - simpl. by rewrite with_log_nil.
  - simpl. erewrite bind_return by reflexivity. rewrite IH.
    destruct w. unfold with_log. simpl. by rewrite <- app_assoc.
Qed.

(** ** The error policy of the orchestrator *)

(** The wrapper, once the body is allowed to run. *)
Lemma handle_error_runs {A} (f : M A) (w : World) :
  tolerate_error (inp w) || negb (had_error (inp w)) = true →
  handle_error f w =
    match f w with
    | (Return a, w') => (Return (Some a), w')
    | (Raise e, w') => (Return None, record_error e w')
    end.
Proof.
  intros Hgo. unfold handle_error.
  erewrite bind_return by reflexivity. rewrite Hgo.
  unfold try_except. destruct (f w) as [[a|e] w'] eqn:Ef.
  - by erewrite bind_return by exact Ef.
  - erewrite bind_raise by exact Ef.
    erewrite bind_return by apply for_each_log.
    by erewrite bind_return by reflexivity.
Qed.

(** C2.  For every operation body [f] wrapped by [handle_error] and every
    world [w]: when [had_error] is set and [tolerate_error] is not, the
    wrapped call returns [None] and leaves the world as it was, whatever [f]
    is, so [f] is not run; when [tolerate_error] is set, or no error
    happened yet, [f] is run, and an exception it raises is logged line by
    line and sets [had_error]; and in every case the wrapped call returns:
    no exception reaches the caller. *)
Theorem handle_error_policy {A} (f : M A) (w : World) :
  (had_error (inp w) = true → tolerate_error (inp w) = false →
     handle_error f w = (Return None, w))
  ∧ (tolerate_error (inp w) = true ∨ had_error (inp w) = false →
     match f w with
     | (Return a, w') => handle_error f w = (Return (Some a), w')
     | (Raise e, w') =>
         handle_error f w = (Return None, record_error e w')
         ∧ had_error (inp (record_error e w')) = true
     end)
  ∧ (∃ r, (handle_error f w).1 = Return r).
Proof.
  split; [|split].
  - intros Herr Htol. unfold handle_error.
    erewrite bind_return by reflexivity. by rewrite Herr, Htol.
  - intros Hgo.
    assert (tolerate_error (inp w) || negb (had_error (inp w)) = true) as Hrun.
    { destruct Hgo as [-> | ->]; [done | by rewrite orb_true_r]. }
    rewrite (handle_error_runs f w Hrun).
    by destruct (f w) as [[a|e] w'].
  - destruct (tolerate_error (inp w) || negb (had_error (inp w))) eqn:Hrun.
    + rewrite (handle_error_runs f w Hrun).
      destruct (f w) as [[a|e] w']; eauto.
    + unfold handle_error. erewrite bind_return by reflexivity.
      rewrite Hrun. eauto.
Qed.

Lemma handle_error_policy_witness :
  handle_error (raise (Exn ValueError "boom") : M unit) Examples.failed
    = (Return None, Examples.failed)
  ∧ handle_error (raise (Exn ValueError "boom") : M unit) Examples.fresh
    = (Return None, record_error (Exn ValueError "boom") Examples.fresh).
Proof.
  split.
  - apply (proj1 (handle_error_policy _ Examples.failed)); reflexivity.
  - apply (proj1 (proj2 (handle_error_policy
                           (raise (Exn ValueError "boom") : M unit)
                           Examples.fresh)) (or_intror eq_refl)).
Defined.

(** ** Merging when nothing was loaded *)

Lemma empty_merge_raises (w : World) :
  input_datasets (inp w) = [] →
  merge_dataframes_body w
  = (Raise nothing_to_concat,
     with_log (λ entries, entries ++ [(INFO, "Merging input data")]) w).
Proof.
  intros E. unfold merge_dataframes_body.
  erewrite bind_return by reflexivity.
  rewrite E. reflexivity.
Qed.

(** C9, as stated, fails on a new orchestrator: the exception of the body
    is not the one of the duplicate-name check on the absent table. *)
Lemma merge_of_nothing_not_the_duplicate_check :
  ¬ ∃ w', merge_dataframes_body Examples.fresh = (Raise no_columns_error, w').
Proof.
  intros [w' E].
  rewrite (empty_merge_raises Examples.fresh eq_refl) in E.
  discriminate E.
Qed.

(** C9, amended.  On an orchestrator with no loaded dataset, no prior error
    and no tolerance, whose [full_dataset] has no table: [pd.concat] raises
    on the empty list of tables, before any assignment and before the
    duplicate-name check; the wrapper records the error, so that after the
    call [had_error] is set, the message of [pd.concat] is in the log, and
    [full_dataset] is the same object, still without table. *)
Theorem merge_of_nothing (w : World) (d : Dataset) :
  input_datasets (inp w) = [] →
  had_error (inp w) = false →
  tolerate_error (inp w) = false →
  merged w = Some d →
  df d = None →
  (∃ w', merge_dataframes_body w = (Raise nothing_to_concat, w'))
  ∧ (merge_dataframes w).1 = Return None
  ∧ had_error (inp (run merge_dataframes w)) = true
  ∧ log (run merge_dataframes w)
    = log w ++ [(INFO, "Merging input data"); (ERROR, "No objects to concatenate")]
  ∧ merged (run merge_dataframes w) = Some d.
Proof.
  intros Hnone Herr _ Hfull Hdf.
  pose proof (empty_merge_raises w Hnone) as Hbody.
  split; [eauto|].
  unfold run, merge_dataframes.
  rewrite handle_error_runs by (by rewrite Herr, orb_true_r).
  rewrite Hbody. simpl. rewrite <- app_assoc. done.
Qed.

Lemma merge_of_nothing_witness :
  had_error (inp (run merge_dataframes Examples.fresh)) = true
  ∧ merged (run merge_dataframes Examples.fresh) = Some Dataset_init.
Proof.
  pose proof (merge_of_nothing Examples.fresh Dataset_init
                eq_refl eq_refl eq_refl eq_refl eq_refl) as (_ & _ & Herr & _ & Hfull).
  split; [exact Herr | exact Hfull].
Defined.

(** ** Duplicate names *)

Lemma length_remove_dups_le (l : list string) :
  length (remove_dups l) ≤ length l.
Proof.
  induction l as [|x l IH]; simpl; [lia|].
  destruct (decide_rel elem_of x l); simpl; lia.
Qed.

(** [len(l) == len(set(l))] says that no name is repeated. *)
Lemma length_remove_dups_NoDup (l : list string) :
  length l = length (remove_dups l) ↔ NoDup l.
Proof.
  induction l as [|x l IH]; simpl.
  - split; [constructor | done].
  - pose proof (length_remove_dups_le l) as Hle.
    destruct (decide_rel elem_of x l) as [Hin|Hnin]; simpl.
    + split; [lia|]. intros Hnd. apply NoDup_cons in Hnd as [Hx _]. done.
    + split.
      * intros Hlen. apply NoDup_cons. split; [done|]. apply IH. lia.
      * intros Hnd. apply NoDup_cons in Hnd as [_ Hnd].
        apply IH in Hnd. lia.
Qed.

Lemma raise_on_duplicates_NoDup (names : list string) w :
  NoDup names → raise_on_duplicates names w = (Return (), w).
Proof.
  intros Hnd. unfold raise_on_duplicates.
  rewrite bool_decide_eq_false_2; [done|].
  intros Hne. apply Hne. by apply length_remove_dups_NoDup.
Qed.

Lemma raise_on_duplicates_repeated (names : list string) w :
  ¬ NoDup names →
  raise_on_duplicates names w
  = (Raise (Exn DuplicateColumnName (duplicate_msg names)), w).
Proof.
  intros Hdup. unfold raise_on_duplicates.
  rewrite bool_decide_eq_true_2.
  - reflexivity.
  - intros Hlen. apply Hdup. by apply length_remove_dups_NoDup.
Qed.

Section Loading.

Context `{Library}.

(** C4, amended.  When [data_type] is one of the three roles, the file
    exists and the names of its header, as [check_duplicate_col_names]
    reads them, are not pairwise distinct, [read_datafile] raises
    [DuplicateColumnName]; by then it has assigned [input_file], and
    nothing else: the table and the column metadata of the dataset, the
    other objects, the log and the files are as before. *)
Theorem read_datafile_repeated_header (self : ref)
    (input_file data_type : string) (error : pyval) (content : string)
    (w : World) :
  data_type ∈ data_types →
  fs w !! input_file = Some content →
  ¬ NoDup (header_of content) →
  read_datafile self input_file data_type error w
  = (Raise (Exn DuplicateColumnName (duplicate_msg (header_of content))),
     with_heap (alter (set_input_file input_file) self) w)
  ∧ dataset_at (with_heap (alter (set_input_file input_file) self) w) self
    = set_input_file input_file <$> dataset_at w self.
Proof.
  intros Hty Hfile Hdup. split.
  - unfold read_datafile.
    erewrite bind_return by reflexivity.
    rewrite bool_decide_eq_true_2 by done.
    erewrite bind_return by reflexivity.
    erewrite bind_return by reflexivity.
    erewrite bind_raise; [reflexivity|].
    unfold check_duplicate_col_names.
    erewrite bind_return; last first.
    { unfold open_read. simpl. rewrite Hfile. reflexivity. }
    by apply raise_on_duplicates_repeated.
  - unfold dataset_at. simpl. apply list_lookup_alter_eq.
Qed.

End Loading.

(** C4, as stated, fails: on a file whose header repeats [a], the failed
    call has changed the dataset (its [input_file]). *)
Lemma read_datafile_leaves_input_file :
  let w' := run (@read_datafile Sample.library 1 "dup.tsv" "discrete" PyNone)
              Examples.before_read in
  (∃ msg, (@read_datafile Sample.library 1 "dup.tsv" "discrete" PyNone
             Examples.before_read).1
          = Raise (Exn DuplicateColumnName msg))
  ∧ dataset_at Examples.before_read 1 = Some Dataset_init
  ∧ input_file <$> dataset_at w' 1 = Some "dup.tsv"
  ∧ dataset_at w' 1 ≠ dataset_at Examples.before_read 1.
Proof.
  vm_compute. split; [eauto|]. split; [done|]. split; [done|].
  intros E. discriminate E.
Qed.

(** A role that is not one of the three fails the assertion, before the
    header is looked at. *)
Example read_datafile_role_first :
  (@read_datafile Sample.library 1 "dup.tsv" "integer" PyNone
     Examples.before_read).1
  = Raise (Exn AssertionError
             ("data type in dup.tsv should be: "
              +:+ "'real scalar', 'real location' or 'discrete'")).
Proof. vm_compute. reflexivity. Qed.

(** The empty names that end a header are stripped with the end of the
    line: the first line of [trailing.tsv] has the fields [id], [x] and
    two empty ones, the check sees [id] and [x], and the file is read. *)
Example read_datafile_stripped_header :
  Py.split "009" ("id" +:+ Py.tab +:+ "x" +:+ Py.tab +:+ Py.tab)
  = ["id"; "x"; ""; ""]
  ∧ header_of Examples.trailing_tsv = ["id"; "x"]
  ∧ (@read_datafile Sample.library 1 "trailing.tsv" "discrete" PyNone
       Examples.before_read).1 = Return ().
Proof. vm_compute. done. Qed.

Lemma read_datafile_repeated_header_witness :
  dataset_at (run (@read_datafile Sample.library 1 "dup.tsv" "discrete" PyNone)
                Examples.before_read) 1
  = Some (set_input_file "dup.tsv" Dataset_init).
Proof.
  unfold run.
  destruct (@read_datafile_repeated_header Sample.library 1 "dup.tsv"
              "discrete" PyNone Examples.dup_tsv Examples.before_read)
    as [Hrun Hobj].
  - vm_compute. apply list_elem_of_In. right. right. left. reflexivity.
  - vm_compute. reflexivity.
  - vm_compute. intros Hnd. apply NoDup_cons in Hnd as [_ Hnd].
    apply NoDup_cons in Hnd as [Hin _]. apply Hin. constructor.
  - rewrite Hrun. simpl snd. rewrite Hobj. reflexivity.
Defined.

(** ** Methods that only log *)

Lemma with_log_with_log f g w :
  with_log f (with_log g w) = with_log (λ l, f (g l)) w.
Proof. reflexivity. Qed.

Lemma only_logs_same {A} (m : M A) :
  (∀ w, (m w).2 = w) → only_logs m.
Proof. intros Hm w. exists []. rewrite Hm. by rewrite with_log_nil. Qed.

Lemma only_logs_ret {A} (a : A) : only_logs (mret a).
Proof. by apply only_logs_same. Qed.

Lemma only_logs_raise {A} (e : exn) : only_logs (raise e : M A).
Proof. by apply only_logs_same. Qed.

Lemma only_logs_lift {A} (o : outcome A) : only_logs (lift o).
Proof. by apply only_logs_same. Qed.

Lemma only_logs_log_at lv msg : only_logs (log_at lv msg).
Proof. intros w. by exists [(lv, msg)]. Qed.

Lemma only_logs_fmt tmpl args : only_logs (fmt tmpl args).
Proof.
  unfold fmt. destruct (Py.format tmpl args);
    [apply only_logs_ret | apply only_logs_raise].
Qed.

Lemma only_logs_deref r : only_logs (deref r).
Proof.
  apply only_logs_same. intros w. unfold deref. by destruct (heap w !! r).
Qed.

Lemma only_logs_table_of d attr : only_logs (table_of d attr).
Proof.
  unfold table_of. destruct (df d); [apply only_logs_ret | apply only_logs_raise].
Qed.

Lemma only_logs_dict_get {V} (m : gmap string V) key : only_logs (dict_get m key).
Proof.
  unfold dict_get. destruct (m !! key);
    [apply only_logs_ret | apply only_logs_raise].
Qed.

Lemma only_logs_bind {A B} (m : M A) (k : A → M B) :
  only_logs m → (∀ a, only_logs (k a)) → only_logs (m ≫= k).
Proof.
  intros Hm Hk w. destruct (Hm w) as [e1 E1].
  unfold mbind, M_bind. destruct (m w) as [[a|e] w1]; simpl in E1; subst w1.
  - destruct (Hk a (with_log (λ l, l ++ e1) w)) as [e2 E2].
    exists (e1 ++ e2). rewrite E2, with_log_with_log.
    destruct w. unfold with_log. simpl. by rewrite app_assoc.
  - by exists e1.
Qed.

Lemma only_logs_try_except {A} (m : M A) (h : exn → M A) :
  only_logs m → (∀ e, only_logs (h e)) → only_logs (try_except m h).
Proof.
  intros Hm Hh w. destruct (Hm w) as [e1 E1].
  unfold try_except. destruct (m w) as [[a|e] w1]; simpl in E1; subst w1.
  - by exists e1.
  - destruct (Hh e (with_log (λ l, l ++ e1) w)) as [e2 E2].
    exists (e1 ++ e2). rewrite E2, with_log_with_log.
    destruct w. unfold with_log. simpl. by rewrite app_assoc.
Qed.

Lemma only_logs_for_each {A} (l : list A) (body : A → M unit) :
  (∀ x, only_logs (body x)) → only_logs (for_each l body).
Proof.
  intros Hbody. induction l as [|x l IH]; simpl.
  - apply only_logs_ret.
  - apply only_logs_bind; [apply Hbody | intros _; apply IH].
Qed.

Lemma only_logs_if {A} (b : bool) (m1 m2 : M A) :
  only_logs m1 → only_logs m2 → only_logs (if b then m1 else m2).
Proof. by destruct b. Qed.

Create HintDb only_logs.

#[local] Hint Resolve only_logs_ret only_logs_raise only_logs_lift
  only_logs_log_at only_logs_fmt only_logs_deref only_logs_table_of
  only_logs_dict_get : only_logs.

Ltac only_logs_tac :=
  repeat first
    [ apply only_logs_bind; [|intros ?]
    | apply only_logs_for_each; intros ?
    | apply only_logs_try_except; [|intros ?]
    | apply only_logs_if
    | solve [eauto with only_logs] ].

Section Checking.

Context `{Library}.

Lemma check_column_only_logs (self : ref) (col : string) :
  only_logs (check_column self col).
Proof. unfold check_column. only_logs_tac. Qed.

Lemma check_data_type_only_logs (self : ref) :
  only_logs (check_data_type self).
Proof. unfold check_data_type. only_logs_tac. Qed.

(** C10.  [check_data_type] never modifies the table of the dataset:
    whether it returns or raises, the store of objects (hence the cells,
    the column names and the row keys of [self.df]), the orchestrator and
    the files are after the call what they were before it; the call only
    adds records to the log.  The converted column that the cast computes
    is dropped. *)
Theorem check_data_type_keeps_table (self : ref) (w : World) :
  let w' := run (check_data_type self) w in
  heap w' = heap w
  ∧ df <$> dataset_at w' self = df <$> dataset_at w self
  ∧ inp w' = inp w ∧ fs w' = fs w
  ∧ ∃ entries, log w' = log w ++ entries.
Proof.
  simpl. unfold run, dataset_at.
  destruct (check_data_type_only_logs self w) as [entries ->].
  simpl. repeat split; eauto.
Qed.

End Checking.

(** ** The float64 check *)

Lemma first_such {A} (P : A → bool) (l : list A) :
  (∃ x, x ∈ l ∧ P x = true) →
  ∃ l1 x l2, l = l1 ++ x :: l2 ∧ Forall (λ y, P y = false) l1 ∧ P x = true.
Proof.
  induction l as [|y l IH]; intros (x & Hin & HP).
  - by apply elem_of_nil in Hin.
  - destruct (P y) eqn:Hy.
    + by exists [], y, l.
    + apply elem_of_cons in Hin as [-> | Hin]; [congruence|].
      destruct IH as (l1 & x' & l2 & -> & Hl1 & Hx'); [eauto|].
      exists (y :: l1), x', l2. split; [done|]. split; [|done].
      by constructor.
Qed.

Section Casting.

Context `{Library}.

Lemma astype_float64_castable (cs : list cell) :
  forallb castable cs = true ↔ ∃ xs, astype_float64 cs = Return xs.
Proof.
  induction cs as [|c cs IH]; simpl.
  - split; eauto.
  - unfold castable at 1. destruct (cast_cell c) as [x|e]; simpl.
    + rewrite IH. destruct (astype_float64 cs) as [xs|e].
      * split; eauto.
      * split; intros [? ?]; discriminate.
    + split; [done | intros [? ?]; discriminate].
Qed.

Lemma astype_all_castable (css : list (list cell)) :
  forallb (forallb castable) css = true ↔ ∃ xss, astype_all css = Return xss.
Proof.
  induction css as [|cs css IH]; simpl.
  - split; eauto.
  - rewrite andb_true_iff, astype_float64_castable, IH.
    destruct (astype_float64 cs) as [xs|e].
    + destruct (astype_all css) as [xss|e].
      * split; eauto.
      * split; [intros [_ [? ?]] | intros [? ?]]; discriminate.
    + split; [intros [[? ?] _] | intros [? ?]]; discriminate.
Qed.

Lemma fmt_cast_msg (col : string) w :
  fmt ("Cannot cast column '{}' to float" +:+ Py.nl
       +:+ "Check your input file!") [col] w
  = (Return (cast_msg col), w).
Proof. reflexivity. Qed.

Lemma check_column_passes (self : ref) (col : string) d t meta w :
  heap w !! self = Some d → df d = Some t →
  column_meta d !! col = Some meta →
  offending d t col = false →
  (check_column self col w).1 = Return ().
Proof.
  intros Hd Ht Hmeta Hok.
  unfold offending in Hok. rewrite Hmeta in Hok.
  unfold check_column.
  erewrite bind_return by (unfold deref; rewrite Hd; reflexivity).
  unfold dict_get. rewrite Hmeta.
  erewrite bind_return by reflexivity.
  unfold table_of. rewrite Ht.
  destruct (is_real (m_type meta)); simpl in Hok.
  - apply negb_false_iff, astype_all_castable in Hok as [xss Hxss].
    erewrite bind_return; last first.
    { unfold try_except. erewrite bind_return by reflexivity.
      erewrite bind_return by (unfold lift; rewrite Hxss; reflexivity).
      erewrite bind_return by reflexivity. reflexivity. }
    erewrite bind_return by reflexivity.
    destruct (bool_decide (m_type meta = "discrete")); reflexivity.
  - erewrite bind_return by reflexivity.
    erewrite bind_return by reflexivity.
    destruct (bool_decide (m_type meta = "discrete")); reflexivity.
Qed.

Lemma check_column_fails (self : ref) (col : string) d t w :
  heap w !! self = Some d → df d = Some t →
  offending d t col = true →
  (check_column self col w).1 = Raise (Exn CastFloat64 (cast_msg col)).
Proof.
  intros Hd Ht Hbad.
  unfold offending in Hbad.
  destruct (column_meta d !! col) as [meta|] eqn:Hmeta; [|done].
  apply andb_true_iff in Hbad as [Hreal Hbad].
  unfold check_column.
  erewrite bind_return by (unfold deref; rewrite Hd; reflexivity).
  unfold dict_get. rewrite Hmeta.
  erewrite bind_return by reflexivity.
  unfold table_of. rewrite Ht, Hreal.
  destruct (astype_all (getitem t col)) as [xss|e] eqn:Hcast.
  { apply negb_true_iff in Hbad.
    assert (forallb (forallb castable) (getitem t col) = true) as Hc
      by (apply astype_all_castable; eauto).
    congruence. }
  erewrite bind_raise; [reflexivity|].
  unfold try_except. erewrite bind_return by reflexivity.
  erewrite bind_raise by (unfold lift; rewrite Hcast; reflexivity).
  reflexivity.
Qed.

Lemma check_columns_pass (self : ref) d t (l : list string) w :
  heap w !! self = Some d → df d = Some t →
  Forall (λ c, is_Some (column_meta d !! c) ∧ offending d t c = false) l →
  (for_each l (check_column self) w).1 = Return ().
Proof.
  revert w. induction l as [|c l IH]; intros w Hd Ht Hall; [done|].
  apply Forall_cons in Hall as [[[meta Hmeta] Hok] Hall].
  pose proof (check_column_passes self c d t meta w Hd Ht Hmeta Hok) as Hc.
  destruct (check_column_only_logs self c w) as [entries Hw].
  destruct (check_column self c w) as [o w1] eqn:E. simpl in Hc, Hw. subst.
  simpl. erewrite bind_return by exact E. by apply IH.
Qed.

Lemma check_columns_fail (self : ref) d t (l1 : list string) c l2 w :
  heap w !! self = Some d → df d = Some t →
  Forall (λ c, is_Some (column_meta d !! c) ∧ offending d t c = false) l1 →
  offending d t c = true →
  (for_each (l1 ++ c :: l2) (check_column self) w).1
  = Raise (Exn CastFloat64 (cast_msg c)).
Proof.
  revert w. induction l1 as [|c1 l1 IH]; intros w Hd Ht Hall Hbad.
  - pose proof (check_column_fails self c d t w Hd Ht Hbad) as Hc.
    destruct (check_column self c w) as [o w1] eqn:E. simpl in Hc. subst.
    simpl. by erewrite bind_raise by exact E.
  - apply Forall_cons in Hall as [[[meta Hmeta] Hok] Hall].
    pose proof (check_column_passes self c1 d t meta w Hd Ht Hmeta Hok) as Hc.
    destruct (check_column_only_logs self c1 w) as [entries Hw].
    destruct (check_column self c1 w) as [o w1] eqn:E. simpl in Hc, Hw. subst.
    simpl. erewrite bind_return by exact E. by apply IH.
Qed.

Lemma check_data_type_loop (self : ref) d t w :
  dataset_at w self = Some d → df d = Some t →
  (check_data_type self w).1
  = (for_each (columns t) (check_column self)
       (with_log (λ l, l ++ [(INFO, "Checking data format")]) w)).1.
Proof.
  intros Hd Ht. unfold dataset_at in Hd. unfold check_data_type.
  erewrite bind_return by reflexivity.
  erewrite bind_return by (unfold deref; simpl; rewrite Hd; reflexivity).
  unfold table_of. rewrite Ht.
  by erewrite bind_return by reflexivity.
Qed.

(** C6.  Take a dataset that has a table and metadata for each of its
    columns.  If a column declared real scalar or real location holds a
    cell that does not cast to float64, [check_data_type] raises
    [CastFloat64], and the message names that column: the column itself
    when it is the only such column, and in general the first such column
    in the order of the table.  If every declared-numeric column casts,
    [check_data_type] returns without raising. *)
Theorem check_data_type_cast (self : ref) (w : World) d t :
  dataset_at w self = Some d →
  df d = Some t →
  (∀ c, c ∈ columns t → is_Some (column_meta d !! c)) →
  (∀ c, c ∈ columns t → offending d t c = true →
     (∀ c', c' ∈ columns t → offending d t c' = true → c' = c) →
     (check_data_type self w).1 = Raise (Exn CastFloat64 (cast_msg c)))
  ∧ (∀ l1 c l2, columns t = l1 ++ c :: l2 →
       Forall (λ c', offending d t c' = false) l1 →
       offending d t c = true →
       (check_data_type self w).1 = Raise (Exn CastFloat64 (cast_msg c)))
  ∧ ((∃ c, c ∈ columns t ∧ offending d t c = true) →
       ∃ c, c ∈ columns t ∧ offending d t c = true
            ∧ (check_data_type self w).1 = Raise (Exn CastFloat64 (cast_msg c)))
  ∧ ((∀ c, c ∈ columns t → offending d t c = false) →
       (check_data_type self w).1 = Return ()).
Proof.
  intros Hd Ht Hmeta.
  assert (∀ l1 c l2, columns t = l1 ++ c :: l2 →
            Forall (λ c', offending d t c' = false) l1 →
            offending d t c = true →
            (check_data_type self w).1 = Raise (Exn CastFloat64 (cast_msg c)))
    as Hfirst.
  { intros l1 c l2 Hcols Hl1 Hbad.
    rewrite (check_data_type_loop self d t w Hd Ht), Hcols.
    apply (check_columns_fail self d t); [done | done | | done].
    apply Forall_forall. intros c' Hin. split.
    - apply Hmeta. rewrite Hcols. apply elem_of_app. by left.
    - by eapply Forall_forall in Hl1. }
  split; [|split; [exact Hfirst|split]].
  - intros c Hin Hbad Honly.
    destruct (first_such (offending d t) (columns t))
      as (l1 & c0 & l2 & Hcols & Hl1 & Hbad0); [eauto|].
    assert (c0 = c) as <-.
    { apply Honly; [|done]. rewrite Hcols. apply elem_of_app. right. by left. }
    by apply (Hfirst l1 c0 l2).
  - intros Hex.
    destruct (first_such (offending d t) (columns t) Hex)
      as (l1 & c & l2 & Hcols & Hl1 & Hbad).
    exists c. split; [|split; [done|]].
    + rewrite Hcols. apply elem_of_app. right. by left.
    + by apply (Hfirst l1 c l2).
  - intros Hok.
    rewrite (check_data_type_loop self d t w Hd Ht).
    apply (check_columns_pass self d t); [done | done |].
    apply Forall_forall. intros c Hin. split; [by apply Hmeta | by apply Hok].
Qed.

End Casting.
(** ** Cleaning names *)

Lemma sub_runs_fixed (s : string) (b : bool) :
  Py.sub_runs false (Py.sub_runs b s) = Py.sub_runs b s
  ∧ (b = true → Py.sub_runs true (Py.sub_runs b s) = Py.sub_runs b s).
Proof.
  revert b. induction s as [|c s IH]; intros b; [done|].
  simpl. destruct (Py.whitelisted c) eqn:Hc.
  - simpl. rewrite Hc. by rewrite (proj1 (IH false)).
  - destruct b.
    + apply IH.
    + simpl. split; [|done]. by rewrite (proj2 (IH true)).
Qed.

Lemma regex_sub_idempotent (s : string) :
  Py.regex_sub (Py.regex_sub s) = Py.regex_sub s.
Proof. apply sub_runs_fixed. Qed.

Lemma sub_runs_clean_chars (s : string) (b : bool) :
  clean_chars (Py.sub_runs b s) = true.
Proof.
  revert b. induction s as [|c s IH]; intros b; [done|].
  simpl. destruct (Py.whitelisted c) eqn:Hc.
  - simpl. by rewrite Hc, IH.
  - destruct b; [apply IH|]. simpl. apply IH.
Qed.

Lemma renamed_cons (c : string) (l : list string) (x : string) :
  renamed (c :: l) x
  = renamed l (if bool_decide (Py.regex_sub c ≠ c) then
                 if decide (x = c) then Py.regex_sub c else x
               else x).
Proof. reflexivity. Qed.

Lemma renamed_fixed (l : list string) (x : string) :
  Py.regex_sub x = x → renamed l x = x.
Proof.
  intros Hx. induction l as [|c l IH]; [done|].
  rewrite renamed_cons.
  case_bool_decide as Hc; [|done].
  destruct (decide (x = c)) as [->|]; done.
Qed.

Lemma renamed_elem (l : list string) (x : string) :
  x ∈ l → renamed l x = Py.regex_sub x.
Proof.
  induction l as [|c l IH]; intros Hin; [by apply elem_of_nil in Hin|].
  rewrite renamed_cons.
  destruct (decide (x = c)) as [->|Hne].
  - case_bool_decide as Hc.
    + apply renamed_fixed, regex_sub_idempotent.
    + rewrite renamed_fixed; congruence.
  - apply elem_of_cons in Hin as [?|Hin]; [done|].
    case_bool_decide; by apply IH.
Qed.

Lemma clean_column_kept (self : ref) (c : string) w :
  Py.regex_sub c = c → clean_column self c w = (Return (), w).
Proof.
  intros Hc. unfold clean_column.
  by rewrite bool_decide_eq_false_2 by (intros Hne; by apply Hne).
Qed.

Lemma fmt_renamed (a b : string) w :
   fmt "Column '{}' renamed to '{}'" [a; b] w
   = (Return ("Column '" +:+ a +:+ "' renamed to '" +:+ b +:+ "'"), w).
Proof. reflexivity. Qed.

Lemma clean_column_renames (self : ref) (c : string) d meta w :
  dataset_at w self = Some d →
  Py.regex_sub c ≠ c →
  column_meta d !! c = Some meta →
  ∃ w', clean_column self c w = (Return (), w')
        ∧ dataset_at w' self = Some (after_rename c meta d)
        ∧ log w' = log w ++ [(WARNING, "Column '" +:+ c +:+ "' renamed to '" +:+ Py.regex_sub c +:+ "'")].
Proof.
  intros Hd Hc Hmeta. unfold dataset_at in Hd. unfold clean_column.
  rewrite bool_decide_eq_true_2 by done.
  erewrite bind_return by reflexivity.
  erewrite bind_return by apply fmt_renamed.
  erewrite bind_return by reflexivity.
  erewrite bind_return; last first.
  { unfold deref. simpl. rewrite list_lookup_alter_eq, Hd. reflexivity. }
  simpl. unfold dict_get. rewrite Hmeta.
  erewrite bind_return by reflexivity.
  eexists. split; [reflexivity|]. split; [|reflexivity].
  unfold dataset_at. simpl.
  rewrite !list_lookup_alter_eq, Hd. reflexivity.
Qed.

Lemma clean_column_key_error (self : ref) (c : string) d w :
  dataset_at w self = Some d →
  Py.regex_sub c ≠ c →
  column_meta d !! c = None →
  ∃ w', clean_column self c w = (Raise (Exn KeyError (Py.repr c)), w').
Proof.
  intros Hd Hc Hmeta. unfold dataset_at in Hd. unfold clean_column.
  rewrite bool_decide_eq_true_2 by done.
  erewrite bind_return by reflexivity.
  erewrite bind_return by apply fmt_renamed.
  erewrite bind_return by reflexivity.
  erewrite bind_return; last first.
  { unfold deref. simpl. rewrite list_lookup_alter_eq, Hd. reflexivity. }
  simpl. unfold dict_get. rewrite Hmeta.
  erewrite bind_raise by reflexivity. eauto.
Qed.

Lemma bind_inv_return {A B} (m : M A) (k : A → M B) w b w' :
  (m ≫= k) w = (Return b, w') →
  ∃ a w1, m w = (Return a, w1) ∧ k a w1 = (Return b, w').
Proof.
  unfold mbind, M_bind. destruct (m w) as [[a|e] w1]; [eauto | discriminate].
Qed.

Lemma relabel_relabel (f g : string → string) (t : DataFrame) :
  relabel g (relabel f t) = relabel (g ∘ f) t.
Proof.
  unfold relabel. simpl. f_equal. rewrite <- list_fmap_compose. done.
Qed.

Lemma relabel_ext (f g : string → string) (t : DataFrame) :
  (∀ x, x ∈ columns t → f x = g x) → relabel f t = relabel g t.
Proof.
  intros Hfg. unfold relabel. f_equal.
  apply list_fmap_ext. intros i c Hc. f_equal. apply Hfg.
  unfold columns. apply list_elem_of_fmap. exists c. split; [done|].
  by eapply list_elem_of_lookup_2.
Qed.

Lemma relabel_id (t : DataFrame) : relabel id t = t.
Proof.
  destruct t as [n i cs]. unfold relabel. simpl. f_equal.
  rewrite <- (list_fmap_id cs) at 2. apply list_fmap_ext. by intros ? [? ?].
Qed.

Lemma columns_relabel (f : string → string) (t : DataFrame) :
  columns (relabel f t) = f <$> columns t.
Proof.
  unfold columns, relabel. simpl. rewrite <- !list_fmap_compose. done.
Qed.

(** The loop of [clean_column_names], when it returns: the labels have been
    renamed one name after the other. *)
Lemma clean_columns_returned (self : ref) (l : list string) w w' d :
  dataset_at w self = Some d →
  for_each l (clean_column self) w = (Return (), w') →
  ∃ d', dataset_at w' self = Some d'
        ∧ df d' = relabel (renamed l) <$> df d.
Proof.
  revert w d. induction l as [|c l IH]; intros w d Hd Hrun.
  - simpl in Hrun. injection Hrun as <-. exists d. split; [done|].
    destruct (df d) as [t|]; [|done]. simpl. f_equal. symmetry. apply relabel_id.
  - simpl in Hrun. apply bind_inv_return in Hrun as ([] & w1 & Hc & Hrun).
    destruct (decide (Py.regex_sub c = c)) as [Hclean|Hdirty].
    + rewrite clean_column_kept in Hc by done. injection Hc as <-.
      destruct (IH w d Hd Hrun) as (d' & Hd' & Hdf). exists d'. split; [done|].
      rewrite Hdf. destruct (df d) as [t|]; [|done]. simpl. f_equal.
      unfold relabel. f_equal.
      apply list_fmap_ext. intros i x _. cbv beta. rewrite renamed_cons.
      by rewrite bool_decide_eq_false_2 by (intros Hne; by apply Hne).
    + destruct (column_meta d !! c) as [meta|] eqn:Hmeta.
      * destruct (clean_column_renames self c d meta w Hd Hdirty Hmeta)
          as (w1' & Hc' & Hd1 & _).
        rewrite Hc' in Hc. injection Hc as ->.
        destruct (IH w1 _ Hd1 Hrun) as (d' & Hd' & Hdf). exists d'.
        split; [done|]. rewrite Hdf. simpl.
        destruct (df d) as [t|]; [|done]. simpl. f_equal.
        unfold relabel, rename. simpl. f_equal.
        rewrite <- list_fmap_compose. apply list_fmap_ext. intros i x _.
        unfold compose. cbn [fst snd]. by rewrite bool_decide_eq_true_2 by done.
      * destruct (clean_column_key_error self c d w Hd Hdirty Hmeta)
          as (w1' & Hc').
        rewrite Hc' in Hc. discriminate.
Qed.

(** The loop returns when the names are pairwise distinct and each has its
    metadata. *)
Lemma clean_columns_return (self : ref) (l : list string) w d :
  dataset_at w self = Some d →
  NoDup l →
  Forall (λ x, is_Some (column_meta d !! x)) l →
  ∃ w', for_each l (clean_column self) w = (Return (), w').
Proof.
  revert w d. induction l as [|c l IH]; intros w d Hd Hnd Hall.
  - by exists w.
  - apply NoDup_cons in Hnd as [Hc Hnd].
    apply Forall_cons in Hall as [[meta Hmeta] Hall].
    destruct (decide (Py.regex_sub c = c)) as [Hclean|Hdirty].
    + destruct (IH w d Hd Hnd Hall) as [w' Hrun]. exists w'.
      simpl. erewrite bind_return by (by apply clean_column_kept). done.
    + destruct (clean_column_renames self c d meta w Hd Hdirty Hmeta)
        as (w1 & Hc1 & Hd1 & _).
      destruct (IH w1 _ Hd1 Hnd) as [w' Hrun].
      { apply Forall_forall. intros x Hx. simpl.
        eapply Forall_forall in Hall; [|exact Hx].
        destruct (decide (x = Py.regex_sub c)) as [->|Hne].
        - rewrite lookup_insert_eq. eauto.
        - rewrite lookup_insert_ne by done.
          rewrite lookup_delete_ne; [done|]. intros ->. done. }
      exists w'. simpl. by erewrite bind_return by exact Hc1.
Qed.

(** The loop does nothing on names that are already clean. *)
Lemma clean_columns_kept (self : ref) (l : list string) w :
  Forall (λ c, Py.regex_sub c = c) l →
  for_each l (clean_column self) w = (Return (), w).
Proof.
  induction l as [|c l IH]; intros Hall; [done|].
  apply Forall_cons in Hall as [Hc Hall].
  simpl. erewrite bind_return by (by apply clean_column_kept). by apply IH.
Qed.

Lemma with_log_app (e1 e2 : list (level * string)) w :
  with_log (λ l, l ++ e2) (with_log (λ l, l ++ e1) w)
  = with_log (λ l, l ++ (e1 ++ e2)) w.
Proof. destruct w. unfold with_log. simpl. by rewrite app_assoc. Qed.

Lemma for_each_log_names (l : list string) w :
  for_each l (λ name, msg ← fmt "Column name '{}'" [name]; log_at DEBUG msg) w
  = (Return (),
     with_log (λ entries, entries
                 ++ ((λ name, (DEBUG, "Column name '" +:+ name +:+ "'")) <$> l)) w).
Proof.
  revert w. induction l as [|x l IH]; intros w.
  - simpl. by rewrite with_log_nil.
  - simpl. erewrite bind_return by reflexivity. rewrite IH.
    by rewrite with_log_app.
Qed.

Lemma log_column_names_debug (self : ref) d t w :
  dataset_at w self = Some d → df d = Some t →
  ∃ entries,
    log_column_names self w = (Return (), with_log (λ l, l ++ entries) w)
    ∧ Forall (λ e, e.1 = DEBUG) entries.
Proof.
  intros Hd Ht. unfold dataset_at in Hd. unfold log_column_names.
  erewrite bind_return by (unfold deref; rewrite Hd; reflexivity).
  unfold table_of. rewrite Ht.
  erewrite bind_return by reflexivity.
  erewrite bind_return by reflexivity.
  erewrite bind_return by reflexivity.
  rewrite for_each_log_names, with_log_app.
  eexists. split; [reflexivity|].
  apply Forall_app. split; [by repeat constructor|].
  apply Forall_fmap. by apply Forall_true.
Qed.

(** The world after the index part of [clean_column_names]. *)
Lemma clean_index_name (self : ref) d t n w :
  dataset_at w self = Some d → df d = Some t → index_name t = Some n →
  ∃ w2 d2,
    (if bool_decide (Some (Py.regex_sub n) ≠ Some n) then
       _ ← update_df self (set_index_name (Py.regex_sub n));
       msg ← fmt "Column '{}' renamed to '{}'" [opt_str (Some n); Py.regex_sub n];
       log_at WARNING msg
     else mret ()) w = (Return (), w2)
    ∧ dataset_at w2 self = Some d2
    ∧ column_meta d2 = column_meta d
    ∧ df d2 = Some {| index_name := Some (Py.regex_sub n); index := index t;
                      cols := cols t |}.
Proof.
  intros Hd Ht Hn. case_bool_decide as Hne.
  - erewrite bind_return by reflexivity.
    erewrite bind_return by apply fmt_renamed.
    eexists _, _. split; [reflexivity|].
    unfold dataset_at in *. simpl. rewrite list_lookup_alter_eq, Hd. simpl.
    split; [reflexivity|]. split; [done|]. by rewrite Ht.
  - exists w, d. split; [done|]. split; [done|]. split; [done|].
    rewrite Ht. f_equal. destruct t as [tn ti tc]. simpl in *.
    f_equal. congruence.
Qed.

Lemma clean_column_names_returned (self : ref) w w' :
  clean_column_names self w = (Return (), w') →
  ∃ d t n d',
    dataset_at w self = Some d ∧ df d = Some t ∧ index_name t = Some n
    ∧ dataset_at w' self = Some d' ∧ df d' = Some (cleaned n t).
Proof.
  unfold clean_column_names. intros Hrun.
  apply bind_inv_return in Hrun as ([] & w0 & Hlog & Hrun).
  injection Hlog as <-.
  apply bind_inv_return in Hrun as (d & w0 & Hderef & Hrun).
  unfold deref in Hderef. simpl in Hderef.
  destruct (heap w !! self) as [d0|] eqn:Hd; [|discriminate].
  injection Hderef as -> <-.
  apply bind_inv_return in Hrun as (t & w0 & Htable & Hrun).
  unfold table_of in Htable. destruct (df d) as [t0|] eqn:Ht; [|discriminate].
  injection Htable as -> <-.
  apply bind_inv_return in Hrun as (n' & w0 & Hname & Hrun).
  unfold regex_sub_name in Hname.
  destruct (index_name t) as [n|] eqn:Hn; [|discriminate].
  injection Hname as <- <-.
  apply bind_inv_return in Hrun as ([] & w2 & Hindex & Hrun).
  apply bind_inv_return in Hrun as ([] & w3 & Hloop & Hrun).
  destruct (clean_index_name self d t n
              (with_log (λ l, l ++ [(DEBUG, "Checking column names")]) w))
    as (w2' & d2 & Hindex' & Hd2 & _ & Hdf2); [done..|].
  simpl in Hindex, Hindex'. rewrite Hindex' in Hindex. injection Hindex as ->.
  destruct (clean_columns_returned self (columns t) w2 w3 d2 Hd2 Hloop)
    as (d3 & Hd3 & Hdf3).
  rewrite Hdf2 in Hdf3. simpl in Hdf3.
  destruct (log_column_names_debug self d3 _ w3 Hd3 Hdf3)
    as (entries & Hlog & _).
  rewrite Hlog in Hrun. injection Hrun as <-.
  exists d, t, n, d3. repeat split; try done.
  rewrite Hdf3. f_equal. unfold relabel, cleaned. simpl. f_equal.
  apply list_fmap_ext. intros i c Hc. f_equal.
  apply renamed_elem. unfold columns. apply list_elem_of_fmap.
  exists c. split; [done|]. by eapply list_elem_of_lookup_2.
Qed.

Lemma clean_column_names_kept (self : ref) d t n w :
  dataset_at w self = Some d → df d = Some t → index_name t = Some n →
  Py.regex_sub n = n →
  Forall (λ c, Py.regex_sub c = c) (columns t) →
  ∃ entries,
    clean_column_names self w = (Return (), with_log (λ l, l ++ entries) w)
    ∧ Forall (λ e, e.1 = DEBUG) entries.
Proof.
  intros Hd Ht Hn Hclean Hcols. unfold clean_column_names.
  erewrite bind_return by reflexivity.
  erewrite bind_return
    by (unfold deref; simpl; unfold dataset_at in Hd; rewrite Hd; reflexivity).
  unfold table_of. rewrite Ht.
  erewrite bind_return by reflexivity.
  rewrite Hn. simpl regex_sub_name.
  erewrite bind_return by reflexivity.
  rewrite Hclean. rewrite bool_decide_eq_false_2 by (intros Hne; by apply Hne).
  erewrite bind_return by reflexivity.
  erewrite bind_return by (by apply clean_columns_kept).
  destruct (log_column_names_debug self d t
              (with_log (λ l, l ++ [(DEBUG, "Checking column names")]) w))
    as (entries & Hlog & Hdebug); [done..|].
  rewrite Hlog, with_log_app.
  eexists. split; [reflexivity|].
  apply Forall_app. split; [by repeat constructor | done].
Qed.

Lemma clean_column_names_returns (self : ref) d t n w :
  dataset_at w self = Some d → df d = Some t → index_name t = Some n →
  NoDup (columns t) →
  (∀ c, c ∈ columns t → is_Some (column_meta d !! c)) →
  ∃ w', clean_column_names self w = (Return (), w').
Proof.
  intros Hd Ht Hn Hnd Hmeta. unfold clean_column_names.
  erewrite bind_return by reflexivity.
  erewrite bind_return
    by (unfold deref; simpl; unfold dataset_at in Hd; rewrite Hd; reflexivity).
  unfold table_of at 1. rewrite Ht.
  erewrite bind_return by reflexivity.
  rewrite Hn. simpl regex_sub_name.
  erewrite bind_return by reflexivity.
  destruct (clean_index_name self d t n
              (with_log (λ l, l ++ [(DEBUG, "Checking column names")]) w))
    as (w2 & d2 & Hindex & Hd2 & Hmeta2 & Hdf2); [done..|].
  simpl in Hindex. erewrite bind_return by exact Hindex.
  destruct (clean_columns_return self (columns t) w2 d2 Hd2 Hnd) as [w3 Hloop].
  { apply Forall_forall. intros c Hc. rewrite Hmeta2. by apply Hmeta. }
  erewrite bind_return by exact Hloop.
  destruct (clean_columns_returned self (columns t) w2 w3 d2 Hd2 Hloop)
    as (d3 & Hd3 & Hdf3).
  rewrite Hdf2 in Hdf3. simpl in Hdf3.
  destruct (log_column_names_debug self d3 _ w3 Hd3 Hdf3)
    as (entries & Hlog & _).
  rewrite Hlog. eauto.
Qed.

(** ** Exceptions that a method cannot raise *)

Lemma never_raises_ret {A} cls (a : A) : never_raises cls (mret a).
Proof. intros w e He. discriminate. Qed.

Lemma never_raises_raise {A} cls (e : exn) :
  exn_cls e ≠ cls → never_raises cls (raise e : M A).
Proof. intros Hne w e' He. injection He as <-. done. Qed.

Lemma never_raises_modify cls f : never_raises cls (modify f).
Proof. intros w e He. discriminate. Qed.

Lemma never_raises_bind {A B} cls (m : M A) (k : A → M B) :
  never_raises cls m → (∀ a, never_raises cls (k a)) →
  never_raises cls (m ≫= k).
Proof.
  intros Hm Hk w e. unfold mbind, M_bind.
  destruct (m w) as [[a|e'] w1] eqn:E.
  - apply Hk.
  - simpl. intros He. injection He as ->. apply (Hm w). by rewrite E.
Qed.

Lemma never_raises_for_each {A} cls (l : list A) (body : A → M unit) :
  (∀ x, never_raises cls (body x)) → never_raises cls (for_each l body).
Proof.
  intros Hbody. induction l as [|x l IH]; simpl.
  - apply never_raises_ret.
  - apply never_raises_bind; [apply Hbody | intros _; apply IH].
Qed.

Lemma never_raises_if {A} cls (b : bool) (m1 m2 : M A) :
  never_raises cls m1 → never_raises cls m2 →
  never_raises cls (if b then m1 else m2).
Proof. by destruct b. Qed.

Lemma never_raises_fmt cls tmpl args :
  IndexError ≠ cls → never_raises cls (fmt tmpl args).
Proof.
  intros Hne. unfold fmt. destruct (Py.format tmpl args);
    [apply never_raises_ret | by apply never_raises_raise].
Qed.

Lemma never_raises_deref cls r :
  ReferenceError ≠ cls → never_raises cls (deref r).
Proof.
  intros Hne w e. unfold deref. destruct (heap w !! r); [discriminate|].
  intros He. injection He as <-. done.
Qed.

Lemma never_raises_table_of cls d attr :
  AttributeError ≠ cls → never_raises cls (table_of d attr).
Proof.
  intros Hne. unfold table_of. destruct (df d);
    [apply never_raises_ret | by apply never_raises_raise].
Qed.

Lemma never_raises_dict_get {V} cls (m : gmap string V) key :
  KeyError ≠ cls → never_raises cls (dict_get m key).
Proof.
  intros Hne. unfold dict_get. destruct (m !! key);
    [apply never_raises_ret | by apply never_raises_raise].
Qed.

Lemma never_raises_regex_sub_name cls name :
  TypeError ≠ cls → never_raises cls (regex_sub_name name).
Proof.
  intros Hne. unfold regex_sub_name. destruct name;
    [apply never_raises_ret | by apply never_raises_raise].
Qed.

Lemma clean_column_names_never_duplicate (self : ref) :
  never_raises DuplicateColumnName (clean_column_names self).
Proof.
  unfold clean_column_names, log_column_names, clean_column, update_df,
    update, log_at.
  repeat first
    [ apply never_raises_bind; [|intros ?]
    | apply never_raises_for_each; intros ?
    | apply never_raises_if
    | apply never_raises_ret
    | apply never_raises_modify
    | apply never_raises_fmt; discriminate
    | apply never_raises_deref; discriminate
    | apply never_raises_table_of; discriminate
    | apply never_raises_dict_get; discriminate
    | apply never_raises_regex_sub_name; discriminate ].
Qed.

(** ** Names after cleaning *)

(** C8.  [clean_column_names] is idempotent.  After an application that
    returned, the row-key name and every column name are made of characters
    of [A-Za-z0-9 .+-] and of ["_"] only, and a second application performs
    no rename: it returns, leaves the store as it is (the table, its names
    and the metadata) and adds to the log nothing but [DEBUG] records, no
    "renamed" warning. *)
Theorem clean_column_names_idempotent (self : ref) (w w1 : World) :
  clean_column_names self w = (Return (), w1) →
  (∃ d1 t1 n1,
     dataset_at w1 self = Some d1 ∧ df d1 = Some t1
     ∧ index_name t1 = Some n1
     ∧ Forall (λ name, clean_chars name = true) (n1 :: columns t1))
  ∧ ∃ entries,
      clean_column_names self w1 = (Return (), with_log (λ l, l ++ entries) w1)
      ∧ heap (with_log (λ l, l ++ entries) w1) = heap w1
      ∧ Forall (λ e, e.1 = DEBUG) entries.
Proof.
  intros Hrun.
  destruct (clean_column_names_returned self w w1 Hrun)
    as (d & t & n & d1 & Hd & Ht & Hn & Hd1 & Hdf1).
  assert (columns (cleaned n t) = Py.regex_sub <$> columns t) as Hcols.
  { unfold columns, cleaned. simpl. by rewrite <- !list_fmap_compose. }
  split.
  - exists d1, (cleaned n t), (Py.regex_sub n). repeat split; try done.
    apply Forall_cons. split; [apply sub_runs_clean_chars|].
    rewrite Hcols. apply Forall_fmap, Forall_true. intros c.
    apply sub_runs_clean_chars.
  - destruct (clean_column_names_kept self d1 (cleaned n t) (Py.regex_sub n) w1)
      as (entries & Hagain & Hdebug); try done.
    + apply regex_sub_idempotent.
    + rewrite Hcols. apply Forall_fmap, Forall_true. intros c.
      apply regex_sub_idempotent.
    + exists entries. by repeat split.
Qed.

Lemma clean_column_names_idempotent_witness :
  ∃ entries,
    clean_column_names 1 (run (clean_column_names 1) (Examples.holding Examples.dirty))
    = (Return (),
       with_log (λ l, l ++ entries)
         (run (clean_column_names 1) (Examples.holding Examples.dirty)))
    ∧ Forall (λ e, e.1 = DEBUG) entries.
Proof.
  destruct (clean_column_names_idempotent 1 (Examples.holding Examples.dirty)
              (run (clean_column_names 1) (Examples.holding Examples.dirty)))
    as (_ & entries & Hagain & _ & Hdebug).
  - vm_compute. reflexivity.
  - exists entries. split; [exact Hagain | exact Hdebug].
Defined.

(** C7, as stated, fails: on a dataset with the columns [a#] and [a$],
    [clean_column_names] returns without raising, and leaves two columns
    named [a_]. *)
Lemma clean_column_names_collision_silent :
  (clean_column_names 1 (Examples.holding Examples.colliding)).1 = Return ()
  ∧ (columns <$>
       (dataset_at (run (clean_column_names 1) (Examples.holding Examples.colliding)) 1
        ≫= df)) = Some ["a_"; "a_"]
  ∧ ¬ NoDup ["a_"; "a_"].
Proof.
  split; [vm_compute; reflexivity|]. split; [vm_compute; reflexivity|].
  intros Hnd. apply NoDup_cons in Hnd as [Hin _]. apply Hin. constructor.
Qed.

(** C7, amended.  [clean_column_names] makes no duplicate detection: it
    never raises [DuplicateColumnName].  On a dataset that has a table with
    a row-key name, pairwise distinct column names and metadata for each of
    them, it returns, and the names it leaves are the cleaned names: the
    row-key name and the column names are then pairwise distinct exactly
    when the substitution sends the original names to pairwise distinct
    names. *)
Theorem clean_column_names_no_detection (self : ref) (w : World) d t n :
  dataset_at w self = Some d →
  df d = Some t →
  index_name t = Some n →
  NoDup (columns t) →
  (∀ c, c ∈ columns t → is_Some (column_meta d !! c)) →
  never_raises DuplicateColumnName (clean_column_names self)
  ∧ ∃ w' d' t',
      clean_column_names self w = (Return (), w')
      ∧ dataset_at w' self = Some d' ∧ df d' = Some t'
      ∧ index_name t' = Some (Py.regex_sub n)
      ∧ columns t' = Py.regex_sub <$> columns t
      ∧ (NoDup (Py.regex_sub n :: columns t')
         ↔ NoDup (Py.regex_sub <$> n :: columns t)).
Proof.
  intros Hd Ht Hn Hnd Hmeta.
  split; [apply clean_column_names_never_duplicate|].
  destruct (clean_column_names_returns self d t n w Hd Ht Hn Hnd Hmeta)
    as [w' Hrun].
  destruct (clean_column_names_returned self w w' Hrun)
    as (d0 & t0 & n0 & d' & Hd0 & Ht0 & Hn0 & Hd' & Hdf').
  assert (d0 = d) as -> by congruence.
  assert (t0 = t) as -> by congruence.
  assert (n0 = n) as -> by congruence.
  assert (columns (cleaned n t) = Py.regex_sub <$> columns t) as Hcols.
  { unfold columns, cleaned. simpl. by rewrite <- !list_fmap_compose. }
  exists w', d', (cleaned n t). repeat split; try done.
  - by rewrite Hcols.
  - by rewrite Hcols.
Qed.

Lemma clean_column_names_no_detection_witness :
  ∃ w', clean_column_names 1 (Examples.holding Examples.colliding)
        = (Return (), w').
Proof.
  destruct (clean_column_names_no_detection 1
              (Examples.holding Examples.colliding) Examples.colliding
              {| index_name := Some "gene"; index := ["g1"; "g2"];
                 cols := [("a#", [Flt Sample.f_one; Flt Sample.f_two]);
                          ("a$", [Flt Sample.f_zero; NaN])] |} "gene")
    as (_ & w' & _ & _ & Hrun & _).
  - reflexivity.
  - reflexivity.
  - reflexivity.
  - apply (bool_decide_unpack _). by vm_compute.
  - intros c Hc. vm_compute in Hc.
    apply elem_of_cons in Hc as [-> | Hc]; [by vm_compute; eauto|].
    apply elem_of_cons in Hc as [-> | Hc]; [by vm_compute; eauto|].
    by apply elem_of_nil in Hc.
  - exists w'. exact Hrun.
Defined.

Lemma check_data_type_cast_witness :
  (@check_data_type Sample.library 1 (Examples.holding Examples.untyped)).1
  = Raise (Exn CastFloat64 (cast_msg "b")).
Proof.
  refine (proj1 (@check_data_type_cast Sample.library 1
                   (Examples.holding Examples.untyped) Examples.untyped
                   {| index_name := Some "gene"; index := ["g1"; "g2"];
                      cols := [("a", [Flt Sample.f_one; Flt Sample.f_two]);
                               ("b", [Str "1.0"; Str "abc"])] |}
                   eq_refl eq_refl _) "b" _ _ _).
  - intros c Hc. vm_compute in Hc.
    apply elem_of_cons in Hc as [-> | Hc]; [by vm_compute; eauto|].
    apply elem_of_cons in Hc as [-> | Hc]; [by vm_compute; eauto|].
    by apply elem_of_nil in Hc.
  - vm_compute. apply list_elem_of_In. right. left. reflexivity.
  - vm_compute. reflexivity.
  - intros c Hc Hbad. vm_compute in Hc.
    apply elem_of_cons in Hc as [-> | Hc]; [vm_compute in Hbad; discriminate|].
    apply elem_of_cons in Hc as [-> | Hc]; [reflexivity|].
    by apply elem_of_nil in Hc.
Defined.

(** ** The model file *)

(** The inner template of the discrete line has no field: whatever the list
    of indices, the line that [create_model_file] writes for the discrete
    columns is the same. *)
Lemma multinomial_line_constant (indices : list string) (w : World) :
  multinomial_line indices w
  = (Return ("single_multinomial  " +:+ Py.nl), w).
Proof. reflexivity. Qed.

(** C1, on the scenario of the specification (the discrete column [group]
    at index 1, the real scalar column [expr], with missing data, at index
    2): [create_model_file] writes the line of the real-valued columns with
    missing data with its index, joined by [" "], and the line of the
    discrete columns without any index. *)
Theorem create_model_file_multinomial_line :
  (columns <$> (merged Examples.scenario ≫= df)) = Some ["group"; "expr"]
  ∧ (create_model_file Examples.scenario).1 = Return (Some ())
  ∧ fs (run create_model_file Examples.scenario) !! "clust.model"
    = Some ("model_index 0 3" +:+ Py.nl +:+ "ignore 0" +:+ Py.nl
            +:+ "single_normal_cm 2" +:+ Py.nl
            +:+ "single_multinomial  " +:+ Py.nl).
Proof. vm_compute. done. Qed.

(** ** The header file *)

(** On the scenario of the specification the header file is complete. *)
Example create_hd2_file_scenario :
  had_error (inp (run (@create_hd2_file Sample.library) Examples.scenario))
  = false
  ∧ fs (run (@create_hd2_file Sample.library) Examples.scenario) !! "clust.hd2"
    = Some ("num_db2_format_defs 2" +:+ Py.nl +:+ Py.nl
            +:+ "number_of_attributes 3" +:+ Py.nl
            +:+ "separator_char '" +:+ Py.tab +:+ "'" +:+ Py.nl +:+ Py.nl
            +:+ "0 dummy nil " +:+ dquote +:+ "gene" +:+ dquote +:+ Py.nl
            +:+ "1 discrete nominal " +:+ dquote +:+ "group" +:+ dquote
            +:+ " range 2" +:+ Py.nl
            +:+ "2 real scalar " +:+ dquote +:+ "expr" +:+ dquote
            +:+ " zero_point 0.0 rel_error 0.01" +:+ Py.nl).
Proof. vm_compute. done. Qed.

(** C3, on a merged dataset whose only real scalar column, [expr], has the
    observed minimum 1.0: the discrete column [group], which stands before
    it, has a missing cell, so [df.min()] has no entry for it and the
    position of [expr] among the columns is beyond the end of the Series of
    minima.  [create_hd2_file] fails with [IndexError], sets [had_error],
    and leaves a header file without the line of [expr]. *)
Theorem create_hd2_file_misaligned_minimum :
  (cols <$> (merged Examples.scenario_gap ≫= df))
  = Some [("group", [Str "x"; Str "y"; NaN]);
          ("expr", [Flt Sample.f_one; Flt Sample.f_two; Flt Sample.f_three])]
  ∧ (m_type <$> (merged Examples.scenario_gap ≫= λ d, column_meta d !! "expr"))
    = Some "real scalar"
  ∧ nanmin [Sample.f_one; Sample.f_two; Sample.f_three] = Sample.f_one
  ∧ SFleb (S754_zero false) Sample.f_one = true
  ∧ had_error (inp Examples.scenario_gap) = false
  ∧ (df_min <$> (merged Examples.scenario_gap ≫= df))
    = Some [("expr", Flt Sample.f_one)]
  ∧ (@create_hd2_file_body Sample.library Examples.scenario_gap).1
    = Raise (Exn IndexError "index out of bounds")
  ∧ had_error (inp (run (@create_hd2_file Sample.library) Examples.scenario_gap))
    = true
  ∧ fs (run (@create_hd2_file Sample.library) Examples.scenario_gap) !! "clust.hd2"
    = Some ("num_db2_format_defs 2" +:+ Py.nl +:+ Py.nl
            +:+ "number_of_attributes 3" +:+ Py.nl
            +:+ "separator_char '" +:+ Py.tab +:+ "'" +:+ Py.nl +:+ Py.nl
            +:+ "0 dummy nil " +:+ dquote +:+ "gene" +:+ dquote +:+ Py.nl
            +:+ "1 discrete nominal " +:+ dquote +:+ "group" +:+ dquote
            +:+ " range 2" +:+ Py.nl).
Proof. vm_compute. done. Qed.

(** With a second real scalar column the shift tests the minimum of the
    wrong column: [a], whose minimum is 1.0, fails the assertion on the
    minimum of [b]. *)
Example create_hd2_file_tests_next_column :
  (columns <$> (merged Examples.scenario_shift ≫= df))
  = Some ["group"; "a"; "b"]
  ∧ (df_min <$> (merged Examples.scenario_shift ≫= df))
    = Some [("a", Flt Sample.f_one); ("b", Flt (SFopp Sample.f_one))]
  ∧ (@create_hd2_file_body Sample.library Examples.scenario_shift).1
    = Raise (Exn AssertionError "min value for a shoud be >= 0.0").
Proof. vm_compute. done. Qed.

(** A real scalar column without any value has NaN for minimum, and NaN is
    not [>= 0.0]: the assertion fails though no value is negative. *)
Example create_hd2_file_empty_column :
  (cols <$> (merged Examples.scenario_empty ≫= df))
  = Some [("expr", [NaN; NaN])]
  ∧ (@create_hd2_file_body Sample.library Examples.scenario_empty).1
    = Raise (Exn AssertionError "min value for expr shoud be >= 0.0").
Proof. vm_compute. done. Qed.

(** ** Tables side by side *)

Lemma position_None (k : string) (l : list string) :
  position k l = None ↔ k ∉ l.
Proof.
  induction l as [|x l IH]; simpl.
  - split; [intros _; apply not_elem_of_nil | done].
  - destruct (decide (x = k)) as [->|Hne].
    + split; [done|]. intros Hk. exfalso. apply Hk. by left.
    + rewrite fmap_None, IH, not_elem_of_cons.
      split; [intros ?; split; [congruence | done] | by intros [_ ?]].
Qed.

Lemma position_Some (k : string) (l : list string) (i : nat) :
  position k l = Some i → l !! i = Some k.
Proof.
  revert i. induction l as [|x l IH]; intros i; simpl; [done|].
  destruct (decide (x = k)) as [->|Hne].
  - by intros [= <-].
  - intros Hi. apply fmap_Some in Hi as (j & Hj & ->). simpl. by apply IH.
Qed.

Lemma position_elem (k : string) (l : list string) :
  k ∈ l → ∃ i, position k l = Some i.
Proof.
  intros Hk. destruct (position k l) as [i|] eqn:Hp; [eauto|].
  by apply position_None in Hp.
Qed.

Lemma reindex_lookup (old new : list string) (cs : list cell) k j :
  position k new = Some j →
  reindex old new cs !! j
  = Some (match position k old with
          | Some i => default NaN (cs !! i)
          | None => NaN
          end).
Proof.
  intros Hj. apply position_Some in Hj.
  unfold reindex. by rewrite list_lookup_fmap, Hj.
Qed.

Lemma elem_of_union_index (k : string) (idxs : list (list string)) :
  k ∈ union_index idxs ↔ ∃ idx, k ∈ idx ∧ idx ∈ idxs.
Proof.
  unfold union_index.
  by rewrite elem_of_reverse, elem_of_remove_dups, elem_of_reverse,
    list_elem_of_join.
Qed.

Lemma column_fmap (g : list cell → list cell) (c : string)
    (cs : list (string * list cell)) :
  column c ((λ x, (x.1, g x.2)) <$> cs) = g <$> column c cs.
Proof.
  induction cs as [|x cs IH]; simpl; [done|].
  destruct (decide (x.1 = c)); [done | apply IH].
Qed.

Lemma column_app (c : string) (cs1 cs2 : list (string * list cell)) :
  column c (cs1 ++ cs2)
  = match column c cs1 with Some v => Some v | None => column c cs2 end.
Proof.
  induction cs1 as [|x cs1 IH]; simpl; [done|].
  destruct (decide (x.1 = c)); [done | apply IH].
Qed.

Lemma column_None (c : string) (cs : list (string * list cell)) :
  column c cs = None ↔ c ∉ cs.*1.
Proof.
  induction cs as [|x cs IH]; simpl.
  - split; [intros _; apply not_elem_of_nil | done].
  - destruct (decide (x.1 = c)) as [<-|Hne].
    + split; [done|]. intros Hk. exfalso. apply Hk. by left.
    + rewrite IH, not_elem_of_cons.
      split; [intros ?; split; [congruence | done] | by intros [_ ?]].
Qed.

Lemma column_elem (c : string) (cs : list (string * list cell)) :
  c ∈ cs.*1 → ∃ v, column c cs = Some v ∧ (c, v) ∈ cs.
Proof.
  induction cs as [|x cs IH]; simpl; intros Hc.
  - by apply elem_of_nil in Hc.
  - destruct (decide (x.1 = c)) as [<-|Hne].
    + exists x.2. split; [done|]. destruct x. by left.
    + apply elem_of_cons in Hc as [?|Hc]; [done|].
      destruct (IH Hc) as (v & Hv & Hin). exists v. split; [done|]. by right.
Qed.

(** In tables that share no column name, a label is found in the table
    that has it. *)
Lemma column_bind (F : DataFrame → list (string * list cell))
    (g : DataFrame → list cell → list cell)
    (ts : list DataFrame) (t : DataFrame) (c : string) :
  (∀ t, F t = (λ x, (x.1, g t x.2)) <$> cols t) →
  NoDup (ts ≫= columns) →
  t ∈ ts → c ∈ columns t →
  column c (ts ≫= F) = g t <$> column c (cols t).
Proof.
  intros HF. induction ts as [|t' ts IH]; intros Hnd Ht Hc.
  - by apply elem_of_nil in Ht.
  - simpl in *. apply NoDup_app in Hnd as (Hnd1 & Hdisj & Hnd2).
    rewrite column_app, HF, column_fmap.
    apply elem_of_cons in Ht as [<-|Ht].
    + destruct (column_elem c (cols t) Hc) as (v & -> & _). done.
    + destruct (column c (cols t')) as [v|] eqn:Hv.
      * exfalso. assert (c ∈ columns t') as Hc'.
        { destruct (decide (c ∈ columns t')) as [?|Hn]; [done|].
          apply column_None in Hn. congruence. }
        apply (Hdisj c Hc'). apply list_elem_of_bind. eauto.
      * simpl. by apply IH.
Qed.

Lemma fst_bind_cols (g : DataFrame → list cell → list cell)
    (ts : list DataFrame) :
  (ts ≫= λ t, (λ x, (x.1, g t x.2)) <$> cols t).*1 = ts ≫= columns.
Proof.
  induction ts as [|t ts IH]; [done|].
  rewrite !bind_cons, fmap_app, IH. f_equal.
  unfold columns. rewrite <- list_fmap_compose. done.
Qed.

Lemma fst_bind_plain (ts : list DataFrame) :
  (ts ≫= cols).*1 = ts ≫= columns.
Proof.
  induction ts as [|t ts IH]; [done|].
  by rewrite !bind_cons, fmap_app, IH.
Qed.

Lemma length_bind_columns (ts : list DataFrame) :
  length (ts ≫= columns) = sum_list (length ∘ columns <$> ts).
Proof.
  induction ts as [|t ts IH]; [done|].
  rewrite bind_cons, length_app, IH. done.
Qed.

Lemma cols_eta (t : DataFrame) :
  cols t = (λ x, (x.1, x.2)) <$> cols t.
Proof.
  rewrite <- (list_fmap_id (cols t)) at 1.
  apply list_fmap_ext. by intros i [? ?] _.
Qed.

Lemma at_present (t : DataFrame) (k c : string) :
  rectangular t → c ∈ columns t → k ∈ index t → is_Some (at_ t k c).
Proof.
  intros Hrect Hc Hk. unfold at_.
  destruct (column_elem c (cols t) Hc) as (cs & -> & Hin).
  destruct (position_elem k (index t) Hk) as [i Hi]. simpl. rewrite Hi. simpl.
  apply lookup_lt_is_Some.
  eapply Forall_forall in Hrect; [|exact Hin]. simpl in Hrect. rewrite Hrect.
  apply position_Some in Hi. by eapply lookup_lt_Some.
Qed.

Lemma concat_outer_spec (t0 : DataFrame) (ts : list DataFrame) :
  Forall (λ t, NoDup (index t)) (t0 :: ts) →
  Forall rectangular (t0 :: ts) →
  NoDup ((t0 :: ts) ≫= columns) →
  ∃ T, concat_outer (Some <$> t0 :: ts) = Return T
       ∧ outer_join_of (t0 :: ts) T.
Proof.
  intros Hkeys Hrect Hnd.
  assert (omap id (Some <$> t0 :: ts) = t0 :: ts) as Hall.
  { generalize (t0 :: ts). intros l. induction l as [|x l IH]; [done|].
    rewrite fmap_cons. simpl. by f_equal. }
  unfold concat_outer. rewrite fmap_cons, <- fmap_cons, Hall.
  destruct (forallb (λ t, bool_decide (index t = index t0)) ts) eqn:Hsame.
  - (* the same row keys in every table *)
    eexists. split; [reflexivity|].
    assert (∀ t, t ∈ t0 :: ts → index t = index t0) as Hidx.
    { intros t Ht. apply elem_of_cons in Ht as [->|Ht]; [done|].
      rewrite forallb_forall in Hsame. apply list_elem_of_In in Ht.
      by apply Hsame, bool_decide_eq_true in Ht. }
    split; [|split]; cbn [index cols].
    + unfold columns at 1. cbn [cols]. apply fst_bind_plain.
    + intros k. split.
      * intros Hk. exists t0. split; [by left | done].
      * intros (t & Ht & Hk). by rewrite <- (Hidx t Ht).
    + intros t c k Ht Hc Hk. rewrite <- (Hidx t Ht) in Hk.
      split; [|intros _; apply at_present; [|done..];
               by eapply Forall_forall in Hrect].
      rewrite decide_True by done. unfold at_. cbn [index cols].
      rewrite (column_bind cols (λ _ cs, cs) (t0 :: ts) t c);
        [|intros; apply cols_eta|done..].
      rewrite option_fmap_id. by rewrite (Hidx t Ht).
  - (* different row keys: the union, and every column on it *)
    assert (forallb (λ t, bool_decide (NoDup (index t))) (t0 :: ts) = true)
      as ->.
    { apply forallb_forall. intros t Ht. apply bool_decide_eq_true.
      apply list_elem_of_In in Ht. by eapply Forall_forall in Hkeys. }
    eexists. split; [reflexivity|].
    set (U := union_index (index <$> t0 :: ts)).
    split; [|split]; cbn [index cols].
    + unfold columns at 1. cbn [cols].
      apply (fst_bind_cols (λ t, reindex (index t) U)).
    + intros k. unfold U. rewrite elem_of_union_index. split.
      * intros (idx & Hk & Hidx). apply list_elem_of_fmap in Hidx as (t & -> & Ht).
        eauto.
      * intros (t & Ht & Hk). exists (index t). split; [done|].
        apply list_elem_of_fmap. eauto.
    + intros t c k Ht Hc Hk.
      assert (rectangular t) as Hrt by (by eapply Forall_forall in Hrect).
      split; [|intros ?; by apply at_present].
      unfold at_ at 1. cbn [index cols].
      rewrite (column_bind _ (λ t, reindex (index t) U) (t0 :: ts) t c);
        [|done..].
      destruct (column_elem c (cols t) Hc) as (cs & Hcs & Hin).
      rewrite Hcs. simpl.
      destruct (position_elem k U Hk) as [j Hj]. rewrite Hj. simpl.
      rewrite (reindex_lookup _ _ _ k j Hj).
      destruct (decide (k ∈ index t)) as [Hkt|Hkt].
      * destruct (position_elem k (index t) Hkt) as [i Hi].
        unfold at_. rewrite Hcs, Hi. simpl.
        assert (is_Some (cs !! i)) as [v Hv].
        { apply lookup_lt_is_Some.
          eapply Forall_forall in Hrt; [|exact Hin]. simpl in Hrt. rewrite Hrt.
          apply position_Some in Hi. by eapply lookup_lt_Some. }
        by rewrite Hv.
      * apply position_None in Hkt. by rewrite Hkt.
Qed.

(** ** Methods that keep the tables *)

Lemma same_table_refl (d : Dataset) : same_table d d.
Proof. done. Qed.

Lemma same_table_trans (d1 d2 d3 : Dataset) :
  same_table d1 d2 → same_table d2 d3 → same_table d1 d3.
Proof.
  intros (Hf1 & Ht1 & Hr1) (Hf2 & Ht2 & Hr2).
  split; [congruence|]. split; [congruence|].
  intros k. by rewrite Hr2.
Qed.

Lemma steady_refl (w : World) : steady w w.
Proof.
  repeat split. apply Forall2_same_length_lookup. split; [done|].
  intros i d d' H1 H2. assert (d' = d) as -> by congruence.
  apply same_table_refl.
Qed.

Lemma steady_trans (w1 w2 w3 : World) :
  steady w1 w2 → steady w2 w3 → steady w1 w3.
Proof.
  intros (Hi1 & Hf1 & Hh1) (Hi2 & Hf2 & Hh2). repeat split; try congruence.
  apply Forall2_same_length_lookup. split.
  { apply Forall2_length in Hh1, Hh2. congruence. }
  intros i x z Hx Hz.
  destruct (Forall2_lookup_l _ _ _ i x Hh1 Hx) as (y & Hy & Hxy).
  destruct (Forall2_lookup_l _ _ _ i y Hh2 Hy) as (z' & Hz' & Hyz).
  assert (z' = z) as -> by congruence.
  by eapply same_table_trans.
Qed.

Lemma steady_with_log f w : steady w (with_log f w).
Proof. destruct (steady_refl w) as (? & ? & ?). by repeat split. Qed.

Lemma steady_lookup (w w' : World) (r : ref) (d : Dataset) :
  steady w w' → heap w !! r = Some d →
  ∃ d', heap w' !! r = Some d' ∧ same_table d d'.
Proof.
  intros (_ & _ & Hh) Hd. by eapply Forall2_lookup_l in Hh.
Qed.

Lemma keeps_tables_same {A} (m : M A) :
  (∀ w, (m w).2 = w) → keeps_tables m.
Proof. intros Hm w. rewrite Hm. apply steady_refl. Qed.

Lemma keeps_tables_ret {A} (a : A) : keeps_tables (mret a).
Proof. by apply keeps_tables_same. Qed.

Lemma keeps_tables_raise {A} (e : exn) : keeps_tables (raise e : M A).
Proof. by apply keeps_tables_same. Qed.

Lemma keeps_tables_gets {A} (f : World → A) : keeps_tables (gets f).
Proof. by apply keeps_tables_same. Qed.

Lemma keeps_tables_only_logs {A} (m : M A) : only_logs m → keeps_tables m.
Proof. intros Hm w. destruct (Hm w) as [entries ->]. apply steady_with_log. Qed.

Lemma keeps_tables_bind {A B} (m : M A) (k : A → M B) :
  keeps_tables m → (∀ a, keeps_tables (k a)) → keeps_tables (m ≫= k).
Proof.
  intros Hm Hk w. pose proof (Hm w) as H1. unfold mbind, M_bind.
  destruct (m w) as [[a|e] w1]; simpl in H1; [|done].
  eapply steady_trans; [exact H1 | apply Hk].
Qed.

Lemma keeps_tables_for_each {A} (l : list A) (body : A → M unit) :
  (∀ x, keeps_tables (body x)) → keeps_tables (for_each l body).
Proof.
  intros Hbody. induction l as [|x l IH]; simpl.
  - apply keeps_tables_ret.
  - apply keeps_tables_bind; [apply Hbody | intros _; apply IH].
Qed.

Lemma keeps_tables_if {A} (b : bool) (m1 m2 : M A) :
  keeps_tables m1 → keeps_tables m2 → keeps_tables (if b then m1 else m2).
Proof. by destruct b. Qed.

Lemma raise_on_duplicates_only_logs (names : list string) :
  only_logs (raise_on_duplicates names).
Proof.
  unfold raise_on_duplicates. apply only_logs_if; [|apply only_logs_ret].
  apply only_logs_bind; [apply only_logs_fmt|]. intros ?. apply only_logs_raise.
Qed.

Lemma flag_missing_keeps_tables (self : ref) (col : string) :
  keeps_tables (flag_missing self col).
Proof.
  intros w. unfold flag_missing, deref, mbind, M_bind.
  destruct (heap w !! self) as [d|] eqn:Hd; [|apply steady_refl].
  unfold dict_get. destruct (column_meta d !! col) as [meta|] eqn:Hmeta;
    [|apply steady_refl].
  simpl. repeat split.
  apply Forall2_alter_r.
  - apply Forall2_same_length_lookup. split; [done|].
    intros i x y H1 H2. assert (y = x) as -> by congruence.
    apply same_table_refl.
  - intros x y Hx Hy _. assert (x = d) as -> by congruence.
    assert (y = d) as -> by congruence.
    repeat split. intros k. simpl.
    destruct (decide (col = k)) as [->|Hne].
    + by rewrite lookup_insert_eq, Hmeta.
    + by rewrite lookup_insert_ne.
Qed.

Lemma search_missing_values_keeps_tables (self : ref) :
  keeps_tables (search_missing_values self).
Proof.
  unfold search_missing_values.
  apply keeps_tables_bind; [apply keeps_tables_only_logs, only_logs_log_at|].
  intros _.
  apply keeps_tables_bind; [apply keeps_tables_only_logs, only_logs_deref|].
  intros d.
  apply keeps_tables_bind; [apply keeps_tables_only_logs, only_logs_table_of|].
  intros t. apply keeps_tables_if.
  - apply keeps_tables_bind.
    + apply keeps_tables_for_each. intros col. apply flag_missing_keeps_tables.
    + intros _. apply keeps_tables_only_logs. only_logs_tac.
  - apply keeps_tables_only_logs, only_logs_log_at.
Qed.

Lemma check_merged_keeps_tables : keeps_tables check_merged.
Proof.
  unfold check_merged.
  apply keeps_tables_bind; [apply keeps_tables_gets|]. intros self.
  apply keeps_tables_bind; [apply keeps_tables_only_logs, only_logs_deref|].
  intros d.
  apply keeps_tables_bind; [apply keeps_tables_only_logs, only_logs_table_of|].
  intros t.
  apply keeps_tables_bind;
    [apply keeps_tables_only_logs, raise_on_duplicates_only_logs|].
  intros _.
  apply keeps_tables_bind; [apply keeps_tables_only_logs, only_logs_fmt|].
  intros msg.
  apply keeps_tables_bind; [apply keeps_tables_only_logs, only_logs_log_at|].
  intros _. apply search_missing_values_keeps_tables.
Qed.

(** ** The merge *)

Lemma tables_alter_meta (m : gmap string Meta) (r : ref) (w : World) :
  tables (with_heap (alter (set_column_meta m) r) w) = tables w.
Proof.
  unfold tables. simpl. apply list_eq. intros i.
  rewrite !list_lookup_fmap.
  destruct (decide (r = i)) as [->|Hne].
  - rewrite list_lookup_alter_eq. by destruct (heap w !! i).
  - by rewrite list_lookup_alter_ne.
Qed.

Lemma tables_lookup (w : World) (r : ref) (t : option DataFrame) :
  tables w !! r = Some t ↔ ∃ d, heap w !! r = Some d ∧ df d = t.
Proof.
  unfold tables. rewrite list_lookup_fmap, fmap_Some.
  split; intros (d & ? & ?); exists d; by split.
Qed.

Lemma merge_step_result (self : Input) acc (r : ref) d full w :
  heap w !! r = Some d →
  heap w !! full_dataset self = Some full →
  merge_step self acc r w
  = (Return (acc ++ [df d]),
     with_heap (alter (set_column_meta (column_meta d ∪ column_meta full))
                  (full_dataset self)) w).
Proof.
  intros Hd Hfull. unfold merge_step.
  erewrite bind_return by (unfold deref; rewrite Hd; reflexivity).
  erewrite bind_return by (unfold deref; rewrite Hfull; reflexivity).
  by erewrite bind_return by reflexivity.
Qed.

(** The loop of the merge collects the tables and keeps them. *)
Lemma merge_loop_tables (self : Input) (rs : list ref) (ts : list DataFrame)
    acc w :
  Forall2 (λ r t, tables w !! r = Some (Some t)) rs ts →
  is_Some (tables w !! full_dataset self) →
  ∃ w1, fold_m (merge_step self) rs acc w = (Return (acc ++ (Some <$> ts)), w1)
        ∧ inp w1 = inp w ∧ tables w1 = tables w.
Proof.
  revert ts acc w. induction rs as [|r rs IH]; intros ts acc w Hall Hfull.
  - apply Forall2_nil_inv_l in Hall as ->. exists w. simpl.
    by rewrite app_nil_r.
  - apply Forall2_cons_inv_l in Hall as (t & ts' & Hr & Hall & ->).
    apply tables_lookup in Hr as (d & Hd & Hdf).
    destruct Hfull as [tf Hfull]. pose proof Hfull as Hfull'.
    apply tables_lookup in Hfull' as (full & Hf & _).
    simpl. erewrite bind_return by (by apply merge_step_result).
    set (w' := with_heap _ w).
    assert (tables w' = tables w) as Htab by apply tables_alter_meta.
    destruct (IH ts' (acc ++ [df d]) w') as (w1 & Hrun & Hinp & Htab1).
    + by rewrite Htab.
    + rewrite Htab. eauto.
    + exists w1. rewrite Hrun, Hdf, <- app_assoc. simpl.
      split; [done|]. split; [by rewrite Hinp | congruence].
Qed.

(** The loop of the merge puts the metadata of each dataset over what
    [full_dataset] has. *)
Lemma merge_loop_meta (self : Input) (rs : list ref) (ds : list Dataset)
    acc w full0 :
  Forall2 (λ r d, heap w !! r = Some d) rs ds →
  Forall (λ r, r ≠ full_dataset self) (tail rs) →
  heap w !! full_dataset self = Some full0 →
  ∃ w1 full1 lst,
    fold_m (merge_step self) rs acc w = (Return lst, w1)
    ∧ heap w1 !! full_dataset self = Some full1
    ∧ column_meta full1
      = foldl (λ m d, column_meta d ∪ m) (column_meta full0) ds
    ∧ inp w1 = inp w.
Proof.
  revert ds acc w full0.
  induction rs as [|r rs IH]; intros ds acc w full0 Hall Hne Hfull.
  - apply Forall2_nil_inv_l in Hall as ->. by exists w, full0, acc.
  - apply Forall2_cons_inv_l in Hall as (d & ds' & Hd & Hall & ->).
    simpl in Hne.
    simpl. erewrite bind_return by (by apply merge_step_result).
    set (f := set_column_meta (column_meta d ∪ column_meta full0)).
    destruct (IH ds' (acc ++ [df d])
                (with_heap (alter f (full_dataset self)) w) (f full0))
      as (w1 & full1 & lst & Hrun & Hfull1 & Hmeta & Hinp).
    + apply Forall2_same_length_lookup. split; [by eapply Forall2_length|].
      intros i r' d' Hr' Hd'. simpl.
      rewrite list_lookup_alter_ne.
      * by eapply Forall2_lookup_lr in Hall.
      * intros Heq. eapply Forall_lookup in Hne; [|exact Hr']. by apply Hne.
    + destruct rs as [|r' rs]; [constructor|].
      simpl. by apply Forall_cons in Hne as [_ ?].
    + simpl. by rewrite list_lookup_alter_eq, Hfull.
    + exists w1, full1, lst. by repeat split.
Qed.

Lemma later_meta_lookup (ds : list Dataset) (m0 : gmap string Meta)
    (k : string) :
  foldl (λ m d, column_meta d ∪ m) m0 ds !! k
  = match later_meta ds k with Some m => Some m | None => m0 !! k end.
Proof.
  revert m0. induction ds as [|d ds IH]; intros m0; [done|].
  simpl. rewrite IH. destruct (later_meta ds k); [done|].
  rewrite lookup_union.
  by destruct (column_meta d !! k), (m0 !! k).
Qed.

(** What the wrapper leaves of the world of its body. *)
Lemma handle_error_keeps {A} (f : M A) (w : World) :
  tolerate_error (inp w) = true ∨ had_error (inp w) = false →
  heap (run (handle_error f) w) = heap (f w).2
  ∧ full_dataset (inp (run (handle_error f) w)) = full_dataset (inp (f w).2).
Proof.
  intros Hgo. unfold run. rewrite handle_error_runs.
  - by destruct (f w) as [[a|e] w'].
  - destruct Hgo as [-> | ->]; [done | by rewrite orb_true_r].
Qed.

Lemma merge_dataframes_body_eq (w : World) :
  merge_dataframes_body w
  = ((if bool_decide (length (input_datasets (inp w)) = 1) then
        match input_datasets (inp w) with
        | first :: _ => modify (with_inp (set_full_dataset first))
        | [] => mret ()
        end
      else
        _ ← log_at INFO "Merging input data";
        df_lst ← fold_m (merge_step (inp w)) (input_datasets (inp w)) [];
        t ← lift (concat_outer df_lst);
        update (full_dataset (inp w)) (set_df (Some t))) ≫= λ _, check_merged) w.
Proof. reflexivity. Qed.

(** After the end of the merge, [full_dataset] names the same object, with
    the same table and the same roles. *)
Lemma check_merged_result (w2 : World) (d2 : Dataset) :
  heap w2 !! full_dataset (inp w2) = Some d2 →
  ∃ d3, heap (check_merged w2).2 !! full_dataset (inp (check_merged w2).2)
        = Some d3
        ∧ same_table d2 d3.
Proof.
  intros Hd2. pose proof (check_merged_keeps_tables w2) as Hsteady.
  destruct (steady_lookup _ _ _ _ Hsteady Hd2) as (d3 & Hd3 & Hsame).
  destruct Hsteady as (-> & _). eauto.
Qed.

Lemma merge_many (w : World) (ts : list DataFrame) :
  tolerate_error (inp w) = true ∨ had_error (inp w) = false →
  2 ≤ length (input_datasets (inp w)) →
  Forall2 (λ r t, ∃ d, dataset_at w r = Some d ∧ df d = Some t)
    (input_datasets (inp w)) ts →
  is_Some (merged w) →
  Forall (λ t, rectangular t ∧ NoDup (index t)) ts →
  NoDup (ts ≫= columns) →
  ∃ d' T, merged (run merge_dataframes w) = Some d' ∧ df d' = Some T
          ∧ length (columns T) = sum_list (length ∘ columns <$> ts)
          ∧ outer_join_of ts T.
Proof.
  intros Hgo Hmany Hloaded Hfull Hwf Hnd.
  unfold merged, merge_dataframes.
  destruct (handle_error_keeps merge_dataframes_body w Hgo) as [-> ->].
  set (w0 := with_log (λ l, l ++ [(INFO, "Merging input data")]) w).
  destruct (merge_loop_tables (inp w) (input_datasets (inp w)) ts [] w0)
    as (w1 & Hloop & Hinp1 & Htab1).
  { eapply Forall2_impl; [exact Hloaded|]. intros r t (d & Hd & Ht).
    apply tables_lookup. eauto. }
  { destruct Hfull as [d Hd]. exists (df d). apply tables_lookup. eauto. }
  rewrite app_nil_l in Hloop.
  assert (length ts = length (input_datasets (inp w))) as Hlen
    by (symmetry; by eapply Forall2_length).
  destruct ts as [|t0 ts]; [simpl in Hlen; lia|].
  destruct (concat_outer_spec t0 ts) as (T & Hconcat & Hjoin); [| |done|].
  { eapply Forall_impl; [exact Hwf|]. by intros t [_ ?]. }
  { eapply Forall_impl; [exact Hwf|]. by intros t [? _]. }
  assert (is_Some (heap w1 !! full_dataset (inp w))) as [d1 Hd1].
  { destruct Hfull as [d Hd].
    assert (tables w1 !! full_dataset (inp w) = Some (df d)) as Hlook.
    { rewrite Htab1. apply tables_lookup. eauto. }
    apply tables_lookup in Hlook as (d1 & ? & _). eauto. }
  set (w2 := with_heap (alter (set_df (Some T)) (full_dataset (inp w))) w1).
  assert (merge_dataframes_body w = check_merged w2) as ->.
  { rewrite merge_dataframes_body_eq.
    rewrite bool_decide_eq_false_2 by lia.
    erewrite bind_return; [reflexivity|].
    erewrite bind_return by reflexivity. fold w0.
    erewrite bind_return by exact Hloop.
    erewrite bind_return by (unfold lift; rewrite Hconcat; reflexivity).
    reflexivity. }
  assert (inp w2 = inp w) as Hinp2 by (simpl; by rewrite Hinp1).
  destruct (check_merged_result w2 (set_df (Some T) d1))
    as (d3 & Hd3 & _ & Hdf3 & _).
  { rewrite Hinp2. simpl. by rewrite list_lookup_alter_eq, Hd1. }
  exists d3, T. split; [done|]. split; [done|]. split; [|done].
  destruct Hjoin as (-> & _). apply length_bind_columns.
Qed.

Lemma merge_single (w : World) (r : ref) :
  tolerate_error (inp w) = true ∨ had_error (inp w) = false →
  input_datasets (inp w) = [r] →
  full_dataset (inp (run merge_dataframes w)) = r
  ∧ ∀ d, dataset_at w r = Some d →
      ∃ d', merged (run merge_dataframes w) = Some d' ∧ same_table d d'.
Proof.
  intros Hgo Hone.
  unfold merged, merge_dataframes, dataset_at.
  destruct (handle_error_keeps merge_dataframes_body w Hgo) as [-> ->].
  set (w2 := with_inp (set_full_dataset r) w).
  assert (merge_dataframes_body w = check_merged w2) as ->.
  { rewrite merge_dataframes_body_eq, Hone. simpl length.
    rewrite bool_decide_eq_true_2 by done.
    by erewrite bind_return by reflexivity. }
  pose proof (check_merged_keeps_tables w2) as Hsteady.
  split.
  - destruct Hsteady as (-> & _). done.
  - intros d Hd. destruct (check_merged_result w2 d) as (d3 & Hd3 & Hsame);
      [done | eauto].
Qed.

Lemma merge_meta (w : World) (ds : list Dataset) (full0 : Dataset)
    (k : string) (m : Meta) :
  tolerate_error (inp w) = true ∨ had_error (inp w) = false →
  length (input_datasets (inp w)) ≠ 1 →
  Forall2 (λ r d, dataset_at w r = Some d) (input_datasets (inp w)) ds →
  Forall (λ r, r ≠ full_dataset (inp w)) (tail (input_datasets (inp w))) →
  merged w = Some full0 →
  later_meta ds k = Some m →
  ∃ d' m', merged (run merge_dataframes w) = Some d'
           ∧ column_meta d' !! k = Some m' ∧ role m' = role m.
Proof.
  intros Hgo Hnot1 Hloaded Halias Hfull Hlater.
  unfold merged, merge_dataframes.
  destruct (handle_error_keeps merge_dataframes_body w Hgo) as [-> ->].
  set (w0 := with_log (λ l, l ++ [(INFO, "Merging input data")]) w).
  destruct (merge_loop_meta (inp w) (input_datasets (inp w)) ds [] w0 full0)
    as (w1 & full1 & lst & Hloop & Hfull1 & Hmeta1 & Hinp1); [done..|].
  assert (column_meta full1 !! k = Some m) as Hk.
  { by rewrite Hmeta1, later_meta_lookup, Hlater. }
  destruct (concat_outer lst) as [T|e] eqn:Hconcat.
  - set (w2 := with_heap (alter (set_df (Some T)) (full_dataset (inp w))) w1).
    assert (merge_dataframes_body w = check_merged w2) as ->.
    { rewrite merge_dataframes_body_eq.
      rewrite bool_decide_eq_false_2 by done.
      erewrite bind_return; [reflexivity|].
      erewrite bind_return by reflexivity. fold w0.
      erewrite bind_return by exact Hloop.
      erewrite bind_return by (unfold lift; rewrite Hconcat; reflexivity).
      reflexivity. }
    assert (inp w2 = inp w) as Hinp2 by (simpl; by rewrite Hinp1).
    destruct (check_merged_result w2 (set_df (Some T) full1))
      as (d3 & Hd3 & _ & _ & Hroles).
    { rewrite Hinp2. simpl. by rewrite list_lookup_alter_eq, Hfull1. }
    specialize (Hroles k). simpl in Hroles. rewrite Hk in Hroles.
    destruct (column_meta d3 !! k) as [m'|] eqn:Hm'; [|done].
    exists d3, m'. split; [done|]. split; [done|].
    simpl in Hroles. congruence.
  - assert (merge_dataframes_body w = (Raise e, w1)) as ->.
    { rewrite merge_dataframes_body_eq.
      rewrite bool_decide_eq_false_2 by done.
      erewrite bind_raise; [reflexivity|].
      erewrite bind_return by reflexivity. fold w0.
      erewrite bind_return by exact Hloop.
      by erewrite bind_raise by (unfold lift; rewrite Hconcat; reflexivity). }
    simpl. rewrite Hinp1. simpl. exists full1, m. by rewrite Hfull1.
Qed.

(** C5.  Take an orchestrator whose call is not skipped (no prior error, or
    errors tolerated).

    With N >= 2 loaded datasets, each with a rectangular table and row keys
    without repetition, sharing no column name: after [merge_dataframes],
    [full_dataset] has a table whose number of columns is the sum of the
    numbers of columns of the datasets, whose row keys are the keys of all
    the datasets, and where the cell of a row and a column is the cell of
    the dataset of the column if this dataset has the row, and NaN (missing)
    if it has not.

    With exactly one loaded dataset, [full_dataset] is that very object
    after the call, with its table.

    In the merge of several datasets, for a name that has metadata in
    several of them, [full_dataset] gets the role and error of the last of
    them ([full_dataset] may be the first dataset of the list, not another
    one). *)
Theorem merge_dataframes_outer_join (w : World) :
  tolerate_error (inp w) = true ∨ had_error (inp w) = false →
  (∀ ts,
     2 ≤ length (input_datasets (inp w)) →
     Forall2 (λ r t, ∃ d, dataset_at w r = Some d ∧ df d = Some t)
       (input_datasets (inp w)) ts →
     is_Some (merged w) →
     Forall (λ t, rectangular t ∧ NoDup (index t)) ts →
     NoDup (ts ≫= columns) →
     ∃ d' T, merged (run merge_dataframes w) = Some d' ∧ df d' = Some T
             ∧ length (columns T) = sum_list (length ∘ columns <$> ts)
             ∧ outer_join_of ts T)
  ∧ (∀ r,
       input_datasets (inp w) = [r] →
       full_dataset (inp (run merge_dataframes w)) = r
       ∧ ∀ d, dataset_at w r = Some d →
           ∃ d', merged (run merge_dataframes w) = Some d' ∧ same_table d d')
  ∧ (∀ ds full0 k m,
       length (input_datasets (inp w)) ≠ 1 →
       Forall2 (λ r d, dataset_at w r = Some d) (input_datasets (inp w)) ds →
       Forall (λ r, r ≠ full_dataset (inp w)) (tail (input_datasets (inp w))) →
       merged w = Some full0 →
       later_meta ds k = Some m →
       ∃ d' m', merged (run merge_dataframes w) = Some d'
                ∧ column_meta d' !! k = Some m' ∧ role m' = role m).
Proof.
  intros Hgo. split; [|split].
  - intros ts. by apply merge_many.
  - intros r. by apply merge_single.
  - intros ds full0 k m. by apply merge_meta.
Qed.

Lemma merge_dataframes_outer_join_witness :
  ∃ d' T, merged (run merge_dataframes Examples.loaded) = Some d'
          ∧ df d' = Some T
          ∧ length (columns T) = 2
          ∧ outer_join_of [Examples.a_table; Examples.b_table] T.
Proof.
  refine (proj1 (merge_dataframes_outer_join Examples.loaded _)
            [Examples.a_table; Examples.b_table] _ _ _ _ _).
  - right. vm_compute. reflexivity.
  - vm_compute. lia.
  - vm_compute. repeat constructor; eexists; split; reflexivity.
  - vm_compute. eauto.
  - repeat constructor; try (apply (bool_decide_unpack _); by vm_compute).
  - apply (bool_decide_unpack _). by vm_compute.
Defined.

(** * Further properties *)

(** ** Duplicate detection *)

(** [raise_on_duplicates] returns on a list of pairwise distinct names and
    raises [DuplicateColumnName] on any other list; the message quotes all
    the names of the list, in order, the repeated ones and the others; the
    world is left as it is in both cases. *)
Theorem raise_on_duplicates_decides (names : list string) (w : World) :
  raise_on_duplicates names w
  = if bool_decide (NoDup names) then (Return (), w)
    else (Raise (Exn DuplicateColumnName (duplicate_msg names)), w).
Proof.
  case_bool_decide as Hnd.
  - by apply raise_on_duplicates_NoDup.
  - by apply raise_on_duplicates_repeated.
Qed.

(** ** The names that cleaning keeps *)

Lemma sub_runs_length (b : bool) (s : string) :
  String.length (Py.sub_runs b s) ≤ String.length s.
Proof.
  revert b. induction s as [|c s IH]; intros b; simpl; [done|].
  destruct (Py.whitelisted c).
  - simpl. specialize (IH false). lia.
  - destruct b; simpl; [specialize (IH true) | specialize (IH true)]; lia.
Qed.

Lemma sub_runs_fixed_tidy (b : bool) (s : string) :
  bool_decide (Py.sub_runs b s = s) = tidy b s.
Proof.
  revert b. induction s as [|c s IH]; intros b; simpl; [done|].
  destruct (Py.whitelisted c) eqn:Hc.
  - rewrite <- IH. apply bool_decide_ext. split; [by intros [= ?] | by intros ->].
  - destruct b; simpl.
    + rewrite andb_false_r. simpl. apply bool_decide_eq_false.
      intros Heq. pose proof (sub_runs_length true s) as Hlen.
      rewrite Heq in Hlen. simpl in Hlen. lia.
    + rewrite andb_true_r, <- IH.
      destruct (Ascii.eqb_spec c "_") as [->|Hne]; simpl.
      * apply bool_decide_ext. split; [by intros [= ?] | by intros ->].
      * apply bool_decide_eq_false. intros [= ? ?]. by apply Hne.
Qed.

(** A name is left as it is by the substitution of [clean_column_names]
    exactly when its characters outside [A-Za-z0-9 .+-] are underscores
    that stand alone: a name with two underscores in a row is renamed,
    though it has no forbidden character.  The substitution never makes a
    name longer. *)
Theorem regex_sub_keeps_tidy_names (s : string) :
  bool_decide (Py.regex_sub s = s) = tidy false s
  ∧ String.length (Py.regex_sub s) ≤ String.length s
  ∧ tidy false (Py.regex_sub s) = true.
Proof.
  split; [apply sub_runs_fixed_tidy|]. split; [apply sub_runs_length|].
  rewrite <- sub_runs_fixed_tidy. apply bool_decide_eq_true.
  apply regex_sub_idempotent.
Qed.

(** ** [load] *)

(** [Dataset.load] cannot succeed: it calls [read_datafile] without a role,
    so the assertion on the role fails before anything is read or
    changed. *)
Theorem load_always_fails `{Library} (self : ref) (w : World) :
  load self w
  = (Raise (Exn AssertionError
              ("data type in  should be: "
               +:+ "'real scalar', 'real location' or 'discrete'")), w).
Proof. reflexivity. Qed.

(** ** The sticky error *)

Lemma calls_skipped {A} (bodies : list (M A)) (w : World) :
  had_error (inp w) = true → tolerate_error (inp w) = false →
  calls bodies w = (Return (), w).
Proof.
  intros Herr Htol. unfold calls.
  induction bodies as [|f bodies IH]; [done|].
  simpl. erewrite bind_return; [exact IH|].
  erewrite bind_return; [reflexivity|].
  unfold handle_error. erewrite bind_return by reflexivity.
  by rewrite Herr, Htol.
Qed.

(** Without tolerance, the first call whose body raises ends the session:
    the exception is recorded, and every wrapped call made after it,
    whatever it is, returns without running and leaves the world as the
    failed call left it. *)
Theorem first_error_ends_session {A B} (f : M A) (later : list (M B))
    (w w1 : World) (e : exn) :
  had_error (inp w) = false →
  f w = (Raise e, w1) →
  tolerate_error (inp w1) = false →
  (_ ← handle_error f; calls later) w = (Return (), record_error e w1).
Proof.
  intros Hok Hf Htol.
  erewrite bind_return; last first.
  { rewrite handle_error_runs by (by rewrite Hok, orb_true_r).
    rewrite Hf. reflexivity. }
  by apply calls_skipped.
Qed.

Lemma first_error_ends_session_witness :
  (_ ← merge_dataframes;
   calls [create_model_file_body; create_rparams_file_body]) Examples.fresh
  = (Return (),
     record_error nothing_to_concat
       (with_log (λ l, l ++ [(INFO, "Merging input data")]) Examples.fresh)).
Proof.
  apply (first_error_ends_session merge_dataframes_body
           [create_model_file_body; create_rparams_file_body] Examples.fresh).
  - reflexivity.
  - reflexivity.
  - reflexivity.
Defined.

(** ** The files of parameters *)

Lemma string_app_assoc (a b c : string) : (a +:+ b) +:+ c = a +:+ (b +:+ c).
Proof.
  induction a as [|x a IH]; [done|].
  change (String x ((a +:+ b) +:+ c) = String x (a +:+ (b +:+ c))).
  by rewrite IH.
Qed.

Lemma string_app_nil_r (a : string) : a +:+ "" = a.
Proof.
  induction a as [|x a IH]; [done|].
  change (String x (a +:+ "") = String x a). by rewrite IH.
Qed.

Lemma append_cons (c : ascii) (s t : string) :
  String c s +:+ t = String c (s +:+ t).
Proof. reflexivity. Qed.

Lemma append_nil (t : string) : "" +:+ t = t.
Proof. reflexivity. Qed.

Ltac string_norm :=
  repeat (rewrite append_cons || rewrite append_nil || rewrite string_app_assoc).

Ltac written :=
  cbn [fs with_fs with_log];
  rewrite !lookup_insert_eq, !insert_insert_eq;
  cbn [default from_option]; unfold id.

(** [create_sparams_file] needs no data: in any world its body returns,
    having replaced [clust.s-params], whatever it held, by the seven lines
    with the three values given, and changed nothing else but the log. *)
Theorem create_sparams_file_replaces (max_duration max_n_tries max_cycles : pyval) :
  replaces "clust.s-params"
    (sparams_text max_duration max_n_tries max_cycles)
    "Writing .s-params file"
    (create_sparams_file_body max_duration max_n_tries max_cycles).
Proof.
  intros w. unfold create_sparams_file_body.
  repeat (erewrite bind_return by reflexivity).
  eexists _, _. split; [reflexivity|].
  split; [|by repeat split].
  written. f_equal. unfold sparams_text, Py.nl. string_norm. reflexivity.
Qed.

(** [create_run_file] and [create_run_file_test] write the same file: each
    replaces it, so of two calls the later one decides what
    [run_autoclass.sh] holds. *)
Theorem run_file_later_wins (w : World) :
  replaces "run_autoclass.sh" run_script "Writing run file" create_run_file_body
  ∧ fs (run create_run_file_body (run create_run_file_test_body w))
    = fs (run create_run_file_body w)
  ∧ fs (run create_run_file_test_body (run create_run_file_body w))
    = fs (run create_run_file_test_body w).
Proof.
  split; [|split].
  - intros w0. unfold create_run_file_body.
    repeat (erewrite bind_return by reflexivity).
    eexists _, _. split; [reflexivity|].
    split; [|by repeat split].
    written. reflexivity.
  - unfold run. cbn [snd create_run_file_body create_run_file_test_body].
    simpl. by rewrite !lookup_insert_eq, !insert_insert_eq.
  - simpl. by rewrite !lookup_insert_eq, !insert_insert_eq.
Qed.

(** ** [print_files] *)

Lemma print_file_eq (content name : string) (w : World) :
  print_file content name w
  = (Return (content +:+ from_option (file_section name) "" (fs w !! name)), w).
Proof.
  unfold print_file. erewrite bind_return; [|reflexivity]. cbv beta.
  destruct (fs w !! name) as [text|]; cbn [from_option].
  - erewrite bind_return; [|reflexivity]. unfold file_section.
    unfold mret, M_ret. f_equal. f_equal. by string_norm.
  - by rewrite string_app_nil_r.
Qed.

Lemma print_files_fold (names : list string) (content : string) (w : World) :
  fold_m print_file names content w
  = (Return (content
             +:+ foldr String.append ""
                   (omap (λ name, file_section name <$> fs w !! name) names)),
     w).
Proof.
  revert content. induction names as [|name names IH]; intros content; simpl.
  - by rewrite string_app_nil_r.
  - erewrite bind_return by apply print_file_eq. rewrite IH.
    destruct (fs w !! name) as [text|]; simpl.
    + by rewrite string_app_assoc.
    + by rewrite string_app_nil_r.
Qed.

(** [print_files] only reads: its body returns in any world and changes
    nothing, not even the log.  What it returns is made of the sections of
    those of the five generated files that exist, in the fixed order header,
    model, search parameters, report parameters, run script; a file that
    does not exist is left out without a word, and with none of them the
    result is the empty string. *)
Theorem print_files_reads (w : World) :
  print_files_body w
  = (Return (foldr String.append ""
               (omap (λ name, file_section name <$> fs w !! name)
                  generated_files)), w).
Proof. unfold print_files_body. by rewrite print_files_fold. Qed.

(** ** What a method leaves as it is *)

Section Frame.

Context `{Frame R}.

Lemma respects_same {A} (m : M A) : (∀ w, (m w).2 = w) → respects R m.
Proof. intros E w. rewrite E. apply frame_refl. Qed.

Lemma respects_ret {A} (a : A) : respects R (mret a).
Proof. by apply respects_same. Qed.

Lemma respects_raise {A} (e : exn) : respects R (raise e : M A).
Proof. by apply respects_same. Qed.

Lemma respects_lift {A} (o : outcome A) : respects R (lift o).
Proof. by apply respects_same. Qed.

Lemma respects_gets {A} (f : World → A) : respects R (gets f).
Proof. by apply respects_same. Qed.

Lemma respects_assert (cond : bool) (msg : string) : respects R (assert cond msg).
Proof. apply respects_same. intros w. by destruct cond. Qed.

Lemma respects_fmt tmpl args : respects R (fmt tmpl args).
Proof.
  apply respects_same. intros w. unfold fmt.
  by destruct (Py.format tmpl args).
Qed.

Lemma respects_deref r : respects R (deref r).
Proof.
  apply respects_same. intros w. unfold deref. by destruct (heap w !! r).
Qed.

Lemma respects_table_of d attr : respects R (table_of d attr).
Proof.
  apply respects_same. intros w. unfold table_of. by destruct (df d).
Qed.

Lemma respects_dict_get {V} (m : gmap string V) key : respects R (dict_get m key).
Proof.
  apply respects_same. intros w. unfold dict_get. by destruct (m !! key).
Qed.

Lemma respects_open_read name : respects R (open_read name).
Proof.
  apply respects_same. intros w. unfold open_read. by destruct (fs w !! name).
Qed.

Lemma respects_regex_sub_name name : respects R (regex_sub_name name).
Proof. apply respects_same. intros w. by destruct name. Qed.

Lemma respects_modify (f : World → World) :
  (∀ w, R w (f w)) → respects R (modify f).
Proof. intros Hf w. apply Hf. Qed.

Lemma respects_bind {A B} (m : M A) (k : A → M B) :
  respects R m → (∀ a, respects R (k a)) → respects R (m ≫= k).
Proof.
  intros Hm Hk w. unfold mbind, M_bind.
  specialize (Hm w). destruct (m w) as [[a|e] w1]; [|exact Hm].
  eapply frame_trans; [exact Hm | apply Hk].
Qed.

Lemma respects_for_each {A} (l : list A) (body : A → M unit) :
  (∀ x, respects R (body x)) → respects R (for_each l body).
Proof.
  intros Hb. induction l as [|x l IH]; [apply respects_ret|].
  apply respects_bind; [apply Hb | intros _; exact IH].
Qed.

Lemma respects_fold_m {A B} (f : B → A → M B) (l : list A) (b : B) :
  (∀ b x, respects R (f b x)) → respects R (fold_m f l b).
Proof.
  intros Hf. revert b. induction l as [|x l IH]; intros b; [apply respects_ret|].
  apply respects_bind; [apply Hf | intros b'; apply IH].
Qed.

Lemma respects_try_except {A} (m : M A) (h : exn → M A) :
  respects R m → (∀ e, respects R (h e)) → respects R (try_except m h).
Proof.
  intros Hm Hh w. unfold try_except.
  specialize (Hm w). destruct (m w) as [[a|e] w1]; [exact Hm|].
  eapply frame_trans; [exact Hm | apply Hh].
Qed.

Lemma respects_if {A} (b : bool) (m1 m2 : M A) :
  respects R m1 → respects R m2 → respects R (if b then m1 else m2).
Proof. by destruct b. Qed.

Lemma respects_log_at lv msg : respects R (log_at lv msg).
Proof. apply respects_modify. intros w. apply frame_log. Qed.

Lemma respects_raise_on_duplicates names : respects R (raise_on_duplicates names).
Proof.
  unfold raise_on_duplicates. apply respects_if; [|apply respects_ret].
  apply respects_bind; [apply respects_fmt | intros ?; apply respects_raise].
Qed.

Lemma respects_handle_error {A} (f : M A) :
  (∀ w, R w (with_inp (set_had_error true) w)) →
  respects R f → respects R (handle_error f).
Proof.
  intros Hflag Hf. unfold handle_error.
  apply respects_bind; [apply respects_gets | intros self].
  apply respects_if; [|apply respects_ret].
  apply respects_try_except.
  - apply respects_bind; [exact Hf | intros ?; apply respects_ret].
  - intros e. apply respects_bind.
    + apply respects_for_each. intros ?. apply respects_log_at.
    + intros _. apply respects_bind; [|intros ?; apply respects_ret].
      apply respects_modify. exact Hflag.
Qed.

End Frame.

Ltac frame_step :=
  first
    [ apply respects_bind; [|intros ?]
    | apply respects_for_each; intros ?
    | apply respects_fold_m; intros ? ?
    | apply respects_try_except; [|intros ?]
    | apply respects_if
    | apply respects_ret
    | apply respects_raise
    | apply respects_lift
    | apply respects_gets
    | apply respects_assert
    | apply respects_fmt
    | apply respects_deref
    | apply respects_table_of
    | apply respects_dict_get
    | apply respects_open_read
    | apply respects_regex_sub_name
    | apply respects_log_at
    | apply respects_raise_on_duplicates
    | match goal with
      | |- respects _ (let '(_, _) := ?p in _) => destruct p
      | |- respects _ (match ?x with _ => _ end) => destruct x
      end ].

Ltac frame := repeat frame_step.

#[local] Instance only_object_frame (r : ref) : Frame (only_object r).
Proof.
  split.
  - by intros w.
  - intros w1 w2 w3 (Hi & Hf & Hl & Ho) (Hi' & Hf' & Hl' & Ho').
    repeat split; [congruence..|].
    intros r' Hr. rewrite Ho', Ho by done. done.
  - by intros f w.
Qed.

#[local] Instance settings_kept_frame : Frame settings_kept.
Proof.
  split.
  - by intros w.
  - intros w1 w2 w3 [Hs He] [Hs' He']. split; [congruence | auto].
  - by intros f w.
Qed.

#[local] Instance files_kept_frame : Frame files_kept.
Proof.
  split; [done | | done].
  unfold files_kept. intros w1 w2 w3 ? ?. congruence.
Qed.

#[local] Instance data_kept_frame : Frame data_kept.
Proof.
  split; [done | | done].
  intros w1 w2 w3 (? & ? & ?) (? & ? & ?). repeat split; congruence.
Qed.

Lemma only_object_update (r : ref) (f : Dataset → Dataset) :
  respects (only_object r) (update r f).
Proof.
  apply respects_modify. intros w. repeat split; simpl.
  - by rewrite length_alter.
  - intros r' Hr. by rewrite list_lookup_alter_ne.
Qed.

Ltac frame_modify :=
  first [ apply respects_modify; intros ?; by repeat split
        | intros ?; by repeat split ].

Ltac frames := repeat first [ frame_step | frame_modify ].

Ltac conjs :=
  rewrite ?Forall_cons, ?Forall_nil;
  repeat match goal with
         | |- _ ∧ _ => split
         | |- True => exact I
         end.

Ltac wrapped :=
  apply respects_handle_error; [by intros ?|].

Section Touching.

Context `{Library}.

Lemma read_datafile_only_object (self : ref) (input_file data_type : string)
    (error : pyval) :
  respects (only_object self) (read_datafile self input_file data_type error).
Proof.
  unfold read_datafile, check_duplicate_col_names.
  frame; apply only_object_update.
Qed.

Lemma clean_column_names_only_object (self : ref) :
  respects (only_object self) (clean_column_names self).
Proof.
  unfold clean_column_names, log_column_names, clean_column, update_df.
  frame; apply only_object_update.
Qed.

(** [read_datafile] and [clean_column_names] touch the object they are
    called on and the log, nothing else: the orchestrator, the files, the
    number of objects and every other object are as before, whether the
    call returns or raises. *)
Theorem dataset_methods_touch_only_self (self : ref)
    (input_file data_type : string) (error : pyval) :
  respects (only_object self) (read_datafile self input_file data_type error)
  ∧ respects (only_object self) (clean_column_names self).
Proof.
  split.
  - apply read_datafile_only_object.
  - apply clean_column_names_only_object.
Qed.

(** ** The orchestrator *)







(** Loading and merging never write a file, and writing the files never
    changes the data: [add_input_data], [merge_dataframes] and
    [print_files] leave every file as it is; the six writers and
    [print_files] leave the objects, the list of loaded datasets and the
    merged dataset as they are. *)
Theorem loading_and_writing_are_apart (input_file input_type : string)
    (input_error max_duration max_n_tries max_cycles : pyval) :
  Forall (respects files_kept)
    [add_input_data input_file input_type input_error; merge_dataframes]
  ∧ respects files_kept print_files
  ∧ Forall (respects data_kept)
      [create_hd2_file; create_model_file;
       create_sparams_file max_duration max_n_tries max_cycles;
       create_rparams_file; create_run_file; create_run_file_test]
  ∧ respects data_kept print_files.
Proof.
  split; [|split; [|split]].
  - conjs; wrapped.
    + unfold add_input_data_body, read_datafile, check_duplicate_col_names,
        clean_column_names, log_column_names, clean_column, update_df,
        check_data_type, check_column, update, new_dataset.
      frames.
    + unfold merge_dataframes_body, merge_step, check_merged,
        search_missing_values, flag_missing, update.
      frames.
  - wrapped. unfold print_files_body, print_file. frames.
  - conjs; wrapped;
      unfold create_hd2_file_body, create_model_file_body, assign_column,
        multinomial_line, create_sparams_file_body, create_rparams_file_body,
        create_run_file_body, create_run_file_test_body, open_write, write;
      frames.
  - wrapped. unfold print_files_body, print_file. frames.
Qed.

End Touching.

(** ** [read_datafile] *)

Section Reading.

Context `{Library}.

Lemma declare_columns (self : ref) (meta : Meta) (l : list string) (w : World) :
  for_each l (λ col,
    update self (λ d, set_column_meta (<[col := meta]> (column_meta d)) d)) w
  = (Return (),
     with_heap (alter (λ d, set_column_meta
                              (foldl (λ m c, <[c := meta]> m) (column_meta d) l) d)
                  self) w).
Proof.
  revert w. induction l as [|c l IH]; intros w.
  - simpl. unfold mret, M_ret. f_equal. destruct w as [i h lg f].
    unfold with_heap. simpl. f_equal.
    apply list_eq. intros r. destruct (decide (r = self)) as [->|Hr].
    + rewrite list_lookup_alter_eq. by destruct (h !! self) as [[]|].
    + by rewrite list_lookup_alter_ne.
  - cbn [for_each]. erewrite bind_return by reflexivity. rewrite IH.
    f_equal. destruct w as [i h lg f]. unfold with_heap. simpl. f_equal.
    apply list_eq. intros r. destruct (decide (r = self)) as [->|Hr].
    + rewrite !list_lookup_alter_eq. by destruct (h !! self) as [[]|].
    + by rewrite !list_lookup_alter_ne.
Qed.

Lemma declared_lookup (meta : Meta) (l : list string) (m : gmap string Meta)
    (c : string) :
  foldl (λ m c, <[c := meta]> m) m l !! c
  = if bool_decide (c ∈ l) then Some meta else m !! c.
Proof.
  revert m. induction l as [|x l IH]; intros m; [done|].
  cbn [foldl]. rewrite IH.
  destruct (decide (c = x)) as [->|Hx].
  - rewrite lookup_insert_eq, (bool_decide_eq_true_2 (x ∈ x :: l)) by left.
    by case_bool_decide.
  - rewrite lookup_insert_ne by done.
    rewrite (bool_decide_ext (c ∈ x :: l) (c ∈ l)); [done|].
    rewrite elem_of_cons. tauto.
Qed.

Lemma fmt_detected (s : string) (w : World) :
  fmt "Detected encoding: {}" [s] w = (Return ("Detected encoding: " +:+ s), w).
Proof.
  unfold fmt. cbn [Py.format Ascii.eqb Bool.eqb andb fmap option_fmap option_map].
  by rewrite string_app_nil_r.
Qed.

Lemma read_datafile_opens (self : ref) (file data_type : string)
    (error : pyval) (content : string) (w : World) :
  data_type ∈ data_types →
  fs w !! file = Some content →
  NoDup (header_of content) →
  read_datafile self file data_type error w
  = (t ← lift (read_table content (detect_encoding content));
     _ ← update self (set_df (Some t));
     _ ← for_each (columns t) (λ col,
           update self (λ d, set_column_meta
                               (<[col := new_meta data_type error]> (column_meta d)) d));
     msg ← fmt "Found {} rows and {} columns"
               [Py.str_of_nat (length (index t));
                Py.str_of_nat (length (cols t) + 1)];
     log_at INFO msg)
      (with_log (λ l, l ++ [(INFO, "Detected encoding: "
                                   +:+ opt_str (detect_encoding content))])
         (with_heap (alter (set_input_file file) self) w)).
Proof.
  intros Hty Hfile Hdup. unfold read_datafile.
  erewrite bind_return by reflexivity.
  rewrite bool_decide_eq_true_2 by done.
  erewrite bind_return by reflexivity.
  erewrite bind_return by reflexivity.
  erewrite bind_return; last first.
  { unfold check_duplicate_col_names.
    erewrite bind_return; last first.
    { unfold open_read. simpl. rewrite Hfile. reflexivity. }
    by apply raise_on_duplicates_NoDup. }
  erewrite bind_return; last first.
  { unfold open_read. simpl. rewrite Hfile. reflexivity. }
  erewrite bind_return by apply fmt_detected.
  erewrite bind_return by reflexivity.
  reflexivity.
Qed.

Lemma read_datafile_returns (self : ref) (file data_type : string)
    (error : pyval) (content : string) (t : DataFrame) (w : World) :
  data_type ∈ data_types →
  fs w !! file = Some content →
  NoDup (header_of content) →
  read_table content (detect_encoding content) = Return t →
  ∃ w', read_datafile self file data_type error w = (Return (), w')
    ∧ inp w' = inp w ∧ fs w' = fs w
    ∧ log w' = log w ++ read_log (detect_encoding content) t
    ∧ heap w'
      = alter (λ d, {| input_file := file; df := Some t;
                       column_meta :=
                         foldl (λ m c, <[c := new_meta data_type error]> m)
                           (column_meta d) (columns t) |})
          self (heap w).
Proof.
  intros Hty Hfile Hdup Ht.
  rewrite (read_datafile_opens _ _ _ _ content) by done.
  rewrite Ht.
  erewrite bind_return by reflexivity.
  erewrite bind_return by reflexivity.
  erewrite bind_return by apply declare_columns.
  erewrite bind_return by reflexivity.
  eexists. split; [reflexivity|].
  cbn [inp fs log heap with_log with_heap].
  split; [done|]. split; [done|]. split.
  - by rewrite <- app_assoc.
  - apply list_eq. intros r. destruct (decide (r = self)) as [->|Hr].
    + rewrite !list_lookup_alter_eq. by destruct (heap w !! self) as [[]|].
    + by rewrite !list_lookup_alter_ne.
Qed.

Lemma read_datafile_bad_role (self : ref) (file data_type : string)
    (error : pyval) (w : World) :
  data_type ∉ data_types →
  read_datafile self file data_type error w
  = (Raise (Exn AssertionError (role_msg file)), w).
Proof.
  intros Hty. unfold read_datafile.
  erewrite bind_return by reflexivity.
  rewrite bool_decide_eq_false_2 by done.
  reflexivity.
Qed.

Lemma read_datafile_no_file (self : ref) (file data_type : string)
    (error : pyval) (w : World) :
  data_type ∈ data_types →
  fs w !! file = None →
  read_datafile self file data_type error w
  = (Raise (no_such_file file), with_heap (alter (set_input_file file) self) w).
Proof.
  intros Hty Hfile. unfold read_datafile.
  erewrite bind_return by reflexivity.
  rewrite bool_decide_eq_true_2 by done.
  erewrite bind_return by reflexivity.
  erewrite bind_return by reflexivity.
  erewrite bind_raise; [reflexivity|].
  unfold check_duplicate_col_names.
  erewrite bind_raise; [reflexivity|].
  unfold open_read. simpl. by rewrite Hfile.
Qed.

Lemma read_datafile_repeated (self : ref) (file data_type : string)
    (error : pyval) (content : string) (w : World) :
  data_type ∈ data_types →
  fs w !! file = Some content →
  ¬ NoDup (header_of content) →
  read_datafile self file data_type error w
  = (Raise (Exn DuplicateColumnName (duplicate_msg (header_of content))),
     with_heap (alter (set_input_file file) self) w).
Proof.
  intros Hty Hfile Hdup. unfold read_datafile.
  erewrite bind_return by reflexivity.
  rewrite bool_decide_eq_true_2 by done.
  erewrite bind_return by reflexivity.
  erewrite bind_return by reflexivity.
  erewrite bind_raise; [reflexivity|].
  unfold check_duplicate_col_names.
  erewrite bind_return; last first.
  { unfold open_read. simpl. rewrite Hfile. reflexivity. }
  by apply raise_on_duplicates_repeated.
Qed.

Lemma set_input_file_keeps (file : string) (self : ref) (w : World) :
  df <$> dataset_at (with_heap (alter (set_input_file file) self) w) self
  = df <$> dataset_at w self
  ∧ column_meta <$> dataset_at (with_heap (alter (set_input_file file) self) w) self
    = column_meta <$> dataset_at w self.
Proof.
  unfold dataset_at. simpl. rewrite list_lookup_alter_eq.
  by destruct (heap w !! self).
Qed.

(** A read that goes through.  For a role among the three, a file that
    exists, whose header repeats no name and which the parser accepts,
    [read_datafile] returns; the object then holds the file name and the
    table, every column of the table has the role and the error given and
    is not flagged missing (whatever metadata the name had before), names
    that are no column of the table keep the metadata they had, and two
    INFO records are logged. *)
Theorem read_datafile_loads (self : ref) (file data_type : string)
    (error : pyval) (content : string) (t : DataFrame) (d : Dataset)
    (w : World) :
  data_type ∈ data_types →
  fs w !! file = Some content →
  NoDup (header_of content) →
  read_table content (detect_encoding content) = Return t →
  dataset_at w self = Some d →
  ∃ w' d',
    read_datafile self file data_type error w = (Return (), w')
    ∧ dataset_at w' self = Some d'
    ∧ input_file d' = file ∧ df d' = Some t
    ∧ (∀ c, column_meta d' !! c
            = if bool_decide (c ∈ columns t)
              then Some (new_meta data_type error)
              else column_meta d !! c)
    ∧ log w' = log w ++ read_log (detect_encoding content) t.
Proof.
  intros Hty Hfile Hdup Ht Hd.
  destruct (read_datafile_returns self file data_type error content t w)
    as (w' & Hrun & _ & _ & Hlog & Hheap); [done..|].
  eexists w', _. split; [exact Hrun|].
  split; [|split; [|split; [|split]]]; [| | | |exact Hlog].
  - unfold dataset_at in *. rewrite Hheap, list_lookup_alter_eq, Hd. reflexivity.
  - reflexivity.
  - reflexivity.
  - intros c. apply declared_lookup.
Qed.

(** A read that fails leaves the table and the metadata of the object as
    they were: nothing is loaded by halves.  The failures are the role
    that is none of the three (nothing at all is changed then), the file
    that does not exist, the header that repeats a name and, the header
    being fine, what the parser raises. *)
Theorem read_datafile_all_or_nothing (self : ref) (file data_type : string)
    (error : pyval) (w w' : World) (e : exn) :
  read_datafile self file data_type error w = (Raise e, w') →
  df <$> dataset_at w' self = df <$> dataset_at w self
  ∧ column_meta <$> dataset_at w' self = column_meta <$> dataset_at w self
  ∧ (data_type ∉ data_types → e = Exn AssertionError (role_msg file) ∧ w' = w)
  ∧ (data_type ∈ data_types → fs w !! file = None → e = no_such_file file)
  ∧ (∀ content,
       data_type ∈ data_types → fs w !! file = Some content →
       NoDup (header_of content) →
       read_table content (detect_encoding content) = Raise e).
Proof.
  intros Hrun.
  destruct (decide (data_type ∈ data_types)) as [Hty|Hty]; last first.
  { rewrite read_datafile_bad_role in Hrun by done.
    injection Hrun as <- <-. by repeat split. }
  destruct (fs w !! file) as [content|] eqn:Hfile; last first.
  { rewrite read_datafile_no_file in Hrun by done.
    injection Hrun as <- <-.
    destruct (set_input_file_keeps file self w) as [? ?].
    by repeat split. }
  destruct (decide (NoDup (header_of content))) as [Hdup|Hdup]; last first.
  { rewrite (read_datafile_repeated _ _ _ _ content) in Hrun by done.
    injection Hrun as <- <-.
    destruct (set_input_file_keeps file self w) as [? ?].
    repeat split; try done.
    intros content' _ [= <-] ?. done. }
  destruct (read_table content (detect_encoding content)) as [t|e0] eqn:Ht.
  { destruct (read_datafile_returns self file data_type error content t w)
      as (w1 & Hret & _); [done..|].
    rewrite Hret in Hrun. discriminate. }
  rewrite (read_datafile_opens _ _ _ _ content), Ht in Hrun by done.
  injection Hrun as <- <-.
  destruct (set_input_file_keeps file self w) as [? ?].
  repeat split; try done.
  intros content' _ [= <-] _. done.
Qed.

End Reading.

Lemma read_datafile_loads_witness :
  ∃ w' d',
    @read_datafile Sample.library 1 "A.tsv" "discrete" PyNone
      (run new_dataset
         (Input_init "" "?" Py.tab false {[ "A.tsv" := Examples.a_tsv ]}))
    = (Return (), w')
    ∧ dataset_at w' 1 = Some d'
    ∧ df d' = Some Examples.a_table
    ∧ column_meta d' !! "group" = Some (new_meta "discrete" PyNone).
Proof.
  destruct (@read_datafile_loads Sample.library 1 "A.tsv" "discrete" PyNone
              Examples.a_tsv Examples.a_table Dataset_init
              (run new_dataset
                 (Input_init "" "?" Py.tab false
                    {[ "A.tsv" := Examples.a_tsv ]})))
    as (w' & d' & Hrun & Hd' & _ & Ht & Hmeta & _).
  - apply (bool_decide_unpack _). by vm_compute.
  - reflexivity.
  - apply (bool_decide_unpack _). by vm_compute.
  - by vm_compute.
  - reflexivity.
  - exists w', d'. split; [exact Hrun|]. split; [exact Hd'|].
    split; [exact Ht|]. exact (Hmeta "group").
Defined.

Lemma read_datafile_all_or_nothing_witness :
  dataset_at
    (run (@read_datafile Sample.library 1 "none.tsv" "discrete" PyNone)
       Examples.before_read) 1
  = Some (set_input_file "none.tsv" Dataset_init)
  ∧ df <$> dataset_at
             (run (@read_datafile Sample.library 1 "none.tsv" "discrete" PyNone)
                Examples.before_read) 1
    = df <$> dataset_at Examples.before_read 1.
Proof.
  split; [reflexivity|].
  apply (@read_datafile_all_or_nothing Sample.library 1 "none.tsv" "discrete"
           PyNone Examples.before_read _ (no_such_file "none.tsv")).
  reflexivity.
Defined.


(** ** [search_missing_values] *)

Lemma fmt_missing (s : string) (w : World) :
  fmt "Missing values found in columns: {}" [s] w
  = (Return ("Missing values found in columns: " +:+ s), w).
Proof.
  unfold fmt. cbn [Py.format Ascii.eqb Bool.eqb andb fmap option_fmap option_map].
  by rewrite string_app_nil_r.
Qed.

Lemma flag_missing_sets (self : ref) (c : string) (d : Dataset) (meta : Meta)
    (w : World) :
  dataset_at w self = Some d →
  column_meta d !! c = Some meta →
  flag_missing self c w
  = (Return (),
     with_heap (alter (set_column_meta
                         (<[c := set_missing true meta]> (column_meta d)))
                  self) w).
Proof.
  intros Hd Hmeta. unfold flag_missing.
  erewrite bind_return; last first.
  { unfold deref. unfold dataset_at in Hd. rewrite Hd. reflexivity. }
  erewrite bind_return; last first.
  { unfold dict_get. rewrite Hmeta. reflexivity. }
  reflexivity.
Qed.

Lemma flag_missing_loop (self : ref) (l : list string) (d : Dataset)
    (w : World) :
  dataset_at w self = Some d →
  Forall (λ c, is_Some (column_meta d !! c)) l →
  ∃ w' d',
    for_each l (flag_missing self) w = (Return (), w')
    ∧ dataset_at w' self = Some d'
    ∧ input_file d' = input_file d ∧ df d' = df d
    ∧ (∀ c, column_meta d' !! c
            = (λ m, if bool_decide (c ∈ l) then set_missing true m else m)
                <$> column_meta d !! c)
    ∧ log w' = log w.
Proof.
  revert d w. induction l as [|x l IH]; intros d w Hd Hall.
  { exists w, d. repeat split; [done|].
    intros c. by destruct (column_meta d !! c). }
  apply Forall_cons in Hall as [[meta Hmeta] Hall].
  set (d1 := set_column_meta (<[x := set_missing true meta]> (column_meta d)) d).
  set (w1 := with_heap (alter (λ _, d1) self) w).
  assert (flag_missing self x w = (Return (), w1)) as Hstep.
  { rewrite (flag_missing_sets self x d meta) by done.
    unfold w1. f_equal. destruct w as [i h lg f]. unfold with_heap. simpl.
    f_equal. unfold dataset_at in Hd. simpl in Hd.
    apply list_eq. intros r. destruct (decide (r = self)) as [->|Hr].
    - by rewrite !list_lookup_alter_eq, Hd.
    - by rewrite !list_lookup_alter_ne. }
  assert (dataset_at w1 self = Some d1) as Hd1.
  { unfold dataset_at, w1 in *. simpl. by rewrite list_lookup_alter_eq, Hd. }
  destruct (IH d1 w1 Hd1) as (w' & d' & Hrun & Hd' & Hfile & Hdf & Hmetas & Hlog).
  { eapply Forall_impl; [exact Hall|]. intros c [m Hm]. simpl.
    destruct (decide (c = x)) as [->|Hx].
    - rewrite lookup_insert_eq. eauto.
    - rewrite lookup_insert_ne by done. eauto. }
  exists w', d'. cbn [for_each]. erewrite bind_return by exact Hstep.
  split; [exact Hrun|]. split; [exact Hd'|].
  split; [by rewrite Hfile|]. split; [by rewrite Hdf|]. split; [|by rewrite Hlog].
  intros c. rewrite Hmetas. simpl.
  destruct (decide (c = x)) as [->|Hx].
  - rewrite lookup_insert_eq, Hmeta. simpl.
    rewrite (bool_decide_eq_true_2 (x ∈ x :: l)) by left.
    by case_bool_decide.
  - rewrite lookup_insert_ne by done.
    rewrite (bool_decide_ext (c ∈ x :: l) (c ∈ l)); [done|].
    rewrite elem_of_cons. tauto.
Qed.

Lemma elem_of_columns_with_null (t : DataFrame) (c : string) :
  c ∈ columns_with_null t
  ↔ ∃ cs x, (c, cs) ∈ cols t ∧ x ∈ cs ∧ isnull x = true.
Proof.
  unfold columns_with_null. rewrite list_elem_of_fmap. split.
  - intros ([c' cs] & -> & Hin). apply list_elem_of_filter in Hin as [Hnull Hin].
    simpl in Hnull. apply existsb_exists in Hnull as (x & Hx & Hnull).
    exists cs, x. split; [exact Hin|]. split; [|exact Hnull].
    by apply list_elem_of_In.
  - intros (cs & x & Hin & Hx & Hnull). exists (c, cs). split; [done|].
    apply list_elem_of_filter. split; [|done]. simpl.
    apply existsb_exists. exists x. split; [|exact Hnull].
    by apply list_elem_of_In.
Qed.

Lemma search_missing_values_result (self : ref) (w : World) (d : Dataset)
    (t : DataFrame) :
  dataset_at w self = Some d →
  df d = Some t →
  (∀ c, c ∈ columns_with_null t → is_Some (column_meta d !! c)) →
  (∀ c, c ∈ columns_with_null t
        ↔ ∃ cs x, (c, cs) ∈ cols t ∧ x ∈ cs ∧ isnull x = true)
  ∧ ∃ w' d',
      search_missing_values self w = (Return (), w')
      ∧ dataset_at w' self = Some d'
      ∧ input_file d' = input_file d ∧ df d' = Some t
      ∧ (∀ c, column_meta d' !! c
              = (λ m, if bool_decide (c ∈ columns_with_null t)
                      then set_missing true m else m)
                  <$> column_meta d !! c)
      ∧ log w' = log w ++ missing_log t.
Proof.
  intros Hd Ht Hmeta. split; [apply elem_of_columns_with_null|].
  unfold search_missing_values.
  erewrite bind_return by reflexivity.
  erewrite bind_return; last first.
  { unfold deref. simpl. unfold dataset_at in Hd. rewrite Hd. reflexivity. }
  erewrite bind_return; last first.
  { unfold table_of. rewrite Ht. reflexivity. }
  cbv zeta.
  set (w0 := with_log (λ l, l ++ [(INFO, "Searching for missing values")]) w).
  assert (dataset_at w0 self = Some d) as Hd0 by done.
  unfold missing_log. case_bool_decide as Hnull.
  - destruct (flag_missing_loop self (columns_with_null t) d w0 Hd0)
      as (w' & d' & Hrun & Hd' & Hfile & Hdf & Hmetas & Hlog).
    { apply Forall_forall. intros c Hc. by apply Hmeta. }
    erewrite bind_return by exact Hrun.
    erewrite bind_return by apply fmt_missing.
    eexists _, d'. split; [reflexivity|].
    split; [exact Hd'|]. split; [exact Hfile|].
    split; [by rewrite Hdf|]. split; [exact Hmetas|].
    simpl. rewrite Hlog. simpl. by rewrite <- app_assoc.
  - eexists _, d. split; [reflexivity|]. split; [exact Hd0|].
    split; [done|]. split; [done|]. split.
    + intros c. rewrite Hnull.
      rewrite bool_decide_eq_false_2 by apply not_elem_of_nil.
      by destruct (column_meta d !! c).
    + simpl. by rewrite <- app_assoc.
Qed.

(** [search_missing_values] on an object that has a table, and metadata
    for the columns that hold a missing cell: the call returns; the columns
    flagged are those that hold a missing cell, under every label that such
    a column carries; the flag of any other column is as it was, so a flag
    already set is never cleared; role, error, table and file name are
    unchanged; the log tells [WARNING] with the names when there is one,
    [INFO] when there is none. *)
Theorem search_missing_values_flags (self : ref) (w : World) (d : Dataset)
    (t : DataFrame) :
  dataset_at w self = Some d →
  df d = Some t →
  (∀ c, c ∈ columns_with_null t → is_Some (column_meta d !! c)) →
  (∀ c, c ∈ columns_with_null t
        ↔ ∃ cs x, (c, cs) ∈ cols t ∧ x ∈ cs ∧ isnull x = true)
  ∧ ∃ w' d',
      search_missing_values self w = (Return (), w')
      ∧ dataset_at w' self = Some d'
      ∧ input_file d' = input_file d ∧ df d' = Some t
      ∧ (∀ c, column_meta d' !! c
              = (λ m, if bool_decide (c ∈ columns_with_null t)
                      then set_missing true m else m)
                  <$> column_meta d !! c)
      ∧ log w' = log w ++ missing_log t.
Proof. apply search_missing_values_result. Qed.

Lemma search_missing_values_flags_witness :
  ∃ w' d',
    search_missing_values 1 (Examples.holding Examples.dirty) = (Return (), w')
    ∧ dataset_at w' 1 = Some d'
    ∧ m_missing <$> column_meta d' !! "b__c" = Some true
    ∧ m_missing <$> column_meta d' !! "a#" = Some false.
Proof.
  destruct (search_missing_values_flags 1 (Examples.holding Examples.dirty)
              Examples.dirty
              {| index_name := Some "gene id#"; index := ["g1"; "g2"];
                 cols := [("a#", [Flt Sample.f_one; Flt Sample.f_two]);
                          ("b__c", [Flt Sample.f_zero; NaN])] |})
    as (_ & w' & d' & Hrun & Hd' & _ & _ & Hmeta & _).
  - reflexivity.
  - reflexivity.
  - intros c Hc. apply (bool_decide_unpack _).
    assert (c = "b__c") as ->; [|by vm_compute].
    vm_compute in Hc. by apply list_elem_of_singleton in Hc.
  - exists w', d'. split; [exact Hrun|]. split; [exact Hd'|].
    rewrite !Hmeta. split; by vm_compute.
Defined.

(** ** The writers and the merged table *)

Lemma bind_inv_raise {A B} (m : M A) (k : A → M B) w e w' :
  (m ≫= k) w = (Raise e, w') →
  m w = (Raise e, w') ∨ ∃ a w1, m w = (Return a, w1) ∧ k a w1 = (Raise e, w').
Proof.
  unfold mbind, M_bind. destruct (m w) as [[a|e0] w1]; [eauto|].
  intros [= <- <-]. by left.
Qed.

Lemma deref_merged (w : World) (d : Dataset) :
  merged w = Some d → deref (full_dataset (inp w)) w = (Return d, w).
Proof. unfold merged, deref. by intros ->. Qed.

Lemma table_of_none (d : Dataset) (w : World) :
  df d = None → table_of d "columns" w = (Raise no_columns_error, w).
Proof. unfold table_of. by intros ->. Qed.

Lemma table_of_some (d : Dataset) (t : DataFrame) (attr : string) (w : World) :
  df d = Some t → table_of d attr w = (Return t, w).
Proof. unfold table_of. by intros ->. Qed.

Section Writers.

Context `{Library}.

Lemma create_hd2_file_no_table (w : World) (d : Dataset) :
  merged w = Some d → df d = None →
  create_hd2_file_body w
  = (Raise no_columns_error,
     with_log (λ l, l ++ [(INFO, "Writing .hd2 file")]) w).
Proof.
  intros Hd Ht. unfold create_hd2_file_body.
  erewrite bind_return by reflexivity.
  erewrite bind_return by reflexivity.
  erewrite bind_return by (by apply deref_merged).
  erewrite bind_raise; [reflexivity|]. by apply table_of_none.
Qed.

Lemma create_model_file_no_table (w : World) (d : Dataset) :
  merged w = Some d → df d = None →
  create_model_file_body w
  = (Raise no_columns_error,
     with_log (λ l, l ++ [(INFO, "Writing .model file")]) w).
Proof.
  intros Hd Ht. unfold create_model_file_body.
  erewrite bind_return by reflexivity.
  erewrite bind_return by reflexivity.
  erewrite bind_return by (by apply deref_merged).
  erewrite bind_raise; [reflexivity|]. by apply table_of_none.
Qed.

(** The header and the model cannot be written before there is a merged
    table.  As long as the merged dataset has no table (as in an
    orchestrator that has merged nothing), a call of [create_hd2_file] or
    of [create_model_file] that is not skipped fails on [None.columns]
    before it opens its file: no file is created or emptied, and the
    error flag is set. *)
Theorem writers_need_a_table (w : World) (d : Dataset) :
  merged w = Some d →
  df d = None →
  tolerate_error (inp w) = true ∨ had_error (inp w) = false →
  (create_hd2_file_body w).1 = Raise no_columns_error
  ∧ (create_model_file_body w).1 = Raise no_columns_error
  ∧ fs (run create_hd2_file w) = fs w
  ∧ fs (run create_model_file w) = fs w
  ∧ had_error (inp (run create_hd2_file w)) = true
  ∧ had_error (inp (run create_model_file w)) = true.
Proof.
  intros Hd Ht Hrun.
  assert (tolerate_error (inp w) || negb (had_error (inp w)) = true) as Hgo.
  { destruct Hrun as [-> | ->]; [done | by rewrite orb_true_r]. }
  unfold run, create_hd2_file, create_model_file.
  rewrite !handle_error_runs by done.
  rewrite (create_hd2_file_no_table w d), (create_model_file_no_table w d) by done.
  by repeat split.
Qed.

End Writers.

Lemma writers_need_a_table_witness :
  fs (run (@create_hd2_file Sample.library) Examples.fresh) = ∅
  ∧ had_error (inp (run create_model_file Examples.fresh)) = true.
Proof.
  destruct (@writers_need_a_table Sample.library Examples.fresh Dataset_init)
    as (_ & _ & Hfs & _ & _ & Herr).
  - reflexivity.
  - reflexivity.
  - by right.
  - split; [exact Hfs | exact Herr].
Defined.

(** ** [create_model_file] *)

Lemma assign_column_meta (full : Dataset) (models : Models) (i : nat)
    (c : string) (m : Meta) (w : World) :
  column_meta full !! c = Some m →
  assign_column full models (i, c) w
  = (Return
       {| real_values_normals :=
            real_values_normals models
            ++ (if normal m then [Py.str_of_nat (i + 1)] else []);
          real_values_missing :=
            real_values_missing models
            ++ (if with_gaps m then [Py.str_of_nat (i + 1)] else []);
          multinomial_values :=
            multinomial_values models
            ++ (if discrete m then [Py.str_of_nat (i + 1)] else []) |}, w).
Proof.
  intros Hm. unfold assign_column.
  erewrite bind_return; last first.
  { unfold dict_get. rewrite Hm. reflexivity. }
  unfold normal, with_gaps, discrete. destruct models as [cn cm mn].
  destruct (is_real (m_type m)), (m_missing m),
    (bool_decide (m_type m = "discrete")); simpl;
    by rewrite ?app_nil_r.
Qed.

Lemma assign_columns_from (full : Dataset) (k : nat) (l : list string)
    (metas : list Meta) (models : Models) (w : World) :
  mapM (λ c, column_meta full !! c) l = Some metas →
  fold_m (assign_column full) (imap (λ i c, (k + i, c)) l) models w
  = (Return
       {| real_values_normals :=
            real_values_normals models ++ numbers_from k normal metas;
          real_values_missing :=
            real_values_missing models ++ numbers_from k with_gaps metas;
          multinomial_values :=
            multinomial_values models ++ numbers_from k discrete metas |}, w).
Proof.
  revert k metas models. induction l as [|c l IH]; intros k metas models Hmetas.
  - injection Hmetas as <-. simpl. rewrite !app_nil_r. by destruct models.
  - simpl in Hmetas.
    destruct (column_meta full !! c) as [m|] eqn:Hm; [|done]. simpl in Hmetas.
    destruct (mapM _ l) as [ms|] eqn:Hms; [|done]. injection Hmetas as <-.
    cbn [imap fold_m]. rewrite Nat.add_0_r.
    erewrite bind_return by (by apply assign_column_meta).
    rewrite (imap_ext _ (λ i c, (S k + i, c))); last first.
    { intros i x _. simpl. f_equal. lia. }
    rewrite (IH (S k) ms) by done.
    cbn [numbers_from real_values_normals real_values_missing multinomial_values].
    by rewrite <- !app_assoc.
Qed.

Lemma assign_columns_key_error (full : Dataset) (ixs : list (nat * string))
    (models : Models) (w : World) :
  (fold_m (assign_column full) ixs models w).2 = w.
Proof.
  revert models. induction ixs as [|[i c] l IH]; intros models; [done|].
  cbn [fold_m]. unfold mbind at 1, M_bind at 1.
  destruct (assign_column full models (i, c) w) as [[a|e] w1] eqn:E.
  - assert (w1 = w) as ->; [|apply IH].
    unfold assign_column, dict_get in E.
    destruct (column_meta full !! c); by injection E.
  - unfold assign_column, dict_get in E.
    destruct (column_meta full !! c); by injection E.
Qed.

Lemma create_model_file_starts (w : World) (d : Dataset) (t : DataFrame)
    (metas : list Meta) :
  merged w = Some d → df d = Some t → metas_of d t = Some metas →
  ∃ w', create_model_file_body w = (Return (), w')
    ∧ fs w' = <["clust.model" := model_text metas]> (fs w)
    ∧ heap w' = heap w ∧ inp w' = inp w
    ∧ log w' = log w ++ [(INFO, "Writing .model file")].
Proof.
  intros Hd Ht Hmetas. unfold create_model_file_body.
  erewrite bind_return by reflexivity.
  erewrite bind_return by reflexivity.
  erewrite bind_return by (by apply deref_merged).
  erewrite bind_return by (by apply table_of_some).
  erewrite bind_return by (apply (assign_columns_from d 0); exact Hmetas).
  cbn [real_values_normals real_values_missing multinomial_values app].
  unfold model_text.
  destruct (numbers_from 0 normal metas) as [|n1 cn];
    destruct (numbers_from 0 with_gaps metas) as [|n2 cm];
    destruct (numbers_from 0 discrete metas) as [|n3 mn];
    cbn [nonempty foldl filter list_filter length];
    repeat (erewrite bind_return
              by first [apply multinomial_line_constant | reflexivity]);
    (eexists; split; [reflexivity|]);
    (split; [|by repeat split]);
    written; f_equal; unfold Py.nl; string_norm; reflexivity.
Qed.

Lemma assign_columns_raise (full : Dataset) (k : nat) (l : list string)
    (models : Models) (w : World) :
  mapM (λ c, column_meta full !! c) l = None →
  ∃ e, fold_m (assign_column full) (imap (λ i c, (k + i, c)) l) models w
       = (Raise e, w)
       ∧ exn_cls e = KeyError.
Proof.
  revert k models. induction l as [|c l IH]; intros k models Hnone; [done|].
  simpl in Hnone. cbn [imap fold_m]. rewrite Nat.add_0_r.
  destruct (column_meta full !! c) as [m|] eqn:Hm.
  - simpl in Hnone. destruct (mapM _ l) as [ms|] eqn:Hms; [done|].
    erewrite bind_return by (by apply assign_column_meta).
    rewrite (imap_ext _ (λ i c, (S k + i, c))); last first.
    { intros i x _. simpl. f_equal. lia. }
    by apply IH.
  - exists (Exn KeyError (Py.repr c)). split; [|done].
    erewrite bind_raise; [reflexivity|].
    unfold assign_column. erewrite bind_raise; [reflexivity|].
    unfold dict_get. by rewrite Hm.
Qed.

Lemma numbers_partition (k : nat) (metas : list Meta) :
  Forall (λ m, m_type m ∈ data_types) metas →
  numbers_from k normal metas ++ numbers_from k with_gaps metas
    ++ numbers_from k discrete metas
  ≡ₚ (λ i, Py.str_of_nat (i + 1)) <$> seq k (length metas).
Proof.
  revert k. induction metas as [|m metas IH]; intros k Hall; [done|].
  apply Forall_cons in Hall as [Hm Hall].
  cbn [numbers_from length seq fmap list_fmap].
  specialize (IH (S k) Hall).
  assert (normal m = true ∧ with_gaps m = false ∧ discrete m = false
          ∨ normal m = false ∧ with_gaps m = true ∧ discrete m = false
          ∨ normal m = false ∧ with_gaps m = false ∧ discrete m = true)
    as [(-> & -> & ->) | [(-> & -> & ->) | (-> & -> & ->)]].
  { unfold normal, with_gaps, discrete, data_types in *.
    apply elem_of_cons in Hm as [-> | Hm];
      [|apply elem_of_cons in Hm as [-> | Hm];
        [|apply list_elem_of_singleton in Hm as ->]];
      destruct (m_missing m); vm_compute; tauto. }
  - simpl. by constructor.
  - simpl. rewrite <- Permutation_middle. by constructor.
  - simpl. rewrite app_assoc, <- Permutation_middle, <- app_assoc.
    by constructor.
Qed.

(** What [create_model_file] writes.  When the merged dataset has a table
    and metadata for every column, the call returns and [clust.model],
    whatever it held, holds: the line [model_index 0 n], where [n] is one
    more than the number of the three models (real without missing
    value, real with missing values, discrete) that have a column; the
    line [ignore 0]; for each of the two real models that has a column, a
    line with the numbers of its columns, counted from 1 in the order of
    the table; for the discrete model, if it has a column, the line
    [single_multinomial] without any number.  Nothing else changes but
    the log. *)
Theorem create_model_file_writes (w : World) (d : Dataset) (t : DataFrame)
    (metas : list Meta) :
  merged w = Some d →
  df d = Some t →
  metas_of d t = Some metas →
  ∃ w', create_model_file_body w = (Return (), w')
    ∧ fs w' = <["clust.model" := model_text metas]> (fs w)
    ∧ heap w' = heap w ∧ inp w' = inp w
    ∧ log w' = log w ++ [(INFO, "Writing .model file")].
Proof. apply create_model_file_starts. Qed.

Lemma create_model_file_writes_witness :
  ∃ w', create_model_file_body Examples.scenario = (Return (), w')
    ∧ fs w' !! "clust.model"
      = Some ("model_index 0 3" +:+ Py.nl +:+ "ignore 0" +:+ Py.nl
              +:+ "single_normal_cm 2" +:+ Py.nl
              +:+ "single_multinomial  " +:+ Py.nl).
Proof.
  destruct (create_model_file_writes Examples.scenario
              {| input_file := "";
                 df := Some {| index_name := Some "gene";
                               index := ["g1"; "g2"; "g3"];
                               cols := [("group", [Str "x"; Str "y"; Str "x"]);
                                        ("expr", [Flt Sample.f_one;
                                                  Flt Sample.f_two; NaN])] |};
                 column_meta :=
                   {[ "group" := new_meta "discrete" PyNone;
                      "expr" := set_missing true
                                  (new_meta "real scalar" (PyNum "0.01")) ]} |}
              {| index_name := Some "gene"; index := ["g1"; "g2"; "g3"];
                 cols := [("group", [Str "x"; Str "y"; Str "x"]);
                          ("expr", [Flt Sample.f_one; Flt Sample.f_two; NaN])] |}
              [new_meta "discrete" PyNone;
               set_missing true (new_meta "real scalar" (PyNum "0.01"))])
    as (w' & Hrun & Hfs & _).
  - by vm_compute.
  - reflexivity.
  - by vm_compute.
  - exists w'. split; [exact Hrun|]. rewrite Hfs, lookup_insert_eq.
    by vm_compute.
Defined.

(** Every column is given to one model, and to one only.  When every
    column of the merged table has metadata whose role is one of the
    three, the loop of [create_model_file] returns, changes nothing, and
    its three lists together hold the numbers 1 to [n] of the [n] columns,
    each number once. *)
Theorem create_model_file_assigns_each_column (w : World) (d : Dataset)
    (t : DataFrame) (metas : list Meta) :
  metas_of d t = Some metas →
  Forall (λ m, m_type m ∈ data_types) metas →
  ∃ models,
    fold_m (assign_column d) (enumerate (columns t))
      {| real_values_normals := []; real_values_missing := [];
         multinomial_values := [] |} w
    = (Return models, w)
    ∧ real_values_normals models ++ real_values_missing models
        ++ multinomial_values models
      ≡ₚ (λ i, Py.str_of_nat (i + 1)) <$> seq 0 (length (columns t)).
Proof.
  intros Hmetas Hroles. eexists. split.
  - apply (assign_columns_from d 0). exact Hmetas.
  - cbn [real_values_normals real_values_missing multinomial_values app].
    rewrite numbers_partition by done.
    apply length_mapM in Hmetas. by rewrite Hmetas.
Qed.

Lemma create_model_file_assigns_each_column_witness :
  ∃ models,
    fold_m (assign_column Examples.untyped) (enumerate ["a"; "b"])
      {| real_values_normals := []; real_values_missing := [];
         multinomial_values := [] |} Examples.fresh
    = (Return models, Examples.fresh)
    ∧ real_values_normals models ++ real_values_missing models
        ++ multinomial_values models
      ≡ₚ ["1"; "2"].
Proof.
  apply (create_model_file_assigns_each_column Examples.fresh Examples.untyped
           {| index_name := Some "gene"; index := ["g1"; "g2"];
              cols := [("a", [Flt Sample.f_one; Flt Sample.f_two]);
                       ("b", [Str "1.0"; Str "abc"])] |}
           [Examples.real_meta; Examples.real_meta]).
  - by vm_compute.
  - repeat constructor.
Defined.

(** [create_model_file] writes all of its file or does not touch it: a
    call that raises has left every file as it was.  With a merged object,
    it raises only for want of a table ([AttributeError]) or of the
    metadata of a column ([KeyError]), both before the file is opened. *)
Theorem create_model_file_all_or_nothing (w w' : World) (d : Dataset)
    (e : exn) :
  merged w = Some d →
  create_model_file_body w = (Raise e, w') →
  fs w' = fs w
  ∧ (df d = None ∧ e = no_columns_error
     ∨ ∃ t, df d = Some t ∧ metas_of d t = None ∧ exn_cls e = KeyError).
Proof.
  intros Hd Hrun.
  destruct (df d) as [t|] eqn:Ht; last first.
  { rewrite (create_model_file_no_table w d) in Hrun by done.
    injection Hrun as <- <-. split; [done|]. by left. }
  destruct (metas_of d t) as [metas|] eqn:Hmetas.
  { destruct (create_model_file_starts w d t metas) as (w1 & Hret & _);
      [done..|].
    rewrite Hret in Hrun. discriminate. }
  unfold create_model_file_body in Hrun.
  erewrite bind_return in Hrun by reflexivity.
  erewrite bind_return in Hrun by reflexivity.
  erewrite bind_return in Hrun by (by apply deref_merged).
  erewrite bind_return in Hrun by (by apply table_of_some).
  edestruct (assign_columns_raise d 0 (columns t)) as (e0 & Hraise & Hcls);
    [exact Hmetas|].
  erewrite bind_raise in Hrun by exact Hraise.
  injection Hrun as <- <-. split; [done|]. right. by exists t.
Qed.

Lemma create_model_file_all_or_nothing_witness :
  fs (run create_model_file_body Examples.fresh) = fs Examples.fresh.
Proof.
  apply (create_model_file_all_or_nothing Examples.fresh
           (with_log (λ l, l ++ [(INFO, "Writing .model file")]) Examples.fresh)
           Dataset_init no_columns_error).
  - reflexivity.
  - reflexivity.
Defined.

(** ** [merge_dataframes]: shared names and missing rows *)

Lemma omap_id_Some {A} (l : list A) : omap id (Some <$> l) = l.
Proof. induction l as [|x l IH]; [done|]. rewrite fmap_cons. simpl. by f_equal. Qed.

Lemma concat_outer_columns (t0 : DataFrame) (ts : list DataFrame) :
  Forall (λ t, NoDup (index t)) (t0 :: ts) →
  ∃ T, concat_outer (Some <$> t0 :: ts) = Return T
       ∧ columns T = (t0 :: ts) ≫= columns.
Proof.
  intros Hkeys. unfold concat_outer.
  rewrite fmap_cons, <- fmap_cons, omap_id_Some.
  destruct (forallb (λ t, bool_decide (index t = index t0)) ts).
  - eexists. split; [reflexivity|]. unfold columns at 1. cbn [cols].
    apply fst_bind_plain.
  - assert (forallb (λ t, bool_decide (NoDup (index t))) (t0 :: ts) = true)
      as ->.
    { apply forallb_forall. intros t Ht. apply bool_decide_eq_true.
      apply list_elem_of_In in Ht. by eapply Forall_forall in Hkeys. }
    eexists. split; [reflexivity|]. unfold columns at 1. cbn [cols].
    apply (fst_bind_cols (λ t, reindex (index t)
                                 (union_index (index <$> t0 :: ts)))).
Qed.

Lemma column_found (c : string) (cs : list (string * list cell))
    (v : list cell) :
  column c cs = Some v → (c, v) ∈ cs.
Proof.
  induction cs as [|[c' v'] cs IH]; [done|]. simpl.
  destruct (decide (c' = c)) as [->|Hc].
  - intros [= ->]. left.
  - intros Hv. right. by apply IH.
Qed.

Lemma at_null (T : DataFrame) (k c : string) (x : cell) :
  at_ T k c = Some x → isnull x = true → c ∈ columns_with_null T.
Proof.
  unfold at_. intros Hat Hnull.
  destruct (column c (cols T)) as [cs|] eqn:Hcs; [|done]. simpl in Hat.
  destruct (position k (index T)) as [i|]; [|done]. simpl in Hat.
  unfold columns_with_null. apply list_elem_of_fmap. exists (c, cs).
  split; [done|]. apply list_elem_of_filter. split; [|by apply column_found].
  simpl. apply existsb_exists. exists x. split; [|done].
  apply list_elem_of_In. by eapply list_elem_of_lookup_2.
Qed.

Lemma columns_with_null_columns (T : DataFrame) (c : string) :
  c ∈ columns_with_null T → c ∈ columns T.
Proof.
  unfold columns_with_null, columns. rewrite !list_elem_of_fmap.
  intros (x & -> & Hx). apply list_elem_of_filter in Hx as [_ Hx]. eauto.
Qed.

(** The merge of two datasets or more, up to the check for identical
    names: the joined table is assigned to the merged dataset, whose
    metadata are those of the datasets, the later ones over the earlier. *)
Lemma merge_reaches_check (w : World) (ds : list Dataset)
    (ts : list DataFrame) (full0 : Dataset) :
  2 ≤ length (input_datasets (inp w)) →
  Forall2 (λ r d, dataset_at w r = Some d) (input_datasets (inp w)) ds →
  Forall2 (λ d t, df d = Some t) ds ts →
  Forall (λ r, r ≠ full_dataset (inp w)) (tail (input_datasets (inp w))) →
  merged w = Some full0 →
  Forall (λ t, NoDup (index t)) ts →
  ∃ w2 d2 T,
    merge_dataframes_body w = check_merged w2
    ∧ inp w2 = inp w ∧ fs w2 = fs w
    ∧ heap w2 !! full_dataset (inp w) = Some d2
    ∧ df d2 = Some T
    ∧ concat_outer (Some <$> ts) = Return T
    ∧ columns T = ts ≫= columns
    ∧ (∀ k, column_meta d2 !! k
            = match later_meta ds k with
              | Some m => Some m
              | None => column_meta full0 !! k
              end).
Proof.
  intros Hmany Hloaded Htables Halias Hfull Hkeys.
  set (w0 := with_log (λ l, l ++ [(INFO, "Merging input data")]) w).
  destruct (merge_loop_meta (inp w) (input_datasets (inp w)) ds [] w0 full0)
    as (w1 & full1 & lst & Hloop & Hfull1 & Hmeta1 & Hinp1); [done..|].
  destruct (merge_loop_tables (inp w) (input_datasets (inp w)) ts [] w0)
    as (w1' & Hloop' & _ & _).
  { clear -Hloaded Htables. revert ts Htables.
    induction Hloaded as [|r d rs ds Hr _ IH]; intros ts Htables.
    - apply Forall2_nil_inv_l in Htables as ->. constructor.
    - apply Forall2_cons_inv_l in Htables as (t & ts' & Ht & Htables & ->).
      constructor; [|by apply IH].
      apply tables_lookup. exists d. split; [exact Hr | exact Ht]. }
  { exists (df full0). apply tables_lookup. eauto. }
  rewrite Hloop in Hloop'. injection Hloop' as -> <-. cbn [app] in Hloop.
  assert (length ts = length (input_datasets (inp w))) as Hlen.
  { apply Forall2_length in Hloaded, Htables. congruence. }
  destruct ts as [|t0 ts]; [simpl in Hlen; lia|].
  destruct (concat_outer_columns t0 ts Hkeys) as (T & Hconcat & Hcols).
  set (w2 := with_heap (alter (set_df (Some T)) (full_dataset (inp w))) w1).
  exists w2, (set_df (Some T) full1), T.
  split; [|split; [|split; [|split; [|split; [|split; [|split]]]]]].
  - rewrite merge_dataframes_body_eq.
    rewrite bool_decide_eq_false_2 by lia.
    erewrite bind_return; [reflexivity|].
    erewrite bind_return by reflexivity. fold w0.
    erewrite bind_return by exact Hloop.
    erewrite bind_return by (unfold lift; rewrite Hconcat; reflexivity).
    reflexivity.
  - simpl. by rewrite Hinp1.
  - simpl.
    pose proof (respects_fold_m (R := files_kept) (merge_step (inp w))
                  (input_datasets (inp w)) []) as Hfs.
    specialize (Hfs ltac:(intros ? ?; unfold merge_step, update; frames) w0).
    rewrite Hloop in Hfs. exact Hfs.
  - simpl. by rewrite list_lookup_alter_eq, Hfull1.
  - reflexivity.
  - exact Hconcat.
  - exact Hcols.
  - intros k. simpl. rewrite Hmeta1. apply later_meta_lookup.
Qed.

Lemma check_merged_repeated (w2 : World) (d2 : Dataset) (T : DataFrame) :
  heap w2 !! full_dataset (inp w2) = Some d2 →
  df d2 = Some T →
  ¬ NoDup (columns T) →
  check_merged w2
  = (Raise (Exn DuplicateColumnName (duplicate_msg (columns T))), w2).
Proof.
  intros Hd2 HT Hdup. unfold check_merged.
  erewrite bind_return by reflexivity.
  erewrite bind_return by (unfold deref; rewrite Hd2; reflexivity).
  erewrite bind_return by (by apply table_of_some).
  erewrite bind_raise; [reflexivity|].
  by apply raise_on_duplicates_repeated.
Qed.

(** Two datasets that share a column name cannot be merged.  When the
    tables of the loaded datasets (two or more, each with row keys free of
    repetition) have a column name in common, or one of them has a name
    twice, [merge_dataframes] fails with [DuplicateColumnName]; the message
    lists all the names of the joined table, not the repeated ones alone.
    By then the joined table, with the repeated name, has been assigned to
    the merged dataset, and it stays there; the error flag is set. *)
Theorem merge_dataframes_rejects_shared_names (w : World)
    (ds : list Dataset) (ts : list DataFrame) (full0 : Dataset) :
  tolerate_error (inp w) = true ∨ had_error (inp w) = false →
  2 ≤ length (input_datasets (inp w)) →
  Forall2 (λ r d, dataset_at w r = Some d) (input_datasets (inp w)) ds →
  Forall2 (λ d t, df d = Some t) ds ts →
  Forall (λ r, r ≠ full_dataset (inp w)) (tail (input_datasets (inp w))) →
  merged w = Some full0 →
  Forall (λ t, NoDup (index t)) ts →
  ¬ NoDup (ts ≫= columns) →
  ∃ w2 d2 T,
    merge_dataframes_body w
    = (Raise (Exn DuplicateColumnName (duplicate_msg (ts ≫= columns))), w2)
    ∧ merge_dataframes w
      = (Return None,
         record_error
           (Exn DuplicateColumnName (duplicate_msg (ts ≫= columns))) w2)
    ∧ merged (run merge_dataframes w) = Some d2
    ∧ df d2 = Some T ∧ columns T = ts ≫= columns
    ∧ had_error (inp (run merge_dataframes w)) = true.
Proof.
  intros Hgo Hmany Hloaded Htables Halias Hfull Hkeys Hdup.
  destruct (merge_reaches_check w ds ts full0)
    as (w2 & d2 & T & Hbody & Hinp2 & _ & Hd2 & HT & _ & Hcols & _); [done..|].
  assert (merge_dataframes_body w
          = (Raise (Exn DuplicateColumnName (duplicate_msg (ts ≫= columns))),
             w2)) as Hraise.
  { rewrite Hbody, <- Hcols.
    apply (check_merged_repeated w2 d2 T); [by rewrite Hinp2 | done|].
    by rewrite Hcols. }
  assert (merge_dataframes w
          = (Return None,
             record_error
               (Exn DuplicateColumnName (duplicate_msg (ts ≫= columns))) w2))
    as Hwrapped.
  { unfold merge_dataframes. rewrite handle_error_runs, Hraise; [done|].
    destruct Hgo as [-> | ->]; [done | by rewrite orb_true_r]. }
  exists w2, d2, T. split; [exact Hraise|]. split; [exact Hwrapped|].
  unfold merged, run. rewrite Hwrapped. simpl. rewrite Hinp2.
  by repeat split.
Qed.

Lemma merge_dataframes_rejects_shared_names_witness :
  ∃ d2,
    merged (run merge_dataframes
              (run (@add_input_data Sample.library "A.tsv" "discrete" PyNone)
                 (run (@add_input_data Sample.library "A.tsv" "discrete" PyNone)
                    (Input_init "" "?" Py.tab false
                       {[ "A.tsv" := Examples.a_tsv ]}))))
    = Some d2
    ∧ columns <$> df d2 = Some ["group"; "group"]
    ∧ had_error
        (inp (run merge_dataframes
                (run (@add_input_data Sample.library "A.tsv" "discrete" PyNone)
                   (run (@add_input_data Sample.library "A.tsv" "discrete" PyNone)
                      (Input_init "" "?" Py.tab false
                         {[ "A.tsv" := Examples.a_tsv ]})))))
      = true.
Proof.
  destruct (merge_dataframes_rejects_shared_names
              (run (@add_input_data Sample.library "A.tsv" "discrete" PyNone)
                 (run (@add_input_data Sample.library "A.tsv" "discrete" PyNone)
                    (Input_init "" "?" Py.tab false
                       {[ "A.tsv" := Examples.a_tsv ]})))
              [ {| input_file := "A.tsv"; df := Some Examples.a_table;
                   column_meta := {[ "group" := new_meta "discrete" PyNone ]} |};
                {| input_file := "A.tsv"; df := Some Examples.a_table;
                   column_meta := {[ "group" := new_meta "discrete" PyNone ]} |} ]
              [Examples.a_table; Examples.a_table] Dataset_init)
    as (w2 & d2 & T & _ & _ & Hd2 & HT & Hcols & Herr).
  - right. vm_compute. reflexivity.
  - vm_compute. lia.
  - vm_compute. repeat constructor.
  - repeat constructor.
  - vm_compute. repeat constructor. lia.
  - vm_compute. reflexivity.
  - repeat constructor; apply (bool_decide_unpack _); by vm_compute.
  - intros Hnd. apply (bool_decide_pack _) in Hnd. by vm_compute in Hnd.
  - exists d2. split; [exact Hd2|]. split; [|exact Herr].
    rewrite HT. simpl. by rewrite Hcols.
Defined.

Lemma check_merged_flags (w2 : World) (d2 : Dataset) (T : DataFrame) :
  heap w2 !! full_dataset (inp w2) = Some d2 →
  df d2 = Some T →
  NoDup (columns T) →
  (∀ c, c ∈ columns_with_null T → is_Some (column_meta d2 !! c)) →
  ∃ w' d',
    check_merged w2 = (Return (), w')
    ∧ inp w' = inp w2
    ∧ heap w' !! full_dataset (inp w2) = Some d'
    ∧ df d' = Some T
    ∧ (∀ c, column_meta d' !! c
            = (λ m, if bool_decide (c ∈ columns_with_null T)
                    then set_missing true m else m)
                <$> column_meta d2 !! c).
Proof.
  intros Hd2 HT Hnd Hmeta. unfold check_merged.
  erewrite bind_return by reflexivity.
  erewrite bind_return by (unfold deref; rewrite Hd2; reflexivity).
  erewrite bind_return by (by apply table_of_some).
  erewrite bind_return by (by apply raise_on_duplicates_NoDup).
  unfold shape.
  erewrite bind_return by reflexivity.
  erewrite bind_return by reflexivity.
  cbn [inp].
  set (w3 := with_log _ w2).
  destruct (search_missing_values_result (full_dataset (inp w2)) w3 d2 T)
    as (_ & w' & d' & Hrun & Hd' & _ & HT' & Hmetas & _); [done..|].
  exists w', d'. split; [exact Hrun|].
  split; [|by repeat split].
  pose proof (search_missing_values_keeps_tables (full_dataset (inp w2)) w3)
    as (Hinp & _).
  rewrite Hrun in Hinp. exact Hinp.
Qed.

(** Rows that a file does not have flag its columns.  When the datasets
    (two or more) have rectangular tables with row keys free of
    repetition, no column name in common, and metadata for their columns,
    [merge_dataframes] returns, and in the merged dataset a column has the
    metadata of the dataset it comes from, with [missing] set when the
    column holds a missing cell in the joined table.  This is the case of
    every column of a table that lacks a row which another table has: the
    outer join fills it with NaN. *)
Theorem merge_dataframes_flags_missing_rows (w : World) (ds : list Dataset)
    (ts : list DataFrame) (full0 : Dataset) :
  tolerate_error (inp w) = true ∨ had_error (inp w) = false →
  2 ≤ length (input_datasets (inp w)) →
  Forall2 (λ r d, dataset_at w r = Some d) (input_datasets (inp w)) ds →
  Forall2 (λ d t, df d = Some t) ds ts →
  Forall (λ r, r ≠ full_dataset (inp w)) (tail (input_datasets (inp w))) →
  merged w = Some full0 →
  Forall (λ t, rectangular t ∧ NoDup (index t)) ts →
  NoDup (ts ≫= columns) →
  (∀ c, c ∈ ts ≫= columns → is_Some (later_meta ds c)) →
  ∃ d' T,
    (merge_dataframes w).1 = Return (Some ())
    ∧ merged (run merge_dataframes w) = Some d'
    ∧ df d' = Some T
    ∧ (∀ c m, later_meta ds c = Some m →
         column_meta d' !! c
         = Some (if bool_decide (c ∈ columns_with_null T)
                 then set_missing true m else m))
    ∧ (∀ t t' c k,
         t ∈ ts → c ∈ columns t → k ∉ index t → t' ∈ ts → k ∈ index t' →
         m_missing <$> column_meta d' !! c = Some true).
Proof.
  intros Hgo Hmany Hloaded Htables Halias Hfull Hwf Hnd Hmetas.
  destruct (merge_reaches_check w ds ts full0)
    as (w2 & d2 & T & Hbody & Hinp2 & _ & Hd2 & HT & Hconcat & Hcols & Hmeta2);
    [done.. | |].
  { eapply Forall_impl; [exact Hwf|]. by intros t [_ ?]. }
  assert (outer_join_of ts T) as Hjoin.
  { destruct ts as [|t0 ts'].
    { apply Forall2_length in Hloaded, Htables. simpl in *. lia. }
    destruct (concat_outer_spec t0 ts') as (T' & Hconcat' & Hjoin); [| |done|].
    - eapply Forall_impl; [exact Hwf|]. by intros t [_ ?].
    - eapply Forall_impl; [exact Hwf|]. by intros t [? _].
    - rewrite Hconcat in Hconcat'. by injection Hconcat' as <-. }
  destruct (check_merged_flags w2 d2 T) as (w' & d' & Hrun & Hinp' & Hd' & HT' & Hflags).
  { by rewrite Hinp2. }
  { done. }
  { by rewrite Hcols. }
  { intros c Hc. apply columns_with_null_columns in Hc. rewrite Hcols in Hc.
    rewrite Hmeta2. destruct (Hmetas c Hc) as [m ->]. eauto. }
  assert (merge_dataframes w = (Return (Some ()), w')) as Hwrapped.
  { unfold merge_dataframes. rewrite handle_error_runs, Hbody, Hrun; [done|].
    destruct Hgo as [-> | ->]; [done | by rewrite orb_true_r]. }
  assert (∀ c m, later_meta ds c = Some m →
            column_meta d' !! c
            = Some (if bool_decide (c ∈ columns_with_null T)
                    then set_missing true m else m)) as Hall.
  { intros c m Hm. by rewrite Hflags, Hmeta2, Hm. }
  exists d', T. unfold merged, run. rewrite Hwrapped. cbn [fst snd].
  rewrite Hinp', Hinp2. rewrite Hinp2 in Hd'.
  split; [done|]. split; [exact Hd'|]. split; [exact HT'|]. split; [exact Hall|].
  intros t t' c k Ht Hc Hk Ht' Hk'.
  destruct Hjoin as (_ & Hkeys & Hcells).
  assert (k ∈ index T) as HkT by (apply Hkeys; eauto).
  destruct (Hcells t c k Ht Hc HkT) as [Hat _].
  rewrite decide_False in Hat by done.
  assert (c ∈ columns_with_null T) as Hnull by (by eapply at_null).
  destruct (Hmetas c) as [m Hm].
  { apply list_elem_of_bind. eauto. }
  rewrite (Hall c m Hm), bool_decide_eq_true_2 by done. reflexivity.
Qed.

Lemma merge_dataframes_flags_missing_rows_witness :
  ∃ d',
    merged (run merge_dataframes Examples.loaded) = Some d'
    ∧ m_missing <$> column_meta d' !! "expr" = Some true
    ∧ m_missing <$> column_meta d' !! "group" = Some false.
Proof.
  destruct (merge_dataframes_flags_missing_rows Examples.loaded
              [ {| input_file := "A.tsv"; df := Some Examples.a_table;
                   column_meta := {[ "group" := new_meta "discrete" PyNone ]} |};
                {| input_file := "B.tsv"; df := Some Examples.b_table;
                   column_meta :=
                     {[ "expr" := new_meta "real scalar" (PyNum "0.01") ]} |} ]
              [Examples.a_table; Examples.b_table] Dataset_init)
    as (d' & T & _ & Hd' & HT & Hall & Hgap).
  - right. vm_compute. reflexivity.
  - vm_compute. lia.
  - vm_compute. repeat constructor.
  - repeat constructor.
  - vm_compute. repeat constructor. lia.
  - vm_compute. reflexivity.
  - repeat constructor; try (apply (bool_decide_unpack _); by vm_compute).
  - apply (bool_decide_unpack _). by vm_compute.
  - intros c Hc.
    change (c ∈ ["group"; "expr"]) in Hc.
    rewrite !elem_of_cons in Hc.
    destruct Hc as [-> | [-> | Hc]];
      [apply (bool_decide_unpack _); by vm_compute.. |].
    by apply elem_of_nil in Hc.
  - exists d'. split; [exact Hd'|]. split.
    + apply (Hgap Examples.b_table Examples.a_table "expr" "g3").
      * right. left.
      * apply (bool_decide_unpack _). by vm_compute.
      * apply (bool_decide_unpack _). by vm_compute.
      * left.
      * apply (bool_decide_unpack _). by vm_compute.
    + rewrite (Hall "group" (new_meta "discrete" PyNone)) by (by vm_compute).
      assert (T = {| index_name := Some "gene"; index := ["g1"; "g2"; "g3"];
                     cols := [("group", [Str "x"; Str "y"; Str "x"]);
                              ("expr", [Flt Sample.f_one; Flt Sample.f_two; NaN])] |})
        as ->; [|by vm_compute].
      assert (df <$> merged (run merge_dataframes Examples.loaded)
              = Some (Some {| index_name := Some "gene";
                              index := ["g1"; "g2"; "g3"];
                              cols := [("group", [Str "x"; Str "y"; Str "x"]);
                                       ("expr", [Flt Sample.f_one;
                                                 Flt Sample.f_two; NaN])] |}))
        as Hdf by (by vm_compute).
      rewrite Hd' in Hdf. simpl in Hdf. congruence.
Defined.

(** ** [create_hd2_file] *)

Section HeaderFile.

Context `{Library}.

Lemma create_hd2_file_loop (w : World) (d : Dataset) (t : DataFrame) :
  merged w = Some d → df d = Some t →
  create_hd2_file_body w
  = for_each (enumerate (columns t)) (hd2_column d t)
      (with_fs (<["clust.hd2" := hd2_header (separator (inp w)) t]>)
         (with_log (λ l, l ++ [(INFO, "Writing .hd2 file")]) w)).
Proof.
  intros Hd Ht. unfold create_hd2_file_body.
  erewrite bind_return by reflexivity.
  erewrite bind_return by reflexivity.
  erewrite bind_return by (by apply deref_merged).
  erewrite bind_return by (by apply table_of_some).
  do 11 (erewrite bind_return by reflexivity).
  cbn [inp with_log].
  match goal with
  | |- for_each _ ?f ?w1 = for_each _ ?g ?w2 =>
      change f with g; replace w1 with w2; [reflexivity|]
  end.
  destruct w as [i h lg f]. unfold with_fs, with_log. cbn [inp heap log fs].
  f_equal. rewrite !lookup_insert_eq, !insert_insert_eq.
  cbn [default from_option]. unfold id. f_equal.
  unfold hd2_header, Py.nl, dquote. string_norm. reflexivity.
Qed.

Lemma with_fs_insert_insert (name a b : string) (w : World) :
  with_fs (<[name := b]>) (with_fs (<[name := a]>) w) = with_fs (<[name := b]>) w.
Proof.
  destruct w as [i h lg f]. unfold with_fs. cbn [inp heap log fs].
  by rewrite insert_insert_eq.
Qed.

Lemma write_appends (name prev text : string) (w : World) :
  fs w !! name = Some prev →
  write name text w = (Return (), with_fs (<[name := prev +:+ text]>) w).
Proof.
  intros Hprev. unfold write, modify. f_equal.
  destruct w as [i h lg f]. unfold with_fs. cbn [inp heap log fs] in *.
  by rewrite Hprev.
Qed.

Lemma nothing_written (name prev : string) (w : World) :
  fs w !! name = Some prev →
  w = with_fs (<[name := prev +:+ ""]>) w.
Proof.
  intros Hprev. destruct w as [i h lg f]. unfold with_fs.
  cbn [inp heap log fs] in *. by rewrite string_app_nil_r, insert_id.
Qed.

Lemma hd2_column_line (d : Dataset) (t : DataFrame) (idx : nat)
    (name : string) (meta : Meta) (prev : string) (w : World) :
  column_meta d !! name = Some meta →
  fs w !! "clust.hd2" = Some prev →
  (m_type meta = "real scalar" → min_test t idx = Return true) →
  hd2_column d t (idx, name) w
  = (Return (),
     with_fs (<["clust.hd2" := prev +:+ hd2_line t (idx + 1) name meta]>) w).
Proof.
  intros Hmeta Hprev Hmin. unfold hd2_column, hd2_line.
  erewrite bind_return by (unfold dict_get; rewrite Hmeta; reflexivity).
  destruct (decide (m_type meta = "real scalar")) as [Hs|Hs].
  - rewrite (bool_decide_eq_true_2 _ Hs).
    rewrite !(bool_decide_eq_false_2 (m_type meta = "real location")),
      !(bool_decide_eq_false_2 (m_type meta = "discrete"))
      by (rewrite Hs; discriminate).
    specialize (Hmin Hs). unfold min_test in Hmin.
    destruct (series_at (df_min t) idx) as [v|e] eqn:Hv; [|done].
    erewrite bind_return; last first.
    { erewrite bind_return by reflexivity.
      erewrite bind_return by (unfold lift; rewrite Hmin; reflexivity).
      erewrite bind_return by reflexivity.
      erewrite bind_return by reflexivity.
      erewrite bind_return by reflexivity.
      by apply write_appends. }
    erewrite bind_return by reflexivity.
    unfold mret, M_ret. do 3 f_equal.
    all: unfold Py.nl, dquote; string_norm; rewrite ?string_app_nil_r;
      reflexivity.
  - rewrite !(bool_decide_eq_false_2 _ Hs).
    erewrite bind_return by reflexivity.
    destruct (decide (m_type meta = "real location")) as [Hl|Hl].
    + rewrite !(bool_decide_eq_true_2 _ Hl).
      rewrite !(bool_decide_eq_false_2 (m_type meta = "discrete"))
        by (rewrite Hl; discriminate).
      erewrite bind_return; last first.
      { erewrite bind_return by reflexivity. by apply write_appends. }
      unfold mret, M_ret. do 3 f_equal.
      all: unfold Py.nl, dquote; string_norm; rewrite ?string_app_nil_r;
        reflexivity.
    + rewrite !(bool_decide_eq_false_2 _ Hl).
      erewrite bind_return by reflexivity.
      destruct (decide (m_type meta = "discrete")) as [Hd|Hd].
      * rewrite !(bool_decide_eq_true_2 _ Hd).
        erewrite bind_return by reflexivity.
        rewrite (write_appends _ prev) by done. do 3 f_equal.
        all: unfold Py.nl, dquote; string_norm; reflexivity.
      * rewrite !(bool_decide_eq_false_2 _ Hd).
        unfold mret, M_ret. f_equal. by apply nothing_written.
Qed.

Lemma hd2_column_fails (d : Dataset) (t : DataFrame) (idx : nat)
    (name : string) (meta : Meta) (w : World) :
  column_meta d !! name = Some meta →
  m_type meta = "real scalar" →
  min_test t idx ≠ Return true →
  hd2_column d t (idx, name) w = (Raise (min_failure t idx name), w).
Proof.
  intros Hmeta Hs Hmin. unfold hd2_column, min_failure.
  erewrite bind_return by (unfold dict_get; rewrite Hmeta; reflexivity).
  rewrite (bool_decide_eq_true_2 _ Hs).
  erewrite bind_raise; [reflexivity|].
  unfold min_test in *.
  destruct (series_at (df_min t) idx) as [v|e] eqn:Hv.
  - erewrite bind_return by reflexivity.
    destruct (ge_zero v) as [[|]|e] eqn:Hge; [done| |].
    + erewrite bind_return by reflexivity.
      erewrite bind_return by reflexivity.
      erewrite bind_raise; reflexivity.
    + erewrite bind_raise; reflexivity.
  - erewrite bind_raise; reflexivity.
Qed.

Lemma hd2_columns_lines (d : Dataset) (t : DataFrame) (k : nat)
    (l : list string) (metas : list Meta) (prev : string) (w : World) :
  mapM (λ c, column_meta d !! c) l = Some metas →
  fs w !! "clust.hd2" = Some prev →
  (∀ i name meta, l !! i = Some name → metas !! i = Some meta →
     m_type meta = "real scalar" → min_test t (k + i) = Return true) →
  for_each (imap (λ i c, (k + i, c)) l) (hd2_column d t) w
  = (Return (),
     with_fs (<["clust.hd2" := prev +:+ hd2_lines t k (zip l metas)]>) w).
Proof.
  revert k metas prev w.
  induction l as [|c l IH]; intros k metas prev w Hmetas Hprev Hmin.
  - injection Hmetas as <-. cbn [imap for_each zip zip_with hd2_lines].
    unfold mret, M_ret. f_equal. by apply nothing_written.
  - simpl in Hmetas.
    destruct (column_meta d !! c) as [m|] eqn:Hm; [|done]. simpl in Hmetas.
    destruct (mapM _ l) as [ms|] eqn:Hms; [|done]. injection Hmetas as <-.
    cbn [imap for_each]. rewrite Nat.add_0_r.
    erewrite bind_return; last first.
    { apply (hd2_column_line d t k c m prev); [done..|].
      intros Hs. rewrite <- (Nat.add_0_r k). by apply (Hmin 0 c m). }
    rewrite (imap_ext _ (λ i c, (S k + i, c))); last first.
    { intros i x _. simpl. f_equal. lia. }
    rewrite (IH (S k) ms (prev +:+ hd2_line t (k + 1) c m)); [|done| |].
    + rewrite with_fs_insert_insert. cbn [zip zip_with hd2_lines].
      by rewrite string_app_assoc.
    + simpl. apply lookup_insert_eq.
    + intros i name meta Hi Hmi Hs.
      replace (S k + i) with (k + S i) by lia. by apply (Hmin (S i) name meta).
Qed.

Lemma hd2_columns_fail (d : Dataset) (t : DataFrame) (k : nat)
    (l1 : list string) (c : string) (l2 : list string) (ms1 : list Meta)
    (m : Meta) (prev : string) (w : World) :
  mapM (λ c, column_meta d !! c) l1 = Some ms1 →
  column_meta d !! c = Some m →
  m_type m = "real scalar" →
  fs w !! "clust.hd2" = Some prev →
  (∀ i name meta, l1 !! i = Some name → ms1 !! i = Some meta →
     m_type meta = "real scalar" → min_test t (k + i) = Return true) →
  min_test t (k + length l1) ≠ Return true →
  for_each (imap (λ i c, (k + i, c)) (l1 ++ c :: l2)) (hd2_column d t) w
  = (Raise (min_failure t (k + length l1) c),
     with_fs (<["clust.hd2" := prev +:+ hd2_lines t k (zip l1 ms1)]>) w).
Proof.
  revert k ms1 prev w.
  induction l1 as [|c1 l1 IH]; intros k ms1 prev w Hms1 Hm Hs Hprev Hpass Hfail.
  - injection Hms1 as <-. cbn [app imap for_each zip zip_with hd2_lines length].
    rewrite Nat.add_0_r in *.
    erewrite bind_raise by (by apply (hd2_column_fails d t k c m)).
    f_equal. by apply nothing_written.
  - simpl in Hms1.
    destruct (column_meta d !! c1) as [m1|] eqn:Hm1; [|done]. simpl in Hms1.
    destruct (mapM _ l1) as [ms|] eqn:Hms; [|done]. injection Hms1 as <-.
    cbn [app imap for_each length]. rewrite Nat.add_0_r.
    erewrite bind_return; last first.
    { apply (hd2_column_line d t k c1 m1 prev); [done..|].
      intros Hs1. rewrite <- (Nat.add_0_r k). by apply (Hpass 0 c1 m1). }
    rewrite (imap_ext _ (λ i c, (S k + i, c))); last first.
    { intros i x _. simpl. f_equal. lia. }
    rewrite (IH (S k) ms (prev +:+ hd2_line t (k + 1) c1 m1)); [|done..| | |].
    + rewrite with_fs_insert_insert. cbn [zip zip_with hd2_lines].
      rewrite string_app_assoc. do 3 f_equal. lia.
    + simpl. apply lookup_insert_eq.
    + intros i name meta Hi Hmi Hs'.
      replace (S k + i) with (k + S i) by lia. by apply (Hpass (S i) name meta).
    + replace (S k + length l1) with (k + S (length l1)) by lia. exact Hfail.
Qed.

Lemma omap_lookup_total {A B} (f : A → option B) (l : list A) (i : nat) :
  Forall (λ x, is_Some (f x)) l → omap f l !! i = l !! i ≫= f.
Proof.
  revert i. induction l as [|x l IH]; intros i Hall; [done|].
  apply Forall_cons in Hall as [[y Hy] Hall]. simpl. rewrite Hy.
  destruct i as [|i]; simpl; [done|]. by apply IH.
Qed.

(** What [create_hd2_file] writes.  When the merged dataset has a table
    and metadata for every column, and the test on the minimum passes at
    the position of every real scalar column, the call returns and
    [clust.hd2], whatever it held, holds the six lines of the header (with
    the number of columns plus one, the separator and the name of the
    row-key column) followed by one line per column, in the order of the
    table and numbered from 1: the role, the name in double quotes, and the
    error of a real column or the number of distinct values of a discrete
    one.  A column whose role is none of the three gets no line.  Nothing
    else changes but the log. *)
Theorem create_hd2_file_writes (w : World) (d : Dataset) (t : DataFrame)
    (metas : list Meta) :
  merged w = Some d →
  df d = Some t →
  metas_of d t = Some metas →
  (∀ i name meta, columns t !! i = Some name → metas !! i = Some meta →
     m_type meta = "real scalar" → min_test t i = Return true) →
  ∃ w', create_hd2_file_body w = (Return (), w')
    ∧ fs w'
      = <["clust.hd2" := hd2_header (separator (inp w)) t
                         +:+ hd2_lines t 0 (zip (columns t) metas)]> (fs w)
    ∧ heap w' = heap w ∧ inp w' = inp w
    ∧ log w' = log w ++ [(INFO, "Writing .hd2 file")].
Proof.
  intros Hd Ht Hmetas Hmin.
  rewrite (create_hd2_file_loop w d t) by done.
  unfold enumerate.
  erewrite (hd2_columns_lines d t 0 (columns t) metas); [|exact Hmetas| |exact Hmin].
  - eexists. split; [reflexivity|]. cbn [fs heap inp log with_fs with_log].
    rewrite insert_insert_eq. by repeat split.
  - cbn [fs with_fs]. apply lookup_insert_eq.
Qed.

(** A failure of the test on the minimum leaves a truncated file.  When
    the columns before a real scalar column pass and the test does not
    pass at its position, [create_hd2_file] raises what the test raises
    ([AssertionError] naming the column when the value tested is negative
    or NaN, the error of the lookup or of the comparison otherwise), and
    [clust.hd2] is left with the header and the lines of the columns
    before: the file is not complete, and it is not removed. *)
Theorem create_hd2_file_leaves_partial_file (w : World) (d : Dataset)
    (t : DataFrame) (l1 : list string) (c : string) (l2 : list string)
    (ms1 : list Meta) (m : Meta) :
  merged w = Some d →
  df d = Some t →
  columns t = l1 ++ c :: l2 →
  mapM (λ c, column_meta d !! c) l1 = Some ms1 →
  column_meta d !! c = Some m →
  m_type m = "real scalar" →
  (∀ i name meta, l1 !! i = Some name → ms1 !! i = Some meta →
     m_type meta = "real scalar" → min_test t i = Return true) →
  min_test t (length l1) ≠ Return true →
  ∃ w', create_hd2_file_body w = (Raise (min_failure t (length l1) c), w')
    ∧ fs w' !! "clust.hd2"
      = Some (hd2_header (separator (inp w)) t +:+ hd2_lines t 0 (zip l1 ms1)).
Proof.
  intros Hd Ht Hcols Hms1 Hm Hs Hpass Hfail.
  rewrite (create_hd2_file_loop w d t) by done.
  unfold enumerate. rewrite Hcols.
  erewrite (hd2_columns_fail d t 0 l1 c l2 ms1 m); [|done..| | |].
  - eexists. split; [reflexivity|]. cbn [fs with_fs].
    apply lookup_insert_eq.
  - cbn [fs with_fs]. apply lookup_insert_eq.
  - exact Hpass.
  - exact Hfail.
Qed.

End HeaderFile.

(** The value that [create_hd2_file] tests for the column at position [i]
    is the minimum of that column whenever every column of the table has
    a minimum, that is when no column mixes text with missing cells: the
    Series of the minima then has one entry per column, in the order of
    the table. *)
Theorem create_hd2_file_tests_own_minimum (t : DataFrame) (i : nat)
    (name : string) (cs : list cell) :
  Forall (λ c, is_Some (col_min c.2)) (cols t) →
  cols t !! i = Some (name, cs) →
  ∃ v, col_min cs = Some v
       ∧ series_at (df_min t) i = Return v
       ∧ min_test t i = ge_zero v.
Proof.
  intros Hall Hi.
  assert (is_Some (col_min cs)) as [v Hv].
  { eapply Forall_lookup in Hall; [|exact Hi]. exact Hall. }
  assert (df_min t !! i = Some (name, v)) as Hlook.
  { unfold df_min.
    rewrite (omap_lookup_total (λ c, pair c.1 <$> col_min c.2)), Hi.
    - simpl. by rewrite Hv.
    - eapply Forall_impl; [exact Hall|]. intros c [y Hy]. simpl.
      rewrite Hy. eauto. }
  exists v. split; [done|]. unfold min_test, series_at. rewrite Hlook.
  by split.
Qed.

Lemma create_hd2_file_tests_own_minimum_witness :
  ∃ v, col_min [Flt Sample.f_one; Flt Sample.f_two] = Some v
       ∧ series_at (df_min Examples.b_table) 0 = Return v
       ∧ min_test Examples.b_table 0 = ge_zero v.
Proof.
  apply (create_hd2_file_tests_own_minimum Examples.b_table 0 "expr").
  - constructor; [|constructor].
    apply (bool_decide_unpack _). by vm_compute.
  - reflexivity.
Defined.

Lemma create_hd2_file_writes_witness :
  ∃ w', @create_hd2_file_body Sample.library Examples.scenario = (Return (), w')
    ∧ fs w' !! "clust.hd2"
      = Some ("num_db2_format_defs 2" +:+ Py.nl +:+ Py.nl
              +:+ "number_of_attributes 3" +:+ Py.nl
              +:+ "separator_char '" +:+ Py.tab +:+ "'" +:+ Py.nl +:+ Py.nl
              +:+ "0 dummy nil " +:+ dquote +:+ "gene" +:+ dquote +:+ Py.nl
              +:+ "1 discrete nominal " +:+ dquote +:+ "group" +:+ dquote
              +:+ " range 2" +:+ Py.nl
              +:+ "2 real scalar " +:+ dquote +:+ "expr" +:+ dquote
              +:+ " zero_point 0.0 rel_error 0.01" +:+ Py.nl).
Proof.
  destruct (@create_hd2_file_writes Sample.library Examples.scenario
              {| input_file := "";
                 df := Some {| index_name := Some "gene";
                               index := ["g1"; "g2"; "g3"];
                               cols := [("group", [Str "x"; Str "y"; Str "x"]);
                                        ("expr", [Flt Sample.f_one;
                                                  Flt Sample.f_two; NaN])] |};
                 column_meta :=
                   {[ "group" := new_meta "discrete" PyNone;
                      "expr" := set_missing true
                                  (new_meta "real scalar" (PyNum "0.01")) ]} |}
              {| index_name := Some "gene"; index := ["g1"; "g2"; "g3"];
                 cols := [("group", [Str "x"; Str "y"; Str "x"]);
                          ("expr", [Flt Sample.f_one; Flt Sample.f_two; NaN])] |}
              [new_meta "discrete" PyNone;
               set_missing true (new_meta "real scalar" (PyNum "0.01"))])
    as (w' & Hrun & Hfs & _).
  - by vm_compute.
  - reflexivity.
  - by vm_compute.
  - intros [|[|i]] name meta Hname Hmeta Hs.
    + injection Hmeta as <-. discriminate Hs.
    + by vm_compute.
    + discriminate Hmeta.
  - exists w'. split; [exact Hrun|]. rewrite Hfs, lookup_insert_eq.
    by vm_compute.
Defined.

Lemma create_hd2_file_leaves_partial_file_witness :
  ∃ w', @create_hd2_file_body Sample.library Examples.scenario_gap
        = (Raise (Exn IndexError "index out of bounds"), w')
    ∧ fs w' !! "clust.hd2"
      = Some ("num_db2_format_defs 2" +:+ Py.nl +:+ Py.nl
              +:+ "number_of_attributes 3" +:+ Py.nl
              +:+ "separator_char '" +:+ Py.tab +:+ "'" +:+ Py.nl +:+ Py.nl
              +:+ "0 dummy nil " +:+ dquote +:+ "gene" +:+ dquote +:+ Py.nl
              +:+ "1 discrete nominal " +:+ dquote +:+ "group" +:+ dquote
              +:+ " range 2" +:+ Py.nl).
Proof.
  destruct (@create_hd2_file_leaves_partial_file Sample.library
              Examples.scenario_gap
              {| input_file := "";
                 df := Some {| index_name := Some "gene";
                               index := ["g1"; "g2"; "g3"];
                               cols := [("group", [Str "x"; Str "y"; NaN]);
                                        ("expr", [Flt Sample.f_one;
                                                  Flt Sample.f_two;
                                                  Flt Sample.f_three])] |};
                 column_meta :=
                   {[ "group" := set_missing true (new_meta "discrete" PyNone);
                      "expr" := new_meta "real scalar" (PyNum "0.01") ]} |}
              {| index_name := Some "gene"; index := ["g1"; "g2"; "g3"];
                 cols := [("group", [Str "x"; Str "y"; NaN]);
                          ("expr", [Flt Sample.f_one; Flt Sample.f_two;
                                    Flt Sample.f_three])] |}
              ["group"] "expr" []
              [set_missing true (new_meta "discrete" PyNone)]
              (new_meta "real scalar" (PyNum "0.01")))
    as (w' & Hrun & Hfs).
  - by vm_compute.
  - reflexivity.
  - reflexivity.
  - by vm_compute.
  - by vm_compute.
  - reflexivity.
  - intros [|i] name meta Hname Hmeta Hs.
    + injection Hmeta as <-. discriminate Hs.
    + discriminate Hmeta.
  - by vm_compute.
  - exists w'. split; [exact Hrun|]. rewrite Hfs. by vm_compute.
Defined.

(** ** [add_input_data] *)

#[local] Instance file_kept_frame (r : ref) : Frame (file_kept r).
Proof.
  split; [done | | done].
  unfold file_kept. intros w1 w2 w3 ? ?. congruence.
Qed.

Lemma file_kept_update (r r' : ref) (f : Dataset → Dataset) :
  (∀ d, input_file (f d) = input_file d) →
  respects (file_kept r) (update r' f).
Proof.
  intros Hf. apply respects_modify. intros w. unfold file_kept, dataset_at.
  simpl. destruct (decide (r = r')) as [->|Hr].
  - rewrite list_lookup_alter_eq. destruct (heap w !! r'); simpl; [|done].
    by rewrite Hf.
  - by rewrite list_lookup_alter_ne.
Qed.

Section Adding.

Context `{Library}.

Lemma clean_column_names_keeps_file (self : ref) :
  respects (file_kept self) (clean_column_names self).
Proof.
  unfold clean_column_names, log_column_names, clean_column, update_df.
  frame; by apply file_kept_update.
Qed.

Lemma clean_columns_values (self : ref) (l : list string) w w' d :
  dataset_at w self = Some d →
  for_each l (clean_column self) w = (Return (), w') →
  ∃ d', dataset_at w' self = Some d'
        ∧ ∀ k m, column_meta d' !! k = Some m →
                 ∃ k0, column_meta d !! k0 = Some m.
Proof.
  revert w d. induction l as [|c l IH]; intros w d Hd Hrun.
  - simpl in Hrun. injection Hrun as <-. exists d. eauto.
  - simpl in Hrun. apply bind_inv_return in Hrun as ([] & w1 & Hc & Hrun).
    destruct (decide (Py.regex_sub c = c)) as [Hclean|Hdirty].
    + rewrite clean_column_kept in Hc by done. injection Hc as <-.
      by apply (IH w d).
    + destruct (column_meta d !! c) as [meta|] eqn:Hmeta.
      * destruct (clean_column_renames self c d meta w Hd Hdirty Hmeta)
          as (w1' & Hc' & Hd1 & _).
        rewrite Hc' in Hc. injection Hc as ->.
        destruct (IH w1 _ Hd1 Hrun) as (d' & Hd' & Hvalues).
        exists d'. split; [done|]. intros k m Hk.
        destruct (Hvalues k m Hk) as (k0 & Hk0). simpl in Hk0.
        destruct (decide (k0 = Py.regex_sub c)) as [->|Hne].
        -- rewrite lookup_insert_eq in Hk0. injection Hk0 as <-. eauto.
        -- rewrite lookup_insert_ne in Hk0 by done.
           apply lookup_delete_Some in Hk0 as [_ Hk0]. eauto.
      * destruct (clean_column_key_error self c d w Hd Hdirty Hmeta)
          as (w1' & Hc').
        rewrite Hc' in Hc. discriminate.
Qed.

Lemma clean_column_names_values (self : ref) w w' d :
  dataset_at w self = Some d →
  clean_column_names self w = (Return (), w') →
  ∃ d', dataset_at w' self = Some d'
        ∧ ∀ k m, column_meta d' !! k = Some m →
                 ∃ k0, column_meta d !! k0 = Some m.
Proof.
  unfold clean_column_names. intros Hd0 Hrun.
  apply bind_inv_return in Hrun as ([] & w0 & Hlog & Hrun).
  injection Hlog as <-.
  apply bind_inv_return in Hrun as (d1 & w0 & Hderef & Hrun).
  unfold deref in Hderef. simpl in Hderef. unfold dataset_at in Hd0.
  rewrite Hd0 in Hderef. injection Hderef as <- <-.
  apply bind_inv_return in Hrun as (t & w0 & Htable & Hrun).
  unfold table_of in Htable. destruct (df d) as [t0|] eqn:Ht; [|discriminate].
  injection Htable as -> <-.
  apply bind_inv_return in Hrun as (n' & w0 & Hname & Hrun).
  unfold regex_sub_name in Hname.
  destruct (index_name t) as [n|] eqn:Hn; [|discriminate].
  injection Hname as <- <-.
  apply bind_inv_return in Hrun as ([] & w2 & Hindex & Hrun).
  apply bind_inv_return in Hrun as ([] & w3 & Hloop & Hrun).
  destruct (clean_index_name self d t n
              (with_log (λ l, l ++ [(DEBUG, "Checking column names")]) w))
    as (w2' & d2 & Hindex' & Hd2 & Hmeta2 & Hdf2); [done..|].
  simpl in Hindex, Hindex'. rewrite Hindex' in Hindex. injection Hindex as ->.
  destruct (clean_columns_values self (columns t) w2 w3 d2 Hd2 Hloop)
    as (d3 & Hd3 & Hvalues).
  destruct (clean_columns_returned self (columns t) w2 w3 d2 Hd2 Hloop)
    as (d3' & Hd3' & Hdf3).
  rewrite Hd3 in Hd3'. injection Hd3' as <-.
  rewrite Hdf2 in Hdf3. simpl in Hdf3.
  destruct (log_column_names_debug self d3 _ w3 Hd3 Hdf3)
    as (entries & Hlog & _).
  rewrite Hlog in Hrun. injection Hrun as <-.
  exists d3. split; [done|]. intros k m Hk. rewrite <- Hmeta2. eauto.
Qed.

Lemma read_datafile_returned (self : ref) (file data_type : string)
    (error : pyval) (w w' : World) :
  read_datafile self file data_type error w = (Return (), w') →
  data_type ∈ data_types
  ∧ ∃ content t,
      fs w !! file = Some content
      ∧ NoDup (header_of content)
      ∧ read_table content (detect_encoding content) = Return t
      ∧ heap w'
        = alter (λ d, {| input_file := file; df := Some t;
                         column_meta :=
                           foldl (λ m c, <[c := new_meta data_type error]> m)
                             (column_meta d) (columns t) |})
            self (heap w).
Proof.
  intros Hrun.
  destruct (decide (data_type ∈ data_types)) as [Hty|Hty]; last first.
  { by rewrite read_datafile_bad_role in Hrun. }
  split; [done|].
  destruct (fs w !! file) as [content|] eqn:Hfile; last first.
  { by rewrite read_datafile_no_file in Hrun. }
  destruct (decide (NoDup (header_of content))) as [Hdup|Hdup]; last first.
  { by rewrite (read_datafile_repeated _ _ _ _ content) in Hrun. }
  destruct (read_table content (detect_encoding content)) as [t|e0] eqn:Ht.
  - destruct (read_datafile_returns self file data_type error content t w)
      as (w1 & Hret & _ & _ & _ & Hheap); [done..|].
    rewrite Hret in Hrun. injection Hrun as <-.
    exists content, t. by repeat split.
  - rewrite (read_datafile_opens _ _ _ _ content), Ht in Hrun by done.
    discriminate.
Qed.

Lemma check_column_no_meta (self : ref) (col : string) d w :
  heap w !! self = Some d →
  column_meta d !! col = None →
  (check_column self col w).1 = Raise (Exn KeyError (Py.repr col)).
Proof.
  intros Hd Hmeta. unfold check_column.
  erewrite bind_return by (unfold deref; rewrite Hd; reflexivity).
  erewrite bind_raise; [reflexivity|].
  unfold dict_get. by rewrite Hmeta.
Qed.

Lemma check_columns_returned (self : ref) d t (l : list string) w :
  heap w !! self = Some d → df d = Some t →
  (for_each l (check_column self) w).1 = Return () →
  Forall (λ c, is_Some (column_meta d !! c) ∧ offending d t c = false) l.
Proof.
  revert w. induction l as [|c l IH]; intros w Hd Ht Hrun; [constructor|].
  cbn [for_each] in Hrun.
  destruct (check_column_only_logs self c w) as [entries Hw].
  destruct (check_column self c w) as [[[]|e] w1] eqn:E.
  - simpl in Hw. subst w1.
    erewrite bind_return in Hrun by exact E.
    constructor;
      [|apply (IH (with_log (λ l, l ++ entries) w));
        [exact Hd | exact Ht | exact Hrun]].
    destruct (column_meta d !! c) as [meta|] eqn:Hmeta.
    + split; [eauto|].
      destruct (offending d t c) eqn:Hoff; [|done].
      pose proof (check_column_fails self c d t w Hd Ht Hoff) as Hfail.
      by rewrite E in Hfail.
    + pose proof (check_column_no_meta self c d w Hd Hmeta) as Hfail.
      by rewrite E in Hfail.
  - erewrite bind_raise in Hrun by exact E. discriminate.
Qed.

Lemma check_data_type_returned (self : ref) d t w :
  dataset_at w self = Some d → df d = Some t →
  (check_data_type self w).1 = Return () →
  ∀ c, c ∈ columns t →
    is_Some (column_meta d !! c) ∧ offending d t c = false.
Proof.
  intros Hd Ht Hrun c Hc.
  rewrite (check_data_type_loop self d t) in Hrun by done.
  eapply check_columns_returned in Hrun; [|exact Hd|exact Ht].
  by eapply Forall_forall in Hrun.
Qed.

Lemma add_input_data_steps (file ty : string) (e : pyval) (w w' : World) :
  add_input_data_body file ty e w = (Return (), w') →
  ty ∈ data_types
  ∧ ∃ entries w3 w4 w5,
      read_datafile (length (heap w)) file ty e
        (with_log (λ l, l ++ entries)
           (with_heap (λ h, h ++ [Dataset_init]) w)) = (Return (), w3)
      ∧ clean_column_names (length (heap w)) w3 = (Return (), w4)
      ∧ check_data_type (length (heap w)) w4 = (Return (), w5)
      ∧ w' = with_inp (λ self,
                set_input_datasets (input_datasets self ++ [length (heap w)])
                  self) w5.
Proof.
  intros Hrun. unfold add_input_data_body in Hrun.
  erewrite bind_return in Hrun by reflexivity.
  erewrite bind_return in Hrun by reflexivity.
  destruct (decide (ty ∈ data_types)) as [Hty|Hty]; last first.
  { rewrite bool_decide_eq_false_2 in Hrun by done.
    erewrite bind_raise in Hrun by reflexivity. discriminate. }
  split; [done|].
  rewrite bool_decide_eq_true_2 in Hrun by done.
  erewrite bind_return in Hrun by reflexivity.
  erewrite bind_return in Hrun by reflexivity.
  destruct (is_real ty).
  - erewrite bind_return in Hrun; last first.
    { erewrite bind_return by reflexivity. reflexivity. }
    erewrite bind_return in Hrun by reflexivity.
    apply bind_inv_return in Hrun as ([] & w3 & Hread & Hrun).
    apply bind_inv_return in Hrun as ([] & w4 & Hclean & Hrun).
    apply bind_inv_return in Hrun as ([] & w5 & Hcheck & Hrun).
    injection Hrun as <-. eexists _, w3, w4, w5. by repeat split.
  - erewrite bind_return in Hrun by reflexivity.
    erewrite bind_return in Hrun by reflexivity.
    apply bind_inv_return in Hrun as ([] & w3 & Hread & Hrun).
    apply bind_inv_return in Hrun as ([] & w4 & Hclean & Hrun).
    apply bind_inv_return in Hrun as ([] & w5 & Hcheck & Hrun).
    injection Hrun as <-. eexists _, w3, w4, w5. by repeat split.
Qed.

(** What a loaded dataset is.  When the body of [add_input_data] returns,
    the role is one of the three, and one object has been appended to the
    list of loaded datasets: a new one, which holds the file name and a
    table; the name of the row-key column and the names of the columns are
    made of characters of the whitelist and of ["_"]; every column has the
    role and the error given, is not flagged missing, and, under a real
    role, holds only cells that cast to float64.  The files and the
    objects that existed are as before. *)
Theorem add_input_data_loads (file ty : string) (e : pyval) (w w' : World) :
  add_input_data_body file ty e w = (Return (), w') →
  ty ∈ data_types
  ∧ input_datasets (inp w') = input_datasets (inp w) ++ [length (heap w)]
  ∧ fs w' = fs w
  ∧ (∀ r, r < length (heap w) → heap w' !! r = heap w !! r)
  ∧ ∃ d t n,
      dataset_at w' (length (heap w)) = Some d
      ∧ input_file d = file ∧ df d = Some t ∧ index_name t = Some n
      ∧ Forall (λ name, clean_chars name = true) (n :: columns t)
      ∧ (∀ c, c ∈ columns t →
           column_meta d !! c = Some (new_meta ty e)
           ∧ offending d t c = false).
Proof.
  intros Hrun.
  apply add_input_data_steps in Hrun
    as (Hty & entries & w3 & w4 & w5 & Hread & Hclean & Hcheck & ->).
  split; [exact Hty|].
  set (r := length (heap w)) in *.
  set (w2 := with_log _ _) in Hread.
  (* what each step leaves of the rest *)
  pose proof (read_datafile_only_object r file ty e w2) as Hframe3.
  rewrite Hread in Hframe3. destruct Hframe3 as (Hinp3 & Hfs3 & Hlen3 & Hrest3).
  pose proof (clean_column_names_only_object r w3) as Hframe4.
  rewrite Hclean in Hframe4. destruct Hframe4 as (Hinp4 & Hfs4 & Hlen4 & Hrest4).
  destruct (check_data_type_only_logs r w4) as [entries5 Hlogs5].
  rewrite Hcheck in Hlogs5. simpl in Hlogs5, Hinp3, Hfs3, Hrest3, Hinp4, Hfs4, Hrest4.
  subst w5.
  (* the object after the read *)
  apply read_datafile_returned in Hread
    as (_ & content & t0 & _ & _ & _ & Hheap3).
  assert (heap w2 !! r = Some Dataset_init) as Hd2.
  { unfold w2, r. simpl. rewrite lookup_app_r by done.
    by rewrite Nat.sub_diag. }
  set (d3 := {| input_file := file; df := Some t0;
                column_meta :=
                  foldl (λ m c, <[c := new_meta ty e]> m) ∅ (columns t0) |}).
  assert (dataset_at w3 r = Some d3) as Hd3.
  { unfold dataset_at. by rewrite Hheap3, list_lookup_alter_eq, Hd2. }
  (* the object after the cleaning *)
  destruct (clean_column_names_returned r w3 w4 Hclean)
    as (d3' & t & n & d4 & Hd3' & Ht & Hn & Hd4 & Hdf4).
  rewrite Hd3 in Hd3'. injection Hd3' as <-. injection Ht as <-.
  destruct (clean_column_names_values r w3 w4 d3 Hd3 Hclean)
    as (d4' & Hd4' & Hvalues).
  rewrite Hd4 in Hd4'. injection Hd4' as <-.
  pose proof (clean_column_names_keeps_file r w3) as Hfile4.
  rewrite Hclean in Hfile4. unfold file_kept in Hfile4. simpl in Hfile4.
  rewrite Hd3, Hd4 in Hfile4. injection Hfile4 as Hfile4.
  assert (∀ k m, column_meta d4 !! k = Some m → m = new_meta ty e) as Hall.
  { intros k m Hk. destruct (Hvalues k m Hk) as (k0 & Hk0).
    simpl in Hk0. rewrite declared_lookup in Hk0.
    case_bool_decide; [by injection Hk0 | by rewrite lookup_empty in Hk0]. }
  (* the check *)
  assert ((check_data_type r w4).1 = Return ()) as Hchecked by (by rewrite Hcheck).
  pose proof (check_data_type_returned r d4 (cleaned n t0) w4 Hd4 Hdf4 Hchecked)
    as Hcols.
  split; [|split; [|split]].
  - simpl. by rewrite Hinp4, Hinp3.
  - simpl. by rewrite Hfs4, Hfs3.
  - intros r' Hr'. simpl.
    rewrite Hrest4, Hrest3 by (unfold r; lia).
    unfold w2. simpl. by rewrite lookup_app_l.
  - exists d4, (cleaned n t0), (Py.regex_sub n).
    split; [exact Hd4|]. split; [done|]. split; [exact Hdf4|].
    split; [reflexivity|]. split.
    + apply Forall_cons. split; [apply sub_runs_clean_chars|].
      unfold columns, cleaned. cbn [cols]. rewrite <- list_fmap_compose.
      apply Forall_fmap, Forall_forall. intros c _. apply sub_runs_clean_chars.
    + intros c Hc. destruct (Hcols c Hc) as [[m Hm] Hok].
      split; [|exact Hok]. rewrite Hm. f_equal. by eapply Hall.
Qed.

Lemma load_steps_raise (r : ref) (file ty : string) (e : pyval)
    (f : World → World) (w2 w' : World) (ex : exn) :
  (_ ← read_datafile r file ty e;
   _ ← clean_column_names r;
   _ ← check_data_type r;
   modify f) w2 = (Raise ex, w') →
  only_object r w2 w'.
Proof.
  intros Hrun.
  pose proof (read_datafile_only_object r file ty e w2) as Hread.
  apply bind_inv_raise in Hrun as [E | ([] & w3 & E & Hrun)];
    rewrite E in Hread; [exact Hread|].
  pose proof (clean_column_names_only_object r w3) as Hclean.
  apply bind_inv_raise in Hrun as [E' | ([] & w4 & E' & Hrun)];
    rewrite E' in Hclean;
    [by eapply (frame_trans (R := only_object r))|].
  destruct (check_data_type_only_logs r w4) as [entries Hlogs].
  apply bind_inv_raise in Hrun as [E'' | ([] & w5 & E'' & Hrun)];
    [|discriminate].
  rewrite E'' in Hlogs. simpl in Hlogs.
  assert (only_object r w4 w') as Hcheck.
  { rewrite Hlogs. apply (frame_log (R := only_object r)). }
  eapply (frame_trans (R := only_object r)); [exact Hread|].
  by eapply (frame_trans (R := only_object r)).
Qed.

(** A file that fails to load is not added.  When the body of
    [add_input_data] raises, the orchestrator (so the list of loaded
    datasets), the files and every object that existed are as before.
    With a role that is none of the three it raises [AssertionError] before
    anything is read or logged. *)
Theorem add_input_data_adds_nothing_on_failure (file ty : string)
    (e : pyval) (w w' : World) (ex : exn) :
  add_input_data_body file ty e w = (Raise ex, w') →
  inp w' = inp w
  ∧ fs w' = fs w
  ∧ (∀ r, r < length (heap w) → heap w' !! r = heap w !! r)
  ∧ (ty ∉ data_types →
       ex = Exn AssertionError (role_msg file) ∧ log w' = log w).
Proof.
  intros Hrun. unfold add_input_data_body in Hrun.
  erewrite bind_return in Hrun by reflexivity.
  erewrite bind_return in Hrun by reflexivity.
  destruct (decide (ty ∈ data_types)) as [Hty|Hty]; last first.
  { rewrite bool_decide_eq_false_2 in Hrun by done.
    erewrite bind_raise in Hrun by reflexivity. injection Hrun as <- <-.
    simpl. repeat split; try done.
    intros r Hr. by rewrite lookup_app_l. }
  rewrite bool_decide_eq_true_2 in Hrun by done.
  erewrite bind_return in Hrun by reflexivity.
  erewrite bind_return in Hrun by reflexivity.
  assert (∃ entries,
            only_object (length (heap w))
              (with_log (λ l, l ++ entries)
                 (with_heap (λ h, h ++ [Dataset_init]) w)) w')
    as (entries & Hinp & Hfs & _ & Hrest).
  { destruct (is_real ty).
    - erewrite bind_return in Hrun; last first.
      { erewrite bind_return by reflexivity. reflexivity. }
      erewrite bind_return in Hrun by reflexivity.
      eexists. by eapply load_steps_raise.
    - erewrite bind_return in Hrun by reflexivity.
      erewrite bind_return in Hrun by reflexivity.
      eexists. by eapply load_steps_raise. }
  simpl in Hinp, Hfs, Hrest.
  split; [exact Hinp|]. split; [exact Hfs|]. split; [|done].
  intros r Hr. rewrite Hrest by lia. by rewrite lookup_app_l.
Qed.

End Adding.

Lemma add_input_data_loads_witness :
  input_datasets
    (inp (run (@add_input_data_body Sample.library "A.tsv" "discrete" PyNone)
            (Input_init "" "?" Py.tab false {[ "A.tsv" := Examples.a_tsv ]})))
  = [1]
  ∧ "discrete" ∈ data_types.
Proof.
  destruct (@add_input_data_loads Sample.library "A.tsv" "discrete" PyNone
              (Input_init "" "?" Py.tab false {[ "A.tsv" := Examples.a_tsv ]})
              (run (@add_input_data_body Sample.library "A.tsv" "discrete"
                      PyNone)
                 (Input_init "" "?" Py.tab false
                    {[ "A.tsv" := Examples.a_tsv ]})))
    as (Hty & Hds & _).
  - by vm_compute.
  - split; [exact Hds | exact Hty].
Defined.

Lemma add_input_data_adds_nothing_on_failure_witness :
  inp (run (@add_input_data_body Sample.library "dup.tsv" "discrete" PyNone)
         Examples.before_read)
  = inp Examples.before_read.
Proof.
  apply (@add_input_data_adds_nothing_on_failure Sample.library "dup.tsv"
           "discrete" PyNone Examples.before_read
           (run (@add_input_data_body Sample.library "dup.tsv" "discrete"
                   PyNone) Examples.before_read)
           (Exn DuplicateColumnName (duplicate_msg ["id"; "a"; "a"]))).
  by vm_compute.
Defined.
